(** * Radio-test backend: ingest, station matching and report outcomes

    A shallow embedding of the Python backend (app/reports.py, app/crud.py,
    app/schemas.py, app/models.py, app/database.py and the bulk endpoint of
    app/main.py), followed by the properties established about it.

    Modelling conventions.
    - A Python [str] is a Rocq [string] whose characters are read as code
      points below 256; the built-ins used by the code ([split], [strip],
      [lower], [in], [int]) are embedded in module [PyStr] with the behaviour
      CPython has on that range.
    - A Python [int] is a [Z].  A Python [float] is a binary64 number
      ([PrimFloat.float]) with the arithmetic of IEEE 754, which is what
      CPython computes for [+], [-], [*], [/] and [math.sqrt].  The functions
      the code takes from the C library and from the interpreter
      ([math.sin], [math.cos], [math.atan2], [round], [datetime.strptime])
      are the fields of a record, [runtime.functions], handed to the
      functions that call them; the checks CPython makes on their results
      (a [ValueError] for a NaN that comes out of a number) are embedded.
    - An exception is a value: fallible steps return [option] or [result],
      and every [try]/[except] of the source is a [match] on it.
    - The store is the list of the rows of [location_samples]; a session adds
      to it the rows waiting for the next flush, which queries do not read
      ([autoflush=False]).  An INSERT is refused for a [client_id] the table
      has, for an integer outside its column, and for a row the backend does
      not take for a reason of its own ([database.Engine]). *)

From Stdlib Require Import Bool List Arith ZArith QArith Ascii String Lia.
From Stdlib Require Import Floats.
Import ListNotations.

(** ** Python string built-ins *)

Module PyStr.

Local Open Scope string_scope.
Local Open Scope N_scope.

Definition ord (c : ascii) : N := N_of_ascii c.

Definition between (lo hi : N) (c : ascii) : bool :=
  (lo <=? ord c) && (ord c <=? hi).

(** [str.isspace] for one character: TAB..CR, FS..US and space, NEL, NBSP. *)
Definition isspace (c : ascii) : bool :=
  between 9 13 c || between 28 32 c || (ord c =? 133) || (ord c =? 160).

(** The blanks [int] skips around a literal: as [isspace] without FS..US. *)
Definition int_isspace (c : ascii) : bool :=
  between 9 13 c || (ord c =? 32) || (ord c =? 133) || (ord c =? 160).

Definition isdigit (c : ascii) : bool := between 48 57 c.

Fixpoint lstrip_by (p : ascii -> bool) (s : string) : string :=
  match s with
  | EmptyString => EmptyString
  | String c s' => if p c then lstrip_by p s' else s
  end.

Fixpoint rstrip_by (p : ascii -> bool) (s : string) : string :=
  match s with
  | EmptyString => EmptyString
  | String c s' =>
      match rstrip_by p s' with
      | EmptyString => if p c then EmptyString else String c EmptyString
      | r => String c r
      end
  end.

(** [s.strip()] *)
Definition strip (s : string) : string :=
  rstrip_by isspace (lstrip_by isspace s).

(** [c.lower()]: A..Z and the capital letters of Latin-1 (all of 192..222
    but the multiplication sign 215) move up by 32. *)
Definition lower_char (c : ascii) : ascii :=
  if between 65 90 c || (between 192 222 c && negb (ord c =? 215))
  then ascii_of_N (ord c + 32)
  else c.

(** [s.lower()] *)
Fixpoint lower (s : string) : string :=
  match s with
  | EmptyString => EmptyString
  | String c s' => String (lower_char c) (lower s')
  end.

(** [p in s] *)
Fixpoint contains (p s : string) : bool :=
  String.prefix p s ||
  match s with
  | EmptyString => false
  | String _ s' => contains p s'
  end.

(** [s.split(sep)] for a separator of one character; never the empty list. *)
Fixpoint split (sep : ascii) (s : string) : list string :=
  match s with
  | EmptyString => [EmptyString]
  | String c s' =>
      if Ascii.eqb c sep then EmptyString :: split sep s'
      else match split sep s' with
           | [] => [String c EmptyString]
           | w :: ws => String c w :: ws
           end
  end.

(** [s.split(sep)[0]] *)
Definition split_first (sep : ascii) (s : string) : string :=
  hd EmptyString (split sep s).

Definition digit_value (c : ascii) : Z := Z.of_N (ord c) - 48.

(** The digits of a decimal literal: at least one digit, and an underscore
    only between two digits.  [after_digit] tells whether the character
    just read was a digit. *)
Fixpoint int_digits (s : string) (acc : Z) (after_digit : bool) : option Z :=
  match s with
  | EmptyString => if after_digit then Some acc else None
  | String c s' =>
      if isdigit c then int_digits s' (10 * acc + digit_value c)%Z true
      else if Ascii.eqb c "_" && after_digit then int_digits s' acc false
      else None
  end.

(** [int(s)]; [None] stands for the [ValueError] it raises.  The bound
    CPython 3.11 puts on the number of digits of a literal (4300 unless
    configured otherwise) is not modelled. *)
Definition int (s : string) : option Z :=
  match rstrip_by int_isspace (lstrip_by int_isspace s) with
  | String "+" r => int_digits r 0 false
  | String "-" r => option_map Z.opp (int_digits r 0 false)
  | t => int_digits t 0 false
  end.

(** [s[:n]] *)
Fixpoint slice_to (n : N) (s : string) : string :=
  match s with
  | EmptyString => EmptyString
  | String c s' =>
      if n =? 0 then EmptyString else String c (slice_to (N.pred n) s')
  end.

(** [s.replace(old, '')] for an [old] that is not empty: the occurrences of
    [old] met from the left are left out.  [skip] counts the characters of
    an occurrence that are still to be passed over. *)
Fixpoint remove_from (old : string) (skip : nat) (s : string) : string :=
  match s with
  | EmptyString => EmptyString
  | String c s' =>
      match skip with
      | S k => remove_from old k s'
      | O =>
          if String.prefix old s
          then remove_from old (String.length old - 1) s'
          else String c (remove_from old 0 s')
      end
  end.

Definition remove (old s : string) : string := remove_from old 0 s.

(** [s < t]: by code points, a proper prefix first. *)
Fixpoint ltb (s t : string) : bool :=
  match s, t with
  | _, EmptyString => false
  | EmptyString, String _ _ => true
  | String a s', String b t' =>
      (ord a <? ord b) || ((ord a =? ord b) && ltb s' t')
  end.

(** [min] and [max] of the list [first :: rest]. *)
Definition min (first : string) (rest : list string) : string :=
  fold_left (fun m s => if ltb s m then s else m) rest first.

Definition max (first : string) (rest : list string) : string :=
  fold_left (fun m s => if ltb m s then s else m) rest first.

End PyStr.

(** ** Exceptions and results *)

(** What the request schema reports when a body does not validate. *)
Inductive validation_error : Type :=
  | TooManyItems (limit got : nat)   (* [max_items] exceeded *)
  | InvalidItems (positions : list nat).   (* items failing a field check *)

(** What a [ValueError] that reaches the handlers of the report is about. *)
Inductive value_error : Type :=
  | DateNotParsed
      (* [strptime]: "time data ... does not match format '%Y-%m-%d'" *)
  | CellOutOfSheet (row_idx col : Z).
      (* openpyxl: "Row numbers must be between 1 and 1048576", or
         "Row or column values must be at least 1" *)

(** The exceptions of the code, and the [detail] of the HTTP errors it
    raises, with its variable parts kept as data instead of being formatted
    into the message. *)
Inductive detail : Type :=
  | TooManySamples (got : nat)
      (* "Too many samples. Maximum 1000 per request, got {got}" *)
  | InternalServerError
      (* "Internal server error occurred" *)
  | NoDataForCriteria
      (* "No data found for the specified criteria" *)
  | NoDataForStations (station1 station2 : string)
      (* "No data found for stations: {station1} and/or {station2}" *)
  | NoMatchingTimePairs (station1_times station2_times : list string)
      (* "No matching time pairs found within 1.5-minute window.
          Station1 times: [...], Station2 times: [...]" *)
  | InvalidDateFormat (e : value_error)
      (* "Invalid date format: {e}" *)
  | ReportGenerationFailed (e : exn)
      (* "Report generation failed: {e}" *)

with exn : Type :=
  | HTTPException (status_code : Z) (d : detail)
  | RequestValidationError (e : validation_error)   (* answered with 422 *)
  | IntegrityError (client_id : string)   (* unique constraint violated *)
  | DataError (client_id : string)
      (* a value the column or the backend does not take *)
  | TransactionFailed (cause : exn)
      (* [Exception(f"Transaction failed: {e}")] *)
  | ZeroDivisionError
  | ValueError (e : value_error)
  | IllegalCharacterError (value : string).
      (* openpyxl: "{value} cannot be used in worksheets." *)

Inductive result (A : Type) : Type :=
  | Return (a : A)
  | Raise (e : exn).

Arguments Return {A} a.
Arguments Raise {A} e.

(** ** app/schemas.py *)

Module schemas.

Local Open Scope string_scope.

Record LocationSampleBase : Type := {
  id : string;
  lat : float;
  lon : float;
  acc : float;
  sample_date : string;
  sample_time : string;
  provider : string;
  freq : string;
  rf_pwr : string;
  comm_state : string;
  user : string;
  station : string;
  captured_at_utc : Z;
  sync : bool;
  attempt_count : Z;
  last_error : option string;
  synced_at_utc : option Z
}.

(** The two patterns of the validators are sequences of [\d] and literal
    characters between [^] and [$]. *)
Inductive token : Type :=
  | Digit
  | Lit (c : ascii).

Fixpoint match_tokens (ts : list token) (s : string) : option string :=
  match ts with
  | [] => Some s
  | t :: ts' =>
      match s with
      | EmptyString => None
      | String c s' =>
          if match t with
             | Digit => PyStr.isdigit c
             | Lit l => Ascii.eqb c l
             end
          then match_tokens ts' s'
          else None
      end
  end.

(** [$] without MULTILINE: the end, or just before a final newline. *)
Definition at_dollar (rest : string) : bool :=
  match rest with
  | EmptyString => true
  | String c EmptyString => Ascii.eqb c "010"
  | _ => false
  end.

Definition re_match (ts : list token) (v : string) : bool :=
  match match_tokens ts v with
  | Some rest => at_dollar rest
  | None => false
  end.

(** [^\d{4}-\d{2}-\d{2}$] *)
Definition date_pattern : list token :=
  [Digit; Digit; Digit; Digit; Lit "-"; Digit; Digit; Lit "-"; Digit; Digit].

(** [^\d{2}:\d{2}:\d{2}$] *)
Definition time_pattern : list token :=
  [Digit; Digit; Lit ":"; Digit; Digit; Lit ":"; Digit; Digit].

Definition validate_date_format (v : string) : bool :=
  re_match date_pattern v.

Definition validate_time_format (v : string) : bool :=
  re_match time_pattern v.

(** The [Field] bounds and the two validators of [LocationSampleBase]; a
    NaN fails every comparison. *)
Definition LocationSampleBase_valid (s : LocationSampleBase) : bool :=
  (-90 <=? lat s)%float && (lat s <=? 90)%float &&
  (-180 <=? lon s)%float && (lon s <=? 180)%float &&
  (0 <=? acc s)%float &&
  (0 <=? captured_at_utc s)%Z &&
  validate_date_format (sample_date s) &&
  validate_time_format (sample_time s).

Record BulkUploadRequest : Type := {
  deviceId : string;
  samples : list LocationSampleBase
}.

Definition max_items : nat := 1000.

(** The positions of the items of a list that fail their own validation. *)
Fixpoint invalid_positions (i : nat) (l : list LocationSampleBase) : list nat :=
  match l with
  | [] => []
  | s :: l' =>
      if LocationSampleBase_valid s then invalid_positions (S i) l'
      else i :: invalid_positions (S i) l'
  end.

(** Validation of a request body against [BulkUploadRequest]: the model is
    built only if the list respects [max_items] and every item validates. *)
Definition BulkUploadRequest_validate (r : BulkUploadRequest)
  : result BulkUploadRequest :=
  if (max_items <? List.length (samples r))%nat
  then Raise (RequestValidationError (TooManyItems max_items (List.length (samples r))))
  else match invalid_positions 0 (samples r) with
       | [] => Return r
       | bad => Raise (RequestValidationError (InvalidItems bad))
       end.

End schemas.

(** ** app/models.py *)

Module models.

(** A row of [location_samples].  The columns [server_id] and [received_at]
    take values generated when the row is inserted ([uuid4()], [utcnow()])
    and are left out. *)
Record LocationSample : Type := {
  client_id : string;
  lat : float;
  lon : float;
  acc : float;
  sample_date : string;
  sample_time : string;
  captured_at_utc : Z;
  provider : string;
  freq : string;
  rf_pwr : string;
  comm_state : string;
  user : string;
  station : string;
  device_id : string;
  sync : bool;
  attempt_count : Z;
  last_error : option string;
  synced_at_utc : option Z;
  processed : bool
}.

End models.

(** ** app/database.py *)

Module database.

Definition Table : Type := list models.LocationSample.

(** A session made by [SessionLocal]: the rows of the table, and the
    objects given to [add] and not yet flushed.  With [autoflush=False] a
    query reads the table only. *)
Record Session : Type := {
  table : Table;
  pending : list models.LocationSample
}.

Definition has_client_id (cid : string) (r : models.LocationSample) : bool :=
  String.eqb (models.client_id r) cid.

(** [db.query(LocationSample).filter(client_id == cid).first()] *)
Definition query_first_by_client_id (db : Session) (cid : string)
  : option models.LocationSample :=
  find (has_client_id cid) (table db).

(** [db.add(row)] *)
Definition add (db : Session) (row : models.LocationSample) : Session :=
  {| table := table db; pending := pending db ++ [row] |}.

(** The backend behind [create_engine(DATABASE_URL)].  Beyond the declared
    columns an INSERT depends on limits of the server and of the driver (the
    size of an indexed text, the characters that can be sent); [accepts]
    tells whether they admit a row, and nothing is assumed of it. *)
Record Engine : Type := {
  accepts : models.LocationSample -> bool
}.

(** The values of a [BigInteger] and of an [Integer] column. *)
Definition is_bigint (n : Z) : bool :=
  (-9223372036854775808 <=? n)%Z && (n <=? 9223372036854775807)%Z.

Definition is_integer (n : Z) : bool :=
  (-2147483648 <=? n)%Z && (n <=? 2147483647)%Z.

(** [captured_at_utc] and [synced_at_utc] are [BigInteger] columns,
    [attempt_count] is an [Integer] one. *)
Definition in_column_ranges (r : models.LocationSample) : bool :=
  is_bigint (models.captured_at_utc r) &&
  is_integer (models.attempt_count r) &&
  match models.synced_at_utc r with
  | Some n => is_bigint n
  | None => true
  end.

Definition insertable (engine : Engine) (r : models.LocationSample) : bool :=
  in_column_ranges r && accepts engine r.

(** The INSERTs of a flush, in the order of [add].  A row with a value that
    cannot be stored is refused; [client_id] is declared [unique=True], so a
    row whose [client_id] is already in the table is refused too. *)
Fixpoint flush (engine : Engine) (t : Table)
    (new : list models.LocationSample) : result Table :=
  match new with
  | [] => Return t
  | r :: new' =>
      if negb (insertable engine r)
      then Raise (DataError (models.client_id r))
      else if existsb (has_client_id (models.client_id r)) t
      then Raise (IntegrityError (models.client_id r))
      else flush engine (t ++ [r]) new'
  end.

(** [db.commit()]: the flush and the commit of its transaction. *)
Definition commit (engine : Engine) (db : Session) : result Session :=
  match flush engine (table db) (pending db) with
  | Return t => Return {| table := t; pending := [] |}
  | Raise e => Raise e
  end.

(** [db.rollback()] *)
Definition rollback (db : Session) : Session :=
  {| table := table db; pending := [] |}.

End database.

(** ** app/crud.py *)

Module crud.

(** The variables the loop of [create_location_samples_bulk] updates. *)
Record progress : Type := {
  successful_ids : list string;
  failed_samples : list (string * string);
  db : database.Session
}.

(** [models.LocationSample(client_id=sample_data.id, ...)] *)
Definition new_sample (sample_data : schemas.LocationSampleBase)
    (device_id : string) : models.LocationSample :=
  {| models.client_id := schemas.id sample_data;
     models.lat := schemas.lat sample_data;
     models.lon := schemas.lon sample_data;
     models.acc := schemas.acc sample_data;
     models.sample_date := schemas.sample_date sample_data;
     models.sample_time := schemas.sample_time sample_data;
     models.provider := schemas.provider sample_data;
     models.freq := schemas.freq sample_data;
     models.rf_pwr := schemas.rf_pwr sample_data;
     models.comm_state := schemas.comm_state sample_data;
     models.user := schemas.user sample_data;
     models.station := schemas.station sample_data;
     models.captured_at_utc := schemas.captured_at_utc sample_data;
     models.device_id := device_id;
     models.sync := schemas.sync sample_data || false;
     models.attempt_count :=
       (if schemas.attempt_count sample_data =? 0 then 0
        else schemas.attempt_count sample_data)%Z;
     models.last_error := schemas.last_error sample_data;
     models.synced_at_utc := schemas.synced_at_utc sample_data;
     models.processed := false |}.

(** One turn of [for sample_data in samples].  The look-up, the
    construction of the row and [add] are taken to return (a look-up that
    the driver cannot send is not modelled), so the handler of the inner
    [try] is not entered and [failed_samples] is handed on as it is. *)
Definition process_sample (device_id : string) (st : progress)
    (sample_data : schemas.LocationSampleBase) : progress :=
  match database.query_first_by_client_id (db st) (schemas.id sample_data) with
  | Some _ =>
      {| successful_ids := successful_ids st ++ [schemas.id sample_data];
         failed_samples := failed_samples st;
         db := db st |}
  | None =>
      {| successful_ids := successful_ids st ++ [schemas.id sample_data];
         failed_samples := failed_samples st;
         db := database.add (db st) (new_sample sample_data device_id) |}
  end.

(** [engine] is the backend the session [db] of the source is bound to. *)
Definition create_location_samples_bulk (engine : database.Engine)
    (session : database.Session)
    (samples : list schemas.LocationSampleBase) (device_id : string)
  : result (list string * list (string * string)) * database.Session :=
  let st :=
    fold_left (process_sample device_id) samples
      {| successful_ids := []; failed_samples := []; db := session |} in
  match database.commit engine (db st) with
  | Return session' =>
      (Return (successful_ids st, failed_samples st), session')
  | Raise e => (Raise (TransactionFailed e), database.rollback (db st))
  end.

End crud.

(** ** app/main.py: the bulk upload endpoint *)

Module main.

Local Open Scope string_scope.

(** The body of the 201 answer, without its timestamp; [processed] and
    [failed] are the two counts of its message. *)
Record response : Type := {
  status : string;
  processed : nat;
  failed : nat;
  synced_ids : list string
}.

(** The handler, called with a request that passed validation. *)
Definition bulk_upload_locations (engine : database.Engine)
    (request : schemas.BulkUploadRequest)
    (session : database.Session) : result response * database.Session :=
  let body :=
    if (1000 <? List.length (schemas.samples request))%nat
    then (Raise (HTTPException 400
                   (TooManySamples (List.length (schemas.samples request)))),
          session)
    else
      match crud.create_location_samples_bulk engine session
              (schemas.samples request) (schemas.deviceId request) with
      | (Return (successful_ids, failed_samples), session') =>
          (Return {| status := "success";
                     processed := List.length successful_ids;
                     failed := List.length failed_samples;
                     synced_ids := successful_ids |},
           session')
      | (Raise e, session') => (Raise e, session')
      end in
  match body with
  | (Return r, session') => (Return r, session')
  | (Raise _, session') =>
      (Raise (HTTPException 500 InternalServerError), session')
  end.

(** [POST /locations/bulk]: the body is validated against
    [schemas.BulkUploadRequest] before the handler is entered (a body that
    does not validate is answered with 422); the handler runs in a session
    of its own ([get_db]), closed when it is done. *)
Definition post_locations_bulk (engine : database.Engine)
    (body : schemas.BulkUploadRequest)
    (t : database.Table) : result response * database.Table :=
  match schemas.BulkUploadRequest_validate body with
  | Raise e => (Raise e, t)
  | Return request =>
      let (r, session') :=
        bulk_upload_locations engine request
          {| database.table := t; database.pending := [] |} in
      (r, database.table session')
  end.

End main.

(** ** The interpreter and the C library *)

Module runtime.

(** The functions the code calls and whose values are not computed here:
    [sin], [cos] and [atan2] as CPython gets them from the C library,
    [round(x, ndigits)] on a [float], and whether
    [datetime.strptime(s, "%Y-%m-%d")] returns. *)
Record functions : Type := {
  sin : float -> float;
  cos : float -> float;
  atan2 : float -> float -> float;
  round : float -> Z -> float;
  strptime_date : string -> bool
}.

End runtime.

(** ** The functions of the [math] module *)

Module math.

Local Open Scope float_scope.

(** [Py_MATH_PI] *)
Definition pi : float := 0x1.921fb54442d18p+1.

Definition degToRad : float := pi / 180.

(** [math.radians] *)
Definition radians (x : float) : float := x * degToRad.

(** The wrapper of the functions of one argument: a NaN that comes out of a
    number, or an infinity out of a finite number, is an error ([None]: a
    [ValueError], "math domain error"). *)
Definition math_1 (func : float -> float) (x : float) : option float :=
  let r := func x in
  if is_nan r && negb (is_nan x) then None
  else if is_infinity r && is_finite x then None
  else Some r.

(** The wrapper of the functions of two arguments. *)
Definition math_2 (func : float -> float -> float) (x y : float)
  : option float :=
  let r := func x y in
  if is_nan r && negb (is_nan x) && negb (is_nan y) then None
  else if is_infinity r && is_finite x && is_finite y then None
  else Some r.

Definition sin (rt : runtime.functions) : float -> option float :=
  math_1 (runtime.sin rt).

Definition cos (rt : runtime.functions) : float -> option float :=
  math_1 (runtime.cos rt).

(** [math.sqrt]: the square root of IEEE 754, a NaN on a negative number. *)
Definition sqrt : float -> option float := math_1 PrimFloat.sqrt.

Definition atan2 (rt : runtime.functions) : float -> float -> option float :=
  math_2 (runtime.atan2 rt).

End math.

(** ** openpyxl: the cells of a worksheet *)

Module openpyxl.

Local Open Scope string_scope.

(** The class of [ILLEGAL_CHARACTERS_RE]: the control characters other than
    TAB, LF and CR. *)
Definition is_illegal (c : ascii) : bool :=
  PyStr.between 0 8 c || PyStr.between 11 12 c || PyStr.between 14 31 c.

Fixpoint has_illegal (s : string) : bool :=
  match s with
  | EmptyString => false
  | String c s' => is_illegal c || has_illegal s'
  end.

(** [Cell.check_string]: the text is cut to 32767 characters and refused
    when an illegal character is left in it. *)
Definition check_string (value : string) : result string :=
  let value := PyStr.slice_to 32767 value in
  if has_illegal value then Raise (IllegalCharacterError value)
  else Return value.

(** A [PatternFill] of one solid colour and the colour of a [Font]. *)
Record Style : Type := {
  fill_color : string;
  font_color : string
}.

(** The value of a cell.  [SuccessRate successful total rate] is the text
    [f"Success Rate: {successful}/{total} ({rate:.1f}%)"], made of digits
    and punctuation. *)
Inductive Value : Type :=
  | Text (s : string)
  | Int (n : Z)
  | Number (x : float)
  | SuccessRate (successful total : nat) (rate : Q).

(** A cell that was written: where, what, and the fill and font given to it
    when they depend on the data (the fixed fonts, borders and alignments
    are left out). *)
Record Cell : Type := {
  row : Z;
  column : Z;
  value : Value;
  style : option Style
}.

(** A worksheet: its cells in the order they were created. *)
Definition Worksheet : Type := list Cell.

(** The value as the cell keeps it. *)
Definition bind_value (v : Value) : result Value :=
  match v with
  | Text s =>
      match check_string s with
      | Return s' => Return (Text s')
      | Raise e => Raise e
      end
  | _ => Return v
  end.

(** The last row of a sheet. *)
Definition max_row : Z := 1048576.

(** [ws.cell(row=row, column=column, value=value)] on a cell that does not
    exist yet: a row or a column below 1, or a row after the last one, is a
    [ValueError]; the value is bound to the cell that was made. *)
Definition cell (ws : Worksheet) (row_idx col : Z) (v : Value)
    (fill_font : option Style) : result Worksheet :=
  if (row_idx <? 1)%Z || (col <? 1)%Z || (max_row <? row_idx)%Z
  then Raise (ValueError (CellOutOfSheet row_idx col))
  else
    match bind_value v with
    | Return v' =>
        Return (ws ++ [{| row := row_idx; column := col; value := v';
                          style := fill_font |}])%list
    | Raise e => Raise e
    end.

(** [ws.merge_cells] of a range in the row [row_idx] that starts in column
    A: the range is layout and is not kept, but its first cell is made, with
    the check of the row that [cell] has. *)
Definition merge_cells (ws : Worksheet) (row_idx : Z) : result Worksheet :=
  if (row_idx <? 1)%Z || (max_row <? row_idx)%Z
  then Raise (ValueError (CellOutOfSheet row_idx 1))
  else Return ws.

(** [c.value = value] for the cell [c] at [row], [column]. *)
Definition set_value (ws : Worksheet) (row_idx col : Z) (v : Value)
  : result Worksheet :=
  match bind_value v with
  | Return v' =>
      Return (map (fun c =>
                     if (row c =? row_idx)%Z && (column c =? col)%Z
                     then {| row := row_idx; column := col; value := v';
                             style := style c |}
                     else c) ws)
  | Raise e => Raise e
  end.

End openpyxl.

(** ** app/reports.py *)

Module reports.

Local Open Scope string_scope.

(** Each call of [math] returns or raises; whichever raises first, the
    call of [haversine_distance] raises ([None]). *)
Definition haversine_distance (rt : runtime.functions)
    (lat1 lon1 lat2 lon2 : float) : option float :=
  let R := 6371000%float in
  let lat1_rad := math.radians lat1 in
  let lat2_rad := math.radians lat2 in
  let delta_lat := math.radians (lat2 - lat1) in
  let delta_lon := math.radians (lon2 - lon1) in
  match math.sin rt (delta_lat / 2), math.cos rt lat1_rad,
        math.cos rt lat2_rad, math.sin rt (delta_lon / 2) with
  | Some sin_lat, Some cos_lat1, Some cos_lat2, Some sin_lon =>
      let a := (sin_lat * sin_lat +
                cos_lat1 * cos_lat2 * sin_lon * sin_lon)%float in
      match math.sqrt a, math.sqrt (1 - a) with
      | Some sqrt_a, Some sqrt_1a =>
          match math.atan2 rt sqrt_a sqrt_1a with
          | Some angle =>
              let c := (2 * angle)%float in
              Some (R * c)%float
          | None => None
          end
      | _, _ => None
      end
  | _, _, _, _ => None
  end.

(** What [time_difference] returns: an [int], or [float('inf')]. *)
Inductive seconds : Type :=
  | Finite (n : Z)
  | Infinity.

(** [d <= tolerance] for an integer [tolerance]. *)
Definition seconds_le (d : seconds) (tolerance : Z) : bool :=
  match d with
  | Finite n => (n <=? tolerance)%Z
  | Infinity => false
  end.

(** [h, m, s = map(int, t.split(':'))] followed by
    [h * 3600 + m * 60 + s]; [None] when [int] or the unpacking raises. *)
Definition total_seconds (t : string) : option Z :=
  match map PyStr.int (PyStr.split ":" t) with
  | [Some h; Some m; Some s] => Some (h * 3600 + m * 60 + s)%Z
  | _ => None
  end.

Definition time_difference (time1 time2 : string) : seconds :=
  let time1 := PyStr.split_first "." time1 in
  let time2 := PyStr.split_first "." time2 in
  match total_seconds time1, total_seconds time2 with
  | Some total_seconds1, Some total_seconds2 =>
      Finite (Z.abs (total_seconds1 - total_seconds2))
  | _, _ => Infinity
  end.

Definition get_comm_state_value (comm_state : string) : Z :=
  let comm_state := PyStr.lower (PyStr.strip comm_state) in
  if PyStr.contains "loud and clear" comm_state then 3
  else if PyStr.contains "readable noisy" comm_state then 2
  else if PyStr.contains "noisy" comm_state then 1
  else 0.

(** *** File name and cell styles *)

Definition is_ascii (c : ascii) : bool := (PyStr.ord c <=? 127)%N.

(** [re.sub(r'[^\x00-\x7F]+', '_', text)]: every maximal run of characters
    above 127 becomes one underscore.  [in_run] tells whether the character
    just read belonged to such a run. *)
Fixpoint sub_non_ascii (text : string) (in_run : bool) : string :=
  match text with
  | EmptyString => EmptyString
  | String c text' =>
      if is_ascii c then String c (sub_non_ascii text' false)
      else if in_run then sub_non_ascii text' true
      else String "_" (sub_non_ascii text' true)
  end.

(** The class of the second pattern: the characters less-than,
    greater-than, colon, double quote, slash, backslash, bar, question mark
    and star. *)
Definition is_problematic (c : ascii) : bool :=
  existsb (Ascii.eqb c)
    ["<"; ">"; ":"; "034"; "/"; "\"; "|"; "?"; "*"]%char.

(** [re.sub] of that class by an underscore. *)
Fixpoint sub_problematic (text : string) : string :=
  match text with
  | EmptyString => EmptyString
  | String c text' =>
      String (if is_problematic c then "_"%char else c) (sub_problematic text')
  end.

Definition safe_filename (text : string) : string :=
  let text := sub_non_ascii text false in
  let text := sub_problematic text in
  text.

(** [f"radio_report_{safe_station1}_{safe_station2}_{start_date}_{end_date}.xlsx"] *)
Definition report_filename (station1 station2 start_date end_date : string)
  : string :=
  let safe_station1 := safe_filename station1 in
  let safe_station2 := safe_filename station2 in
  "radio_report_" ++ safe_station1 ++ "_" ++ safe_station2 ++ "_"
    ++ start_date ++ "_" ++ end_date ++ ".xlsx".

Definition get_comm_state_style (comm_state_value : Z) : openpyxl.Style :=
  if (comm_state_value =? 3)%Z then
    {| openpyxl.fill_color := "006400"; openpyxl.font_color := "FFFFFF" |}
  else if (comm_state_value =? 2)%Z then
    {| openpyxl.fill_color := "90EE90"; openpyxl.font_color := "000000" |}
  else if (comm_state_value =? 1)%Z then
    {| openpyxl.fill_color := "FFA500"; openpyxl.font_color := "000000" |}
  else
    {| openpyxl.fill_color := "8B0000"; openpyxl.font_color := "FFFFFF" |}.

(** *** Matching *)

(** An entry of [matched_pairs]. *)
Record MatchedPair : Type := {
  serial : nat;
  date : string;
  time : string;
  frequency : string;
  rf_power : string;
  lat_station1 : float;
  lon_station1 : float;
  lat_station2 : float;
  lon_station2 : float;
  distance : float;
  comm_state : string;
  comm_state_value : Z
}.

(** [s1_date == s2_date and time_diff <= 120] *)
Definition time_match (s1 s2 : models.LocationSample) : bool :=
  let s1_date := models.sample_date s1 in
  let s2_date := models.sample_date s2 in
  let s1_time := models.sample_time s1 in
  let s2_time := models.sample_time s2 in
  let time_diff := time_difference s1_time s2_time in
  String.eqb s1_date s2_date && seconds_le time_diff 120.

(** The body of the [try] under a time match; [None] when
    [haversine_distance] raises. *)
Definition make_pair (rt : runtime.functions)
    (matched_pairs : list MatchedPair)
    (s1 s2 : models.LocationSample) : option MatchedPair :=
  match haversine_distance rt (models.lat s1) (models.lon s1)
                              (models.lat s2) (models.lon s2) with
  | Some d =>
      Some {| serial := List.length matched_pairs + 1;
              date := models.sample_date s1;
              time := models.sample_time s1 ++ " (mean)";
              frequency := models.freq s1;
              rf_power := models.rf_pwr s1;
              lat_station1 := models.lat s1;
              lon_station1 := models.lon s1;
              lat_station2 := models.lat s2;
              lon_station2 := models.lon s2;
              distance := d;
              comm_state := models.comm_state s1;
              comm_state_value := get_comm_state_value (models.comm_state s1) |}
  | None => None
  end.

(** [for s2 in station2_samples]: leaves at the first pair appended
    ([break]); a pair that cannot be built is skipped ([continue]). *)
Fixpoint scan_station2 (rt : runtime.functions) (s1 : models.LocationSample)
    (station2_samples : list models.LocationSample)
    (matched_pairs : list MatchedPair) : list MatchedPair :=
  match station2_samples with
  | [] => matched_pairs
  | s2 :: rest =>
      if time_match s1 s2 then
        match make_pair rt matched_pairs s1 s2 with
        | Some p => matched_pairs ++ [p]
        | None => scan_station2 rt s1 rest matched_pairs
        end
      else scan_station2 rt s1 rest matched_pairs
  end.

(** [for s1 in station1_samples], from [matched_pairs = []]. *)
Definition match_stations (rt : runtime.functions)
    (station1_samples station2_samples : list models.LocationSample)
  : list MatchedPair :=
  fold_left
    (fun matched_pairs s1 => scan_station2 rt s1 station2_samples matched_pairs)
    station1_samples [].

(** *** The workbook *)

(** [comm_state_value in [2, 3]] *)
Definition is_successful (pair : MatchedPair) : bool :=
  (comm_state_value pair =? 2)%Z || (comm_state_value pair =? 3)%Z.

(** [successful / total * 100]; the division raises on [total = 0].  The
    quotient is kept as the rational number the two floating-point
    operations approximate. *)
Definition success_rate (successful total : nat) : result Q :=
  if (total =? 0)%nat then Raise ZeroDivisionError
  else Return (inject_Z (Z.of_nat successful) / inject_Z (Z.of_nat total) * 100)%Q.

(** What the call returns: the pairs and the figures of the summary line,
    the cells of the sheet that is saved as [file_data], and [filename].
    [total_pairs] is also the number of its [message]. *)
Record Report : Type := {
  rows : list MatchedPair;
  successful_communications : nat;
  total_pairs : nat;
  rate : Q;
  sheet : openpyxl.Worksheet;
  filename : string
}.

Definition bind {A B : Type} (r : result A) (k : A -> result B) : result B :=
  match r with
  | Return a => k a
  | Raise e => Raise e
  end.

Notation "x <- r ;; k" := (bind r (fun x => k))
  (at level 61, r at next level, right associativity).

Definition title : string :=
  "Radio Set Field Test and Trial/ Field Functional Test Report - Auto Generated".

(** The title and the header block, rows 1 to 6. *)
Definition write_header (start_date end_date station1 station2 : string)
    (matched_pairs : list MatchedPair) : result openpyxl.Worksheet :=
  ws <- openpyxl.merge_cells [] 1 ;;
  ws <- openpyxl.cell ws 1 1 (openpyxl.Text title) None ;;
  ws <- openpyxl.cell ws 3 1 (openpyxl.Text "Date:") None ;;
  ws <- openpyxl.cell ws 3 3 (openpyxl.Text start_date) None ;;
  ws <- (if String.eqb start_date end_date then Return ws
         else openpyxl.set_value ws 3 3
                (openpyxl.Text (start_date ++ " to " ++ end_date))) ;;
  let times :=
    map (fun pair => PyStr.remove " (mean)" (time pair)) matched_pairs in
  ws <- match times with
        | [] => Return ws
        | t :: times' =>
            ws <- openpyxl.cell ws 4 1 (openpyxl.Text "Period Covering:") None ;;
            openpyxl.cell ws 4 3
              (openpyxl.Text (PyStr.min t times' ++ " (initial time), "
                              ++ PyStr.max t times' ++ " (last time)")) None
        end ;;
  ws <- openpyxl.cell ws 5 1 (openpyxl.Text "Stations:") None ;;
  ws <- openpyxl.cell ws 5 3 (openpyxl.Text (station1 ++ ", " ++ station2)) None ;;
  ws <- openpyxl.cell ws 6 1 (openpyxl.Text "Terrain Type:") None ;;
  openpyxl.cell ws 6 3 (openpyxl.Text "----------Blank----------") None.

Definition headers (station1 station2 : string) : list string :=
  ["Serial"; "Date"; "Time"; "Frequency"; "RF Power";
   "Lat (" ++ station1 ++ ")"; "Lon (" ++ station1 ++ ")";
   "Lat (" ++ station2 ++ ")"; "Lon (" ++ station2 ++ ")";
   "Distance (m)"; "Comm State"].

(** [for col, header in enumerate(headers, 1)], from column [col]. *)
Fixpoint write_headers (ws : openpyxl.Worksheet) (col : Z)
    (headers : list string) : result openpyxl.Worksheet :=
  match headers with
  | [] => Return ws
  | header :: headers' =>
      ws <- openpyxl.cell ws 8 col (openpyxl.Text header) None ;;
      write_headers ws (col + 1) headers'
  end.

(** The eleven cells of one pair. *)
Definition write_pair (rt : runtime.functions) (ws : openpyxl.Worksheet)
    (row_idx : Z) (pair : MatchedPair) : result openpyxl.Worksheet :=
  ws <- openpyxl.cell ws row_idx 1 (openpyxl.Int (Z.of_nat (serial pair))) None ;;
  ws <- openpyxl.cell ws row_idx 2 (openpyxl.Text (date pair)) None ;;
  ws <- openpyxl.cell ws row_idx 3 (openpyxl.Text (time pair)) None ;;
  ws <- openpyxl.cell ws row_idx 4 (openpyxl.Text (frequency pair)) None ;;
  ws <- openpyxl.cell ws row_idx 5 (openpyxl.Text (rf_power pair)) None ;;
  ws <- openpyxl.cell ws row_idx 6
          (openpyxl.Number (runtime.round rt (lat_station1 pair) 6)) None ;;
  ws <- openpyxl.cell ws row_idx 7
          (openpyxl.Number (runtime.round rt (lon_station1 pair) 6)) None ;;
  ws <- openpyxl.cell ws row_idx 8
          (openpyxl.Number (runtime.round rt (lat_station2 pair) 6)) None ;;
  ws <- openpyxl.cell ws row_idx 9
          (openpyxl.Number (runtime.round rt (lon_station2 pair) 6)) None ;;
  ws <- openpyxl.cell ws row_idx 10
          (openpyxl.Number (runtime.round rt (distance pair) 2)) None ;;
  openpyxl.cell ws row_idx 11 (openpyxl.Text (comm_state pair))
    (Some (get_comm_state_style (comm_state_value pair))).

(** [for row_idx, pair in enumerate(matched_pairs, 9)], from [row_idx],
    with the count of the successful communications. *)
Fixpoint write_pairs (rt : runtime.functions) (ws : openpyxl.Worksheet)
    (row_idx : Z) (matched_pairs : list MatchedPair)
    (successful_communications : nat) : result (openpyxl.Worksheet * nat) :=
  match matched_pairs with
  | [] => Return (ws, successful_communications)
  | p :: rest =>
      ws <- write_pair rt ws row_idx p ;;
      write_pairs rt ws (row_idx + 1) rest
        (if is_successful p then successful_communications + 1
         else successful_communications)
  end.

(** From "Create Excel workbook" to the [return]. *)
Definition assemble_report (rt : runtime.functions)
    (start_date end_date station1 station2 : string)
    (matched_pairs : list MatchedPair) : result Report :=
  ws <- write_header start_date end_date station1 station2 matched_pairs ;;
  ws <- write_headers ws 1 (headers station1 station2) ;;
  written <- write_pairs rt ws 9 matched_pairs 0 ;;
  let (ws, successful_communications) := written in
  let summary_row := (Z.of_nat (List.length matched_pairs) + 10)%Z in
  ws <- openpyxl.merge_cells ws summary_row ;;
  r <- success_rate successful_communications (List.length matched_pairs) ;;
  ws <- openpyxl.cell ws summary_row 1
          (openpyxl.SuccessRate successful_communications
             (List.length matched_pairs) r) None ;;
  Return {| rows := matched_pairs;
            successful_communications := successful_communications;
            total_pairs := List.length matched_pairs;
            rate := r;
            sheet := ws;
            filename := report_filename station1 station2 start_date end_date |}.

Definition is_station (name : string) (s : models.LocationSample) : bool :=
  String.eqb (models.station s) name.

Definition is_empty {A : Type} (l : list A) : bool :=
  match l with
  | [] => true
  | _ :: _ => false
  end.

(** [generate_station_report], from the list [samples] its query returned
    (the query itself is not embedded).  The handlers of the outer [try]
    come in the order of the source: a [ValueError] is answered 400, an
    [HTTPException] is raised again, anything else is answered 500. *)
Definition generate_station_report (rt : runtime.functions)
    (start_date end_date station1 station2 : string)
    (samples : list models.LocationSample) : result Report :=
  let body :=
    if negb (runtime.strptime_date rt start_date
             && runtime.strptime_date rt end_date)
    then Raise (HTTPException 400 (InvalidDateFormat DateNotParsed))
    else if is_empty samples then Raise (HTTPException 404 NoDataForCriteria)
    else
      let station1_samples := filter (is_station station1) samples in
      let station2_samples := filter (is_station station2) samples in
      if is_empty station1_samples || is_empty station2_samples
      then Raise (HTTPException 404 (NoDataForStations station1 station2))
      else
        let matched_pairs :=
          match_stations rt station1_samples station2_samples in
        if is_empty matched_pairs then
          let station1_times := map models.sample_time station1_samples in
          let station2_times := map models.sample_time station2_samples in
          Raise (HTTPException 404
                   (NoMatchingTimePairs station1_times station2_times))
        else
          assemble_report rt start_date end_date station1 station2
            matched_pairs in
  match body with
  | Return r => Return r
  | Raise (ValueError e) => Raise (HTTPException 400 (InvalidDateFormat e))
  | Raise (HTTPException status_code d) => Raise (HTTPException status_code d)
  | Raise e => Raise (HTTPException 500 (ReportGenerationFailed e))
  end.

End reports.

(** ** app/main.py: the helpers of the report section *)

Module main_helpers.

Local Open Scope string_scope.

(** [time_difference] of main.py: as the one of reports.py without the
    removal of fractional seconds and without the [try]; [None] stands for
    the [ValueError] that escapes it. *)
Definition time_difference (time1 time2 : string) : option Z :=
  match map PyStr.int (PyStr.split ":" time1) with
  | [Some h1; Some m1; Some s1] =>
      match map PyStr.int (PyStr.split ":" time2) with
      | [Some h2; Some m2; Some s2] =>
          let total_seconds1 := (h1 * 3600 + m1 * 60 + s1)%Z in
          let total_seconds2 := (h2 * 3600 + m2 * 60 + s2)%Z in
          Some (Z.abs (total_seconds1 - total_seconds2))
      | _ => None
      end
  | _ => None
  end.

End main_helpers.

(** ** app/main.py: the endpoints that read the store *)

Module main_endpoints.

Local Open Scope string_scope.

(** What a read endpoint gives back: the body of its answer, or the HTTP
    error it raises. *)
Inductive reply (A : Type) : Type :=
  | Answer (a : A)
  | HTTPError (status_code : Z) (detail : string).

Arguments Answer {A} a.
Arguments HTTPError {A} status_code detail.

(** The dictionary [get_sample_by_id] returns, without [server_id] and
    [received_at]. *)
Record SampleView : Type := {
  client_id : string;
  device_id : string;
  lat : float;
  lon : float;
  acc : float;
  sample_date : string;
  sample_time : string;
  provider : string;
  freq : string;
  rf_pwr : string;
  comm_state : string;
  user : string;
  station : string;
  captured_at_utc : Z;
  processed : bool
}.

Definition view (sample : models.LocationSample) : SampleView :=
  {| client_id := models.client_id sample;
     device_id := models.device_id sample;
     lat := models.lat sample;
     lon := models.lon sample;
     acc := models.acc sample;
     sample_date := models.sample_date sample;
     sample_time := models.sample_time sample;
     provider := models.provider sample;
     freq := models.freq sample;
     rf_pwr := models.rf_pwr sample;
     comm_state := models.comm_state sample;
     user := models.user sample;
     station := models.station sample;
     captured_at_utc := models.captured_at_utc sample;
     processed := models.processed sample |}.

(** [GET /samples/{client_id}] *)
Definition get_sample_by_id (client_id : string) (t : database.Table)
  : reply SampleView :=
  match database.query_first_by_client_id
          {| database.table := t; database.pending := [] |} client_id with
  | None => HTTPError 404 "Sample not found"
  | Some sample => Answer (view sample)
  end.

(** [GET /samples/count] *)
Definition get_samples_count (t : database.Table) : nat := List.length t.

(** *** Trajectories *)

(** A row of the query of the two trajectory endpoints ([received_at], which
    the loop does not read, left out). *)
Record Row : Type := {
  row_lat : float;
  row_lon : float;
  row_station : string;
  row_device_id : string;
  row_sample_date : string;
  row_sample_time : string;
  row_captured_at_utc : Z;
  row_acc : float
}.

(** An entry of a list of coordinates. *)
Record Coordinate : Type := {
  c_lat : float;
  c_lng : float;
  c_station : string;
  c_device_id : string;
  c_sample_date : string;
  c_sample_time : string;
  c_captured_at_utc : Z;
  c_accuracy : float;
  c_timestamp : string
}.

Record Trajectory : Type := {
  t_station : string;
  t_device_id : string;
  coordinates : list Coordinate
}.

(** [f"{row.station}_{row.device_id}"] *)
Definition trajectory_key (row : Row) : string :=
  row_station row ++ "_" ++ row_device_id row.

Section Grouping.

(** [datetime.strptime(s, "%Y-%m-%d %H:%M:%S").isoformat()], [None] when
    it raises: taken as given. *)
Variable isoformat : string -> option string.

Definition coordinate_of (row : Row) : Coordinate :=
  let datetime_str := row_sample_date row ++ " " ++ row_sample_time row in
  let timestamp :=
    match isoformat datetime_str with
    | Some iso => iso
    | None => datetime_str
    end in
  {| c_lat := row_lat row;
     c_lng := row_lon row;
     c_station := row_station row;
     c_device_id := row_device_id row;
     c_sample_date := row_sample_date row;
     c_sample_time := row_sample_time row;
     c_captured_at_utc := row_captured_at_utc row;
     c_accuracy := row_acc row;
     c_timestamp := timestamp |}.

(** One turn of [for row in rows] on the dictionary [trajectories], kept
    as the list of its items in the order of insertion: the entry of the
    key is created if it is missing, and the coordinate is appended to
    it. *)
Fixpoint add_row (row : Row) (trajectories : list (string * Trajectory))
  : list (string * Trajectory) :=
  match trajectories with
  | [] =>
      [(trajectory_key row,
        {| t_station := row_station row;
           t_device_id := row_device_id row;
           coordinates := [coordinate_of row] |})]
  | (k, traj) :: rest =>
      if String.eqb k (trajectory_key row) then
        (k, {| t_station := t_station traj;
               t_device_id := t_device_id traj;
               coordinates := coordinates traj ++ [coordinate_of row] |})
        :: rest
      else (k, traj) :: add_row row rest
  end.

Definition group_rows (rows : list Row) : list (string * Trajectory) :=
  fold_left (fun trajectories row => add_row row trajectories) rows [].

(** [sum(len(traj['coordinates']) for traj in trajectories.values())] *)
Definition total_coordinates (trajectories : list (string * Trajectory))
  : nat :=
  list_sum (map (fun kv => List.length (coordinates (snd kv))) trajectories).

(** The body of the answer of the two endpoints ([date_queried] and the
    like left out). *)
Inductive TrajectoryAnswer : Type :=
  | NoDataForDate   (* "No data found for date ...", [data] empty *)
  | Trajectories (total_trajectories total : nat) (data : list Trajectory).

Definition answer_of (trajectories : list (string * Trajectory))
  : TrajectoryAnswer :=
  Trajectories (List.length trajectories) (total_coordinates trajectories)
    (map snd trajectories).

(** [GET /api/trajectories], from the rows of its query. *)
Definition get_trajectories (rows : list Row) : TrajectoryAnswer :=
  match rows with
  | [] => NoDataForDate
  | _ :: _ => answer_of (group_rows rows)
  end.

(** [GET /api/trajectories/date-range], from the rows of its query. *)
Definition get_trajectories_date_range (rows : list Row) : TrajectoryAnswer :=
  answer_of (group_rows rows).

End Grouping.

End main_endpoints.

(** ** Notions used to state the properties *)

Module binary64.

(** A number that is neither a NaN nor an infinity. *)
Definition SFfinite (x : spec_float) : bool :=
  match x with
  | S754_zero _ | S754_finite _ _ _ => true
  | _ => false
  end.

(** Zero, or a finite number [m * 2^e] with [e <= e0]. *)
Definition exponent_le (x : spec_float) (e0 : Z) : Prop :=
  match x with
  | S754_zero _ => True
  | S754_finite _ _ e => (e <= e0)%Z
  | _ => False
  end.

End binary64.

Module Spec.

Local Open Scope string_scope.

(** [p] occurs in [s]. *)
Definition Substring (p s : string) : Prop :=
  exists before after, s = before ++ p ++ after.

Fixpoint has_char (c : ascii) (s : string) : bool :=
  match s with
  | EmptyString => false
  | String a s' => Ascii.eqb a c || has_char c s'
  end.

(** [s] is not empty and its last character does not satisfy [f]. *)
Fixpoint ends_outside (f : ascii -> bool) (s : string) : bool :=
  match s with
  | EmptyString => false
  | String c EmptyString => negb (f c)
  | String _ s' => ends_outside f s'
  end.

Definition digit_char (d : nat) : ascii := ascii_of_nat (48 + d).

(** A number below 100 written with two digits. *)
Definition two_digits (n : nat) : string :=
  String (digit_char (n / 10)) (String (digit_char (n mod 10)) EmptyString).

(** The time of day [h:m:s] written [HH:MM:SS]. *)
Definition hhmmss (h m s : nat) : string :=
  two_digits h ++ ":" ++ two_digits m ++ ":" ++ two_digits s.

(** An optional suffix of fractional seconds: a dot and what follows it. *)
Definition fraction (f : option string) : string :=
  match f with
  | None => EmptyString
  | Some digits => "." ++ digits
  end.

Definition seconds_since_midnight (h m s : nat) : Z :=
  Z.of_nat h * 3600 + Z.of_nat m * 60 + Z.of_nat s.

(** A time string on which the parsing of [time_difference] fails. *)
Definition malformed (t : string) : Prop :=
  reports.total_seconds (PyStr.split_first "." t) = None.

(** The pair reported for station-1 sample [s1] matched with [s2], at the
    distance [d]. *)
Definition pair_of (n : nat) (s1 s2 : models.LocationSample) (d : float)
  : reports.MatchedPair :=
  {| reports.serial := n;
     reports.date := models.sample_date s1;
     reports.time := models.sample_time s1 ++ " (mean)";
     reports.frequency := models.freq s1;
     reports.rf_power := models.rf_pwr s1;
     reports.lat_station1 := models.lat s1;
     reports.lon_station1 := models.lon s1;
     reports.lat_station2 := models.lat s2;
     reports.lon_station2 := models.lon s2;
     reports.distance := d;
     reports.comm_state := models.comm_state s1;
     reports.comm_state_value :=
       reports.get_comm_state_value (models.comm_state s1) |}.

(** The distance of two samples, [None] when its computation raises. *)
Definition sample_distance (rt : runtime.functions)
    (s1 s2 : models.LocationSample) : option float :=
  reports.haversine_distance rt (models.lat s1) (models.lon s1)
                                (models.lat s2) (models.lon s2).

(** [s2] can be paired with [s1]: it is a time match for it and the
    distance of the two can be computed. *)
Definition pairable (rt : runtime.functions)
    (s1 s2 : models.LocationSample) : bool :=
  reports.time_match s1 s2 &&
  match sample_distance rt s1 s2 with
  | Some _ => true
  | None => false
  end.

(** Each station-1 sample with the first station-2 sample, in the order of
    the list, that can be paired with it, and their distance; samples
    without one drop out. *)
Definition first_matches (rt : runtime.functions)
    (station1_samples station2_samples : list models.LocationSample)
  : list (models.LocationSample * models.LocationSample * float) :=
  flat_map
    (fun s1 =>
       match find (pairable rt s1) station2_samples with
       | Some s2 =>
           match sample_distance rt s1 s2 with
           | Some d => [(s1, s2, d)]
           | None => []
           end
       | None => []
       end)
    station1_samples.

(** The pairs of a list of matches, numbered from [n]. *)
Fixpoint numbered (n : nat)
    (l : list (models.LocationSample * models.LocationSample * float))
  : list reports.MatchedPair :=
  match l with
  | [] => []
  | (s1, s2, d) :: l' => pair_of n s1 s2 d :: numbered (S n) l'
  end.

(** The rows of a table that carry a given [client_id]. *)
Definition rows_of (cid : string) (t : database.Table) : database.Table :=
  filter (database.has_client_id cid) t.

(** The [client_id]s of a table are pairwise different. *)
Definition unique_client_ids (t : database.Table) : Prop :=
  NoDup (map models.client_id t).

(** A sample of a batch is unseen when no row of the table has its [id]. *)
Definition unseen (t : database.Table) (s : schemas.LocationSampleBase)
  : bool :=
  negb (existsb (database.has_client_id (schemas.id s)) t).

(** A session as [get_db] hands it to a request. *)
Definition fresh_session (t : database.Table) : database.Session :=
  {| database.table := t; database.pending := [] |}.

(** Every character of [s] satisfies [p]. *)
Fixpoint all_chars (p : ascii -> bool) (s : string) : bool :=
  match s with
  | EmptyString => true
  | String c s' => p c && all_chars p s'
  end.

(** A character a file name may keep. *)
Definition filename_safe (c : ascii) : bool :=
  reports.is_ascii c && negb (reports.is_problematic c).

(** A calendar-like date [y-m-d] written [YYYY-MM-DD]. *)
Definition yyyymmdd (y m d : nat) : string :=
  two_digits (y / 100) ++ two_digits (y mod 100)
    ++ "-" ++ two_digits m ++ "-" ++ two_digits d.

Definition newline : string := String "010" EmptyString.

(** The first entry of a list of items with a given key. *)
Fixpoint lookup {A : Type} (k : string) (l : list (string * A)) : option A :=
  match l with
  | [] => None
  | (k', a) :: l' => if String.eqb k' k then Some a else lookup k l'
  end.

(** The rows of a list that have a given trajectory key. *)
Definition rows_with_key (k : string) (rows : list main_endpoints.Row)
  : list main_endpoints.Row :=
  filter (fun row => String.eqb (main_endpoints.trajectory_key row) k) rows.

(** The fields of a stored row are in the ranges of the upload schema. *)
Definition row_in_range (r : models.LocationSample) : bool :=
  (-90 <=? models.lat r)%float && (models.lat r <=? 90)%float &&
  (-180 <=? models.lon r)%float && (models.lon r <=? 180)%float &&
  (0 <=? models.acc r)%float &&
  (0 <=? models.captured_at_utc r)%Z &&
  schemas.validate_date_format (models.sample_date r) &&
  schemas.validate_time_format (models.sample_time r).

(** A text that openpyxl takes in a cell: no illegal character in it. *)
Definition printable (s : string) : bool := negb (openpyxl.has_illegal s).

(** The texts of a pair. *)
Definition printable_pair (p : reports.MatchedPair) : bool :=
  printable (reports.date p) && printable (reports.time p) &&
  printable (reports.frequency p) && printable (reports.rf_power p) &&
  printable (reports.comm_state p).

(** The texts of a sample that go into its pair. *)
Definition printable_sample (s : models.LocationSample) : bool :=
  printable (models.sample_date s) && printable (models.sample_time s) &&
  printable (models.freq s) && printable (models.rf_pwr s) &&
  printable (models.comm_state s).

(** A result that is a value. *)
Definition returns {A : Type} (r : result A) : Prop :=
  exists a, r = Return a.

(** A result that is a value or one of the two exceptions of a cell
    write: an illegal character, or, where [P] does not hold, a cell out
    of the sheet. *)
Definition fails_on_cell (P : Prop) {A : Type} (r : result A) : Prop :=
  match r with
  | Return _ => True
  | Raise (IllegalCharacterError _) => True
  | Raise (ValueError (CellOutOfSheet _ _)) => ~ P
  | Raise _ => False
  end.

(** The rows of a sheet that [n] pairs take, the last being that of the
    summary, are rows of the sheet. *)
Definition fits_sheet (n : nat) : Prop :=
  (Z.of_nat n + 10 <= openpyxl.max_row)%Z.

(** The trajectory the rows of one key make: the station and the device of
    the first of them, and the coordinates of all, in their order. *)
Definition trajectory_of (isoformat : string -> option string)
    (rows : list main_endpoints.Row) : option main_endpoints.Trajectory :=
  match rows with
  | [] => None
  | r0 :: _ =>
      Some {| main_endpoints.t_station := main_endpoints.row_station r0;
              main_endpoints.t_device_id := main_endpoints.row_device_id r0;
              main_endpoints.coordinates :=
                map (main_endpoints.coordinate_of isoformat) rows |}
  end.

End Spec.

(** ** Sample data *)

Module Examples.

Local Open Scope string_scope.

(** A stored sample of the given station, date, time and position. *)
Definition stored (cid station date time : string) (lat lon : float)
  : models.LocationSample :=
  {| models.client_id := cid;
     models.lat := lat;
     models.lon := lon;
     models.acc := 5;
     models.sample_date := date;
     models.sample_time := time;
     models.captured_at_utc := 1714557600000;
     models.provider := "FUSED";
     models.freq := "145.500";
     models.rf_pwr := "5W";
     models.comm_state := "Loud and Clear";
     models.user := "operator";
     models.station := station;
     models.device_id := "device-1";
     models.sync := false;
     models.attempt_count := 0;
     models.last_error := None;
     models.synced_at_utc := None;
     models.processed := false |}.

(** The samples of the matching example: A of station 1 at 10:00:00, B and
    C of station 2 at 10:01:00 and 10:01:30, all on one day. *)
Definition A := stored "a" "alpha" "2024-05-01" "10:00:00" 23.75 90.5.
Definition B := stored "b" "bravo" "2024-05-01" "10:01:00" 23.8125 90.5625.
Definition C := stored "c" "bravo" "2024-05-01" "10:01:30" 23.875 90.625.

(** A station-2 sample two hours after A. *)
Definition D := stored "d" "bravo" "2024-05-01" "12:00:00" 23.8125 90.5625.

(** A station-2 sample whose time does not parse. *)
Definition bad_time := stored "x" "bravo" "2024-05-01" "bad" 23.8125 90.5625.

(** A sample as a device uploads it. *)
Definition uploaded_at (cid : string) (lat : float) (captured_at_utc : Z)
  : schemas.LocationSampleBase :=
  {| schemas.id := cid;
     schemas.lat := lat;
     schemas.lon := 90.5;
     schemas.acc := 5;
     schemas.sample_date := "2024-05-01";
     schemas.sample_time := "10:00:00";
     schemas.provider := "FUSED";
     schemas.freq := "145.500";
     schemas.rf_pwr := "5W";
     schemas.comm_state := "Loud and Clear";
     schemas.user := "operator";
     schemas.station := "alpha";
     schemas.captured_at_utc := captured_at_utc;
     schemas.sync := false;
     schemas.attempt_count := 0;
     schemas.last_error := None;
     schemas.synced_at_utc := None |}.

Definition uploaded (cid : string) (lat : float) : schemas.LocationSampleBase :=
  uploaded_at cid lat 1714557600000.

Definition good := uploaded "id-1" 23.75.
Definition good2 := uploaded "id-2" 23.75.
Definition bad_lat := uploaded "id-3" 95.

(** A sample the schema accepts and whose capture time, 2^63, is one more
    than a [BigInteger] column can hold. *)
Definition far_future := uploaded_at "id-4" 23.75 9223372036854775808.

Definition request (samples : list schemas.LocationSampleBase)
  : schemas.BulkUploadRequest :=
  {| schemas.deviceId := "device-1"; schemas.samples := samples |}.

(** Two rows of different stations and devices with one trajectory key. *)
Definition row_of (station device_id : string) : main_endpoints.Row :=
  {| main_endpoints.row_lat := 23.75;
     main_endpoints.row_lon := 90.5;
     main_endpoints.row_station := station;
     main_endpoints.row_device_id := device_id;
     main_endpoints.row_sample_date := "2024-05-01";
     main_endpoints.row_sample_time := "10:00:00";
     main_endpoints.row_captured_at_utc := 1714557600000;
     main_endpoints.row_acc := 5 |}.

(** An engine with no limit of its own. *)
Definition engine : database.Engine :=
  {| database.accepts := fun _ => true |}.

(** The value a table gives at [x], 0 where it has none. *)
Definition table (entries : list (float * float)) (x : float) : float :=
  match find (fun entry => (fst entry =? x)%float) entries with
  | Some entry => snd entry
  | None => 0%float
  end.

Definition table2 (entries : list (float * float * float)) (y x : float)
  : float :=
  match find (fun entry => (fst (fst entry) =? y)%float
                           && (snd (fst entry) =? x)%float) entries with
  | Some entry => snd entry
  | None => 0%float
  end.

(** What CPython returns on Linux (x86-64, glibc) for [math.sin],
    [math.cos], [math.atan2] and [round(x, 2)] at the arguments the
    examples below bring up; the coordinates of the examples have at most
    six decimals, and the only dates are those of the examples. *)
Definition measured : runtime.functions :=
  {| runtime.sin :=
       table [(0x1.1df46a2529d39p-11, 0x1.1df469374dc36p-11);
              (0x1.1df46a2529d39p-10, 0x1.1df4666db9959p-10);
              (-0x1.657184ae74487p-5, -0x1.65547c4694e11p-5);
              (0x1.657184ae74487p-5, 0x1.65547c4694e11p-5);
              (0x1.921fb54442d18p+0, 0x1.0000000000000p+0);
              (-0x1.921fb54442d18p+0, -0x1.0000000000000p+0);
              (0x1.8fe3cc6ff87dep+0, 0x1.fffb02599c9cdp-1)]%float;
     runtime.cos :=
       table [(0x1.a876cd8f2a161p-2, 0x1.d4a3b4c8f15cfp-1);
              (0x1.a994c1f94f3fep-2, 0x1.d46a0d18e7a95p-1);
              (0x1.aab2b6637469bp-2, 0x1.d43040e1b9297p-1);
              (0x1.657184ae74487p-5, 0x1.ff833f9da45f7p-1);
              (-0x1.657184ae74487p-5, 0x1.ff833f9da45f7p-1)]%float;
     runtime.atan2 :=
       table2 [(0x1.839ce8d0c138bp-11, 0x1.fffff6d470cabp-1,
                0x1.839ceb212aa24p-11);
               (0x1.8391fecf1a7a5p-10, 0x1.ffffdb53d2f53p-1,
                0x1.8392080ff86dcp-10);
               (0x1.fffb04c7f089cp-1, 0x1.1dadcfdefc54bp-7,
                0x1.8fe457ca2897cp+0)]%float;
     runtime.round := fun x ndigits =>
       if (x =? 0x1.26629d93e64cap+13)%float then 0x1.2662a3d70a3d7p+13%float
       else if (x =? 0x1.2fb5fdb47a3ecp+24)%float
       then 0x1.2fb5fdb333333p+24%float
       else x;
     runtime.strptime_date := fun s => String.eqb s "2024-05-01" |}.

(** Sine, cosine and arc tangent as they are to first order near 0. *)
Definition small_angles : runtime.functions :=
  {| runtime.sin := fun x => x;
     runtime.cos := fun _ => 1%float;
     runtime.atan2 := fun y _ => y;
     runtime.round := fun x _ => x;
     runtime.strptime_date := fun _ => true |}.

(** Two points almost opposite on the globe, and a third one degree off. *)
Definition P := stored "p" "alpha" "2024-05-01" "10:00:00" 2.5 0.
Definition Q1 := stored "q1" "bravo" "2024-05-01" "10:00:00" (-2.5) 180.
Definition Q2 := stored "q2" "bravo" "2024-05-01" "10:00:30" (-2.5) 179.

End Examples.

(** * Properties *)

(** ** Strings *)

Section StringFacts.

Local Open Scope string_scope.

Lemma prefix_empty (s : string) : String.prefix "" s = true.
Proof. now destruct s. Qed.

Lemma prefix_iff (p s : string) :
  String.prefix p s = true <-> exists after, s = p ++ after.
Proof.
  revert s; induction p as [|c p IH]; intros s.
  - split; [intros _; now exists s | intros _; now destruct s].
  - destruct s as [|a s]; simpl.
    + split; [discriminate | intros [after H]; discriminate].
    + destruct (ascii_dec c a) as [->|Hne].
      * rewrite IH. split; intros [after H]; exists after.
        -- now rewrite H.
        -- now injection H.
      * split; [discriminate|].
        intros [after H]. injection H as H1 _. congruence.
Qed.

Lemma contains_iff (p s : string) :
  PyStr.contains p s = true <-> Spec.Substring p s.
Proof.
  unfold Spec.Substring.
  induction s as [|a s IH].
  - cbn [PyStr.contains]. rewrite orb_false_r, prefix_iff. split.
    + intros [after H]. now exists "", after.
    + intros [before [after H]]. destruct before; [now exists after|discriminate].
  - cbn [PyStr.contains]. rewrite orb_true_iff, IH, prefix_iff. split.
    + intros [[after H]|[before [after H]]].
      * now exists "", after.
      * exists (String a before), after. simpl. now rewrite H.
    + intros [[|b before] [after H]].
      * left. now exists after.
      * right. exists before, after. simpl in H. now injection H.
Qed.

Lemma contains_cons (p : string) (a : ascii) (s : string) :
  PyStr.contains p (String a s)
  = String.prefix p (String a s) || PyStr.contains p s.
Proof. reflexivity. Qed.

Lemma contains_false_iff (p s : string) :
  PyStr.contains p s = false <-> ~ Spec.Substring p s.
Proof.
  rewrite <- contains_iff. destruct (PyStr.contains p s); intuition congruence.
Qed.

Lemma contains_lstrip (f : ascii -> bool) (c : ascii) (p s : string) :
  f c = false ->
  PyStr.contains (String c p) (PyStr.lstrip_by f s) = PyStr.contains (String c p) s.
Proof.
  intros Hc. induction s as [|a s IH]; [reflexivity|].
  simpl PyStr.lstrip_by. destruct (f a) eqn:Ha; [|reflexivity].
  rewrite IH. cbn [PyStr.contains String.prefix].
  destruct (ascii_dec c a) as [->|_]; [congruence|reflexivity].
Qed.

Lemma prefix_rstrip (f : ascii -> bool) (p s : string) :
  Spec.ends_outside f p = true ->
  String.prefix p (PyStr.rstrip_by f s) = String.prefix p s.
Proof.
  revert s; induction p as [|c p IH]; intros s Hp; [discriminate|].
  destruct s as [|a s]; [reflexivity|].
  cbn [PyStr.rstrip_by].
  destruct p as [|c' p'].
  - simpl in Hp. apply negb_true_iff in Hp.
    destruct (PyStr.rstrip_by f s) eqn:Hr; [destruct (f a) eqn:Ha|];
      cbn [String.prefix]; rewrite ?prefix_empty;
      destruct (ascii_dec c a) as [->|_]; congruence.
  - specialize (IH s Hp).
    destruct (PyStr.rstrip_by f s) eqn:Hr.
    + assert (Hs : String.prefix (String c' p') s = false)
        by (rewrite <- IH; reflexivity).
      destruct (f a); cbn [String.prefix]; rewrite ?Hs;
        destruct (ascii_dec c a); reflexivity.
    + cbn [String.prefix] in *. destruct (ascii_dec c a); [exact IH|reflexivity].
Qed.

Lemma contains_rstrip (f : ascii -> bool) (p s : string) :
  Spec.ends_outside f p = true ->
  PyStr.contains p (PyStr.rstrip_by f s) = PyStr.contains p s.
Proof.
  intros Hp. induction s as [|a s IH]; [reflexivity|].
  assert (Hpre := prefix_rstrip f p (String a s) Hp).
  cbn [PyStr.rstrip_by] in *.
  destruct (PyStr.rstrip_by f s) eqn:Hr.
  - cbn [PyStr.contains]. rewrite <- IH.
    destruct (f a); rewrite <- Hpre; cbn [PyStr.contains];
      destruct (String.prefix p ""); reflexivity.
  - rewrite (contains_cons p a (String a0 s0)), (contains_cons p a s).
    now rewrite Hpre, IH.
Qed.

Lemma isspace_lower_char (c : ascii) :
  PyStr.isspace (PyStr.lower_char c) = PyStr.isspace c.
Proof.
  destruct c as [[] [] [] [] [] [] [] []]; reflexivity.
Qed.

Lemma lower_lstrip (s : string) :
  PyStr.lower (PyStr.lstrip_by PyStr.isspace s)
  = PyStr.lstrip_by PyStr.isspace (PyStr.lower s).
Proof.
  induction s as [|a s IH]; [reflexivity|].
  simpl. rewrite isspace_lower_char.
  destruct (PyStr.isspace a); [exact IH|reflexivity].
Qed.

Lemma lower_rstrip (s : string) :
  PyStr.lower (PyStr.rstrip_by PyStr.isspace s)
  = PyStr.rstrip_by PyStr.isspace (PyStr.lower s).
Proof.
  induction s as [|a s IH]; [reflexivity|].
  simpl. rewrite <- IH, isspace_lower_char.
  destruct (PyStr.rstrip_by PyStr.isspace s); simpl;
    [destruct (PyStr.isspace a)|]; reflexivity.
Qed.

Lemma lower_strip (s : string) :
  PyStr.lower (PyStr.strip s) = PyStr.strip (PyStr.lower s).
Proof.
  unfold PyStr.strip. now rewrite lower_rstrip, lower_lstrip.
Qed.

(** Stripping does not change whether a phrase that neither starts nor ends
    with a blank occurs. *)
Lemma contains_strip (c : ascii) (p s : string) :
  PyStr.isspace c = false ->
  Spec.ends_outside PyStr.isspace (String c p) = true ->
  PyStr.contains (String c p) (PyStr.strip s) = PyStr.contains (String c p) s.
Proof.
  intros Hc Hp. unfold PyStr.strip.
  now rewrite contains_rstrip, contains_lstrip.
Qed.

End StringFacts.

(** ** Communication state *)

Section CommState.

Local Open Scope string_scope.
Local Open Scope Z_scope.

(** The value depends on the lower-cased text only: the [strip] of the
    code removes nothing the three phrases could be found in. *)
Lemma get_comm_state_value_lower (text : string) :
  reports.get_comm_state_value text =
    let t := PyStr.lower text in
    if PyStr.contains "loud and clear" t then 3
    else if PyStr.contains "readable noisy" t then 2
    else if PyStr.contains "noisy" t then 1
    else 0.
Proof.
  unfold reports.get_comm_state_value. cbv zeta.
  rewrite lower_strip.
  now rewrite !contains_strip by reflexivity.
Qed.

End CommState.

(** C6: [get_comm_state_value] (the spec's [comm_state_score]) classifies the
    lower-cased text by the phrases it contains, in the order "loud and clear"
    (3), "readable noisy" (2), "noisy" (1), otherwise 0; the text
    "readable noisy signal" has value 2, and no text whose lower-cased form
    contains "readable noisy" has value 1.  Capitals do not count: the
    value of "Loud and Clear" is 3, that of "READABLE NOISY signal" is 2,
    that of "Noisy" is 1 and that of "No Signal" is 0. *)
Theorem comm_state_score_priority :
  (forall text : string,
     let t := PyStr.lower text in
     let loud := Spec.Substring "loud and clear" t in
     let readable := Spec.Substring "readable noisy" t in
     let noisy := Spec.Substring "noisy" t in
     (reports.get_comm_state_value text = 3%Z <-> loud) /\
     (reports.get_comm_state_value text = 2%Z <-> ~ loud /\ readable) /\
     (reports.get_comm_state_value text = 1%Z
        <-> ~ loud /\ ~ readable /\ noisy) /\
     (reports.get_comm_state_value text = 0%Z
        <-> ~ loud /\ ~ readable /\ ~ noisy)) /\
  reports.get_comm_state_value "readable noisy signal" = 2%Z /\
  (forall text : string,
     Spec.Substring "readable noisy" (PyStr.lower text) ->
     reports.get_comm_state_value text <> 1%Z) /\
  reports.get_comm_state_value " Loud and Clear " = 3%Z /\
  reports.get_comm_state_value "READABLE NOISY signal" = 2%Z /\
  reports.get_comm_state_value "Noisy" = 1%Z /\
  reports.get_comm_state_value "No Signal" = 0%Z.
Proof.
  split; [|split; [|split; [|repeat split]]].
  - intros text t loud readable noisy. subst loud readable noisy.
    rewrite get_comm_state_value_lower. cbv zeta. fold t.
    rewrite <- !contains_iff.
    destruct (PyStr.contains "loud and clear" t);
      destruct (PyStr.contains "readable noisy" t);
      destruct (PyStr.contains "noisy" t);
      repeat split; intros; try discriminate; try tauto;
      intuition discriminate.
  - reflexivity.
  - intros text H. apply contains_iff in H.
    rewrite get_comm_state_value_lower. cbv zeta. rewrite H.
    destruct (PyStr.contains "loud and clear" (PyStr.lower text)); discriminate.
Qed.

(** The text of the spec's example, in capitals and with blanks around it:
    its lower-cased form contains "readable noisy" and not "loud and
    clear". *)
Lemma comm_state_score_priority_witness :
  reports.get_comm_state_value "  READABLE Noisy signal "%string = 2%Z.
Proof.
  apply (proj1 (proj2 (proj1 comm_state_score_priority
                         "  READABLE Noisy signal "%string))).
  split.
  - intros H. apply contains_iff in H. discriminate.
  - exists "  "%string, " signal "%string. reflexivity.
Defined.

(** ** Time strings *)

Section TimeFacts.

Local Open Scope string_scope.

Lemma has_char_app (c : ascii) (s1 s2 : string) :
  Spec.has_char c (s1 ++ s2) = Spec.has_char c s1 || Spec.has_char c s2.
Proof.
  induction s1 as [|a s1 IH]; [reflexivity|].
  simpl. now rewrite IH, orb_assoc.
Qed.

Lemma split_without (sep : ascii) (s : string) :
  Spec.has_char sep s = false -> PyStr.split sep s = [s].
Proof.
  induction s as [|a s IH]; [reflexivity|].
  simpl. intros H. apply orb_false_iff in H as [Ha Hs].
  now rewrite Ha, (IH Hs).
Qed.

Lemma split_at_first (sep : ascii) (s1 s2 : string) :
  Spec.has_char sep s1 = false ->
  PyStr.split sep (s1 ++ String sep s2) = s1 :: PyStr.split sep s2.
Proof.
  induction s1 as [|a s1 IH]; simpl.
  - intros _. now rewrite Ascii.eqb_refl.
  - intros H. apply orb_false_iff in H as [Ha Hs].
    now rewrite Ha, (IH Hs).
Qed.

Lemma split_first_without (sep : ascii) (t : string) :
  Spec.has_char sep t = false -> PyStr.split_first sep t = t.
Proof.
  intros H. unfold PyStr.split_first. now rewrite split_without.
Qed.

(** What precedes the first dot is all [split('.')[0]] keeps. *)
Lemma split_first_fraction (t : string) (frac : option string) :
  Spec.has_char "." t = false ->
  PyStr.split_first "." (t ++ Spec.fraction frac) = t.
Proof.
  intros H. unfold PyStr.split_first. destruct frac as [digits|]; simpl.
  - now rewrite split_at_first.
  - assert (E : t ++ "" = t) by (clear H; induction t; simpl; congruence).
    now rewrite E, split_without.
Qed.

Lemma below_100 (P : nat -> bool) :
  forallb P (seq 0 100) = true -> forall n, (n < 100)%nat -> P n = true.
Proof.
  intros H n Hn. rewrite forallb_forall in H. apply H, in_seq. lia.
Qed.

Lemma two_digits_no_dot (n : nat) :
  (n < 100)%nat -> Spec.has_char "." (Spec.two_digits n) = false.
Proof.
  intros Hn. apply negb_true_iff.
  revert n Hn. apply below_100. vm_compute. reflexivity.
Qed.

Lemma two_digits_no_colon (n : nat) :
  (n < 100)%nat -> Spec.has_char ":" (Spec.two_digits n) = false.
Proof.
  intros Hn. apply negb_true_iff.
  revert n Hn. apply below_100. vm_compute. reflexivity.
Qed.

Lemma int_two_digits (n : nat) :
  (n < 100)%nat -> PyStr.int (Spec.two_digits n) = Some (Z.of_nat n).
Proof.
  intros Hn.
  assert (H : match PyStr.int (Spec.two_digits n) with
              | Some z => Z.eqb z (Z.of_nat n)
              | None => false
              end = true)
    by (revert n Hn; apply below_100; vm_compute; reflexivity).
  destruct (PyStr.int (Spec.two_digits n)); [|discriminate].
  apply Z.eqb_eq in H. now subst.
Qed.

Lemma hhmmss_no_dot (h m s : nat) :
  (h < 100)%nat -> (m < 100)%nat -> (s < 100)%nat ->
  Spec.has_char "." (Spec.hhmmss h m s) = false.
Proof.
  intros Hh Hm Hs. unfold Spec.hhmmss.
  rewrite !has_char_app, !two_digits_no_dot by assumption. reflexivity.
Qed.

Lemma total_seconds_hhmmss (h m s : nat) :
  (h < 100)%nat -> (m < 100)%nat -> (s < 100)%nat ->
  reports.total_seconds (Spec.hhmmss h m s)
  = Some (Spec.seconds_since_midnight h m s).
Proof.
  intros Hh Hm Hs. unfold reports.total_seconds.
  change (Spec.hhmmss h m s)
    with (Spec.two_digits h
            ++ String ":" (Spec.two_digits m ++ String ":" (Spec.two_digits s))).
  rewrite (split_at_first ":" (Spec.two_digits h)) by now apply two_digits_no_colon.
  rewrite (split_at_first ":" (Spec.two_digits m)) by now apply two_digits_no_colon.
  rewrite (split_without ":" (Spec.two_digits s)) by now apply two_digits_no_colon.
  cbn [map]. now rewrite !int_two_digits.
Qed.

Lemma time_difference_malformed (t1 t2 : string) :
  Spec.malformed t1 \/ Spec.malformed t2 ->
  reports.time_difference t1 t2 = reports.Infinity.
Proof.
  unfold Spec.malformed, reports.time_difference. cbv zeta.
  intros [H|H]; rewrite H; [reflexivity|].
  now destruct (reports.total_seconds (PyStr.split_first "." t1)).
Qed.

Lemma time_match_malformed (s1 s2 : models.LocationSample) :
  Spec.malformed (models.sample_time s1) \/
  Spec.malformed (models.sample_time s2) ->
  reports.time_match s1 s2 = false.
Proof.
  intros H. unfold reports.time_match. cbv zeta.
  rewrite (time_difference_malformed _ _ H). apply andb_false_r.
Qed.

End TimeFacts.

(** ** The scan of station 2 *)

Section ScanFacts.

Variable rt : runtime.functions.

(** A station-2 sample that is no time match is passed over. *)
Lemma scan_station2_skip (s1 : models.LocationSample)
    (before : list models.LocationSample) (s2 : models.LocationSample)
    (after : list models.LocationSample)
    (matched_pairs : list reports.MatchedPair) :
  reports.time_match s1 s2 = false ->
  reports.scan_station2 rt s1 (before ++ s2 :: after) matched_pairs
  = reports.scan_station2 rt s1 (before ++ after) matched_pairs.
Proof.
  intros H. induction before as [|x before IH]; simpl.
  - now rewrite H.
  - rewrite IH. reflexivity.
Qed.

Lemma scan_station2_no_match (s1 : models.LocationSample)
    (station2_samples : list models.LocationSample)
    (matched_pairs : list reports.MatchedPair) :
  (forall s2, In s2 station2_samples -> reports.time_match s1 s2 = false) ->
  reports.scan_station2 rt s1 station2_samples matched_pairs = matched_pairs.
Proof.
  induction station2_samples as [|x l IH]; intros H; simpl; [reflexivity|].
  rewrite (H x) by now left. apply IH. intros s2 Hs2. apply H. now right.
Qed.

Lemma fold_scan_ext (l2 l2' : list models.LocationSample) :
  (forall s1 acc, reports.scan_station2 rt s1 l2 acc
                  = reports.scan_station2 rt s1 l2' acc) ->
  forall l1 acc,
    fold_left (fun mp s1 => reports.scan_station2 rt s1 l2 mp) l1 acc
    = fold_left (fun mp s1 => reports.scan_station2 rt s1 l2' mp) l1 acc.
Proof.
  intros H l1. induction l1 as [|s1 l1 IH]; intros acc; simpl; [reflexivity|].
  now rewrite H, IH.
Qed.

End ScanFacts.

(** C7: [time_difference] keeps of each argument what precedes the first
    dot, reads it as hours, minutes and seconds, and returns the absolute
    difference of the two numbers of seconds since midnight, never negative
    and without bringing it back into one day: between "23:59:59" and
    "00:00:01" it is 86398. *)
Theorem time_difference_absolute_seconds :
  (forall (h1 m1 s1 h2 m2 s2 : nat) (frac1 frac2 : option string),
     (h1 < 100)%nat -> (m1 < 100)%nat -> (s1 < 100)%nat ->
     (h2 < 100)%nat -> (m2 < 100)%nat -> (s2 < 100)%nat ->
     reports.time_difference
       (Spec.hhmmss h1 m1 s1 ++ Spec.fraction frac1)
       (Spec.hhmmss h2 m2 s2 ++ Spec.fraction frac2)
     = reports.Finite
         (Z.abs (Spec.seconds_since_midnight h1 m1 s1
                 - Spec.seconds_since_midnight h2 m2 s2))) /\
  (forall (t1 t2 : string) (frac1 frac2 : option string),
     Spec.has_char "." t1 = false -> Spec.has_char "." t2 = false ->
     reports.time_difference
       (t1 ++ Spec.fraction frac1) (t2 ++ Spec.fraction frac2)
     = reports.time_difference t1 t2) /\
  (forall (t1 t2 : string) (n : Z),
     reports.time_difference t1 t2 = reports.Finite n -> (0 <= n)%Z) /\
  reports.time_difference "23:59:59" "00:00:01" = reports.Finite 86398.
Proof.
  repeat split.
  - intros h1 m1 s1 h2 m2 s2 frac1 frac2 H1 H2 H3 H4 H5 H6.
    unfold reports.time_difference. cbv zeta.
    rewrite !split_first_fraction by now apply hhmmss_no_dot.
    now rewrite !total_seconds_hhmmss.
  - intros t1 t2 frac1 frac2 H1 H2.
    unfold reports.time_difference. cbv zeta.
    rewrite !split_first_fraction by assumption.
    now rewrite !split_first_without by assumption.
  - intros t1 t2 n. unfold reports.time_difference. cbv zeta.
    destruct (reports.total_seconds _); [|discriminate].
    destruct (reports.total_seconds _); [|discriminate].
    intros H. injection H as <-. apply Z.abs_nonneg.
Qed.

(** The times of the spec's example, the first with fractional seconds. *)
Lemma time_difference_absolute_seconds_witness :
  reports.time_difference "23:59:59.750" "00:00:01" = reports.Finite 86398.
Proof.
  exact (proj1 time_difference_absolute_seconds
           23%nat 59%nat 59%nat 0%nat 0%nat 1%nat (Some "750"%string) None
           ltac:(lia) ltac:(lia) ltac:(lia) ltac:(lia) ltac:(lia) ltac:(lia)).
Defined.

(** C3: when either time string fails to parse, [time_difference] returns
    the infinite value (it does not raise); that value is not [<=] any
    integer tolerance, so the pair is no time match, and a sample with such a
    time string contributes to no matched pair, whichever station it is of. *)
Theorem malformed_time_never_matches :
  (forall t1 t2 : string,
     Spec.malformed t1 \/ Spec.malformed t2 ->
     reports.time_difference t1 t2 = reports.Infinity) /\
  reports.time_difference "bad" "00:00:00" = reports.Infinity /\
  (forall tolerance : Z, reports.seconds_le reports.Infinity tolerance = false) /\
  (forall s1 s2 : models.LocationSample,
     Spec.malformed (models.sample_time s1) \/
     Spec.malformed (models.sample_time s2) ->
     reports.time_match s1 s2 = false) /\
  (forall (before : list models.LocationSample) (s1 : models.LocationSample)
          (after station2_samples : list models.LocationSample),
     Spec.malformed (models.sample_time s1) ->
     forall rt : runtime.functions,
       reports.match_stations rt (before ++ s1 :: after) station2_samples
       = reports.match_stations rt (before ++ after) station2_samples) /\
  (forall (station1_samples before : list models.LocationSample)
          (s2 : models.LocationSample) (after : list models.LocationSample),
     Spec.malformed (models.sample_time s2) ->
     forall rt : runtime.functions,
       reports.match_stations rt station1_samples (before ++ s2 :: after)
       = reports.match_stations rt station1_samples (before ++ after)).
Proof.
  split; [exact time_difference_malformed|].
  split; [reflexivity|].
  split; [reflexivity|].
  split; [exact time_match_malformed|].
  split.
  - intros before s1 after l2 H rt. unfold reports.match_stations.
    rewrite !fold_left_app. simpl. f_equal.
    apply scan_station2_no_match. intros s2 _.
    apply time_match_malformed. now left.
  - intros l1 before s2 after H rt. unfold reports.match_stations.
    apply fold_scan_ext. intros s1 acc.
    apply scan_station2_skip, time_match_malformed. now right.
Qed.

(** A station-1 sample whose time does not parse leaves the pairs as they
    are without it. *)
Lemma malformed_time_never_matches_witness :
  reports.match_stations Examples.small_angles
    ([Examples.A] ++ Examples.bad_time :: []) [Examples.B; Examples.C]
  = reports.match_stations Examples.small_angles
      ([Examples.A] ++ []) [Examples.B; Examples.C].
Proof.
  apply (proj1 (proj2 (proj2 (proj2 (proj2 malformed_time_never_matches))))).
  reflexivity.
Defined.

(** ** Binary64 arithmetic *)

Section FloatFacts.

Lemma SFcompare_refl (x : spec_float) :
  x <> S754_nan -> SFcompare x x = Some Eq.
Proof.
  destruct x as [s|s| |s m e]; intros H; try now destruct s.
  - now elim H.
  - simpl. rewrite Z.compare_refl, Pos.compare_cont_refl. now destruct s.
Qed.

Lemma is_nan_spec (x : float) :
  PrimFloat.is_nan x = true <-> Prim2SF x = S754_nan.
Proof.
  unfold PrimFloat.is_nan. rewrite eqb_spec. unfold SFeqb.
  destruct (Prim2SF x) as [s|s| |s m e] eqn:E.
  - now destruct s.
  - now destruct s.
  - simpl. tauto.
  - rewrite SFcompare_refl by discriminate. simpl. split; discriminate.
Qed.

Lemma is_infinity_spec (x : float) :
  PrimFloat.is_infinity x = true <-> exists s, Prim2SF x = S754_infinity s.
Proof.
  unfold PrimFloat.is_infinity. rewrite eqb_spec, abs_spec.
  change (Prim2SF infinity) with (S754_infinity false). unfold SFeqb.
  destruct (Prim2SF x) as [s|s| |s m e]; simpl.
  - split; [discriminate|]. intros [s' H]. discriminate.
  - split; [now exists s|reflexivity].
  - split; [discriminate|]. intros [s' H]. discriminate.
  - split; [discriminate|]. intros [s' H]. discriminate.
Qed.

Lemma is_finite_spec (x : float) :
  PrimFloat.is_finite x = binary64.SFfinite (Prim2SF x).
Proof.
  unfold PrimFloat.is_finite.
  destruct (PrimFloat.is_nan x) eqn:En.
  - apply is_nan_spec in En. now rewrite En.
  - destruct (PrimFloat.is_infinity x) eqn:Ei.
    + apply is_infinity_spec in Ei as [s ->]. reflexivity.
    + simpl. destruct (Prim2SF x) as [s|s| |s m e] eqn:E; try reflexivity.
      * assert (H : PrimFloat.is_infinity x = true)
          by (apply is_infinity_spec; now exists s).
        congruence.
      * assert (H : PrimFloat.is_nan x = true) by now apply is_nan_spec.
        congruence.
Qed.

(** *** Change of sign *)

Lemma binary_round_aux_opp (s : bool) (m e : Z) (l : location) :
  SFopp (binary_round_aux prec emax s m e l)
  = binary_round_aux prec emax (negb s) m e l.
Proof.
  unfold binary_round_aux.
  destruct (shr_fexp prec emax m e l) as [mrs' e'].
  destruct (shr_fexp prec emax _ e' loc_Exact) as [mrs'' e''].
  destruct (shr_m mrs''); [reflexivity| |reflexivity].
  now destruct (Z.leb e'' (emax - prec)).
Qed.

Lemma binary_round_opp (s : bool) (m : positive) (e : Z) :
  SFopp (binary_round prec emax s m e) = binary_round prec emax (negb s) m e.
Proof.
  unfold binary_round. destruct (shl_align _ _ _) as [mz ez].
  apply binary_round_aux_opp.
Qed.

Lemma SFopp_involutive (x : spec_float) : SFopp (SFopp x) = x.
Proof.
  destruct x; simpl; now rewrite ?negb_involutive.
Qed.

Lemma opp_involutive (x : float) : (- - x)%float = x.
Proof.
  apply Prim2SF_inj. rewrite !opp_spec. apply SFopp_involutive.
Qed.

Lemma SFmul_opp_l (x y : spec_float) :
  SFmul prec emax (SFopp x) y = SFopp (SFmul prec emax x y).
Proof.
  destruct x as [sx|sx| |sx mx ex], y as [sy|sy| |sy my ey]; simpl;
    rewrite <- ?negb_xorb_l; try reflexivity.
  now rewrite binary_round_aux_opp.
Qed.

Lemma SFmul_comm (x y : spec_float) :
  SFmul prec emax x y = SFmul prec emax y x.
Proof.
  destruct x as [sx|sx| |sx mx ex], y as [sy|sy| |sy my ey]; simpl;
    rewrite ?(xorb_comm sx sy); try reflexivity.
  now rewrite Pos.mul_comm, Z.add_comm.
Qed.

Lemma mul_comm (x y : float) : (x * y)%float = (y * x)%float.
Proof.
  apply Prim2SF_inj. rewrite !mul_spec. apply SFmul_comm.
Qed.

Lemma mul_opp_l (x y : float) : (- x * y)%float = (- (x * y))%float.
Proof.
  apply Prim2SF_inj. rewrite opp_spec, !mul_spec, opp_spec.
  apply SFmul_opp_l.
Qed.

Lemma mul_opp_r (x y : float) : (x * - y)%float = (- (x * y))%float.
Proof.
  now rewrite mul_comm, mul_opp_l, mul_comm.
Qed.

Lemma mul_opp_opp (x y : float) : (- x * - y)%float = (x * y)%float.
Proof.
  now rewrite mul_opp_l, mul_opp_r, opp_involutive.
Qed.

Lemma SFdiv_opp_l (x y : spec_float) :
  SFdiv prec emax (SFopp x) y = SFopp (SFdiv prec emax x y).
Proof.
  destruct x as [sx|sx| |sx mx ex], y as [sy|sy| |sy my ey]; simpl;
    rewrite <- ?negb_xorb_l; try reflexivity.
  destruct (SFdiv_core_binary prec emax (Z.pos mx) ex (Z.pos my) ey)
    as [[mz ez] lz].
  now rewrite binary_round_aux_opp.
Qed.

Lemma div_opp_l (x y : float) : (- x / y)%float = (- (x / y))%float.
Proof.
  apply Prim2SF_inj. rewrite opp_spec, !div_spec, opp_spec.
  apply SFdiv_opp_l.
Qed.

Lemma binary_normalize_opp (z e : Z) :
  binary_normalize prec emax (- z) e false
  = SFopp (binary_normalize prec emax z e false)
  \/ binary_normalize prec emax (- z) e false
     = binary_normalize prec emax z e false.
Proof.
  destruct z as [|p|p]; simpl.
  - now right.
  - left. now rewrite binary_round_opp.
  - left. now rewrite binary_round_opp.
Qed.

(** Exchanging the operands of a subtraction changes the sign of the
    result, except that [x - x] is [+0] both ways and a NaN stays one. *)
Lemma SFsub_swap (x y : spec_float) :
  SFsub prec emax y x = SFopp (SFsub prec emax x y)
  \/ SFsub prec emax y x = SFsub prec emax x y.
Proof.
  destruct x as [sx|sx| |sx mx ex], y as [sy|sy| |sy my ey];
    try (destruct sx, sy; simpl; now auto);
    try (destruct sx; simpl; now auto);
    try (destruct sy; simpl; now auto);
    try (simpl; now auto).
  simpl. rewrite (Z.min_comm ey ex).
    set (a := cond_Zopp sx _). set (b := cond_Zopp sy _).
    replace (b - a)%Z with (- (a - b))%Z by lia.
    apply binary_normalize_opp.
Qed.

Lemma sub_swap (x y : float) :
  (y - x)%float = (- (x - y))%float \/ (y - x)%float = (x - y)%float.
Proof.
  destruct (SFsub_swap (Prim2SF x) (Prim2SF y)) as [H|H]; [left|right];
    apply Prim2SF_inj; rewrite ?opp_spec, !sub_spec; exact H.
Qed.

Lemma sub_diag (x : float) :
  PrimFloat.is_finite x = true -> (x - x)%float = 0%float.
Proof.
  rewrite is_finite_spec. intros H. apply Prim2SF_inj. rewrite sub_spec.
  change (Prim2SF 0) with (S754_zero false).
  destruct (Prim2SF x) as [s|s| |s m e]; try discriminate.
  - now destruct s.
  - simpl. now rewrite Z.sub_diag.
Qed.

Lemma is_nan_opp (x : float) :
  PrimFloat.is_nan (- x) = PrimFloat.is_nan x.
Proof.
  apply eq_true_iff_eq. rewrite !is_nan_spec, opp_spec.
  destruct (Prim2SF x); simpl; split; congruence.
Qed.

Lemma is_infinity_opp (x : float) :
  PrimFloat.is_infinity (- x) = PrimFloat.is_infinity x.
Proof.
  apply eq_true_iff_eq. rewrite !is_infinity_spec, opp_spec.
  destruct (Prim2SF x) as [s|s| |s m e]; simpl;
    split; intros [s' H]; try discriminate; eauto.
Qed.

Lemma is_finite_opp (x : float) :
  PrimFloat.is_finite (- x) = PrimFloat.is_finite x.
Proof.
  unfold PrimFloat.is_finite. now rewrite is_nan_opp, is_infinity_opp.
Qed.


Lemma iter_pos_counted (A : Type) (P : Z -> A -> Prop) (f : A -> A) :
  (forall k a, P k a -> P (k + 1)%Z (f a)) ->
  forall (n : positive) (k : Z) (a : A),
    P k a -> P (k + Z.pos n)%Z (iter_pos f n a).
Proof.
  intros Hf. induction n as [n IH|n IH|]; simpl; intros k a Ha.
  - replace (k + Z.pos n~1)%Z with (k + 1 + Z.pos n + Z.pos n)%Z by lia.
    auto.
  - replace (k + Z.pos n~0)%Z with (k + Z.pos n + Z.pos n)%Z by lia.
    auto.
  - auto.
Qed.

Lemma shr_1_halves (mrs : shr_record) :
  (0 <= shr_m mrs)%Z ->
  (0 <= shr_m (shr_1 mrs))%Z /\ (shr_m (shr_1 mrs) * 2 <= shr_m mrs)%Z.
Proof.
  destruct mrs as [m r s]. simpl. intros H.
  destruct m as [|[p|p|]|p]; simpl; lia.
Qed.

(** [shr] by [n] places divides the mantissa by [2 ^ n] and adds [n] to the
    exponent. *)
Lemma shr_bounds (mrs : shr_record) (e : Z) (n : positive) :
  (0 <= shr_m mrs)%Z ->
  (0 <= shr_m (fst (shr mrs e (Z.pos n))))%Z /\
  (shr_m (fst (shr mrs e (Z.pos n))) * 2 ^ Z.pos n <= shr_m mrs)%Z /\
  snd (shr mrs e (Z.pos n)) = (e + Z.pos n)%Z.
Proof.
  intros H. simpl.
  assert (Hi := iter_pos_counted _
                  (fun k a => (0 <= k)%Z /\ (0 <= shr_m a)%Z /\
                              (shr_m a * 2 ^ k <= shr_m mrs)%Z) shr_1).
  destruct (Hi) with (n := n) (k := 0%Z) (a := mrs) as [_ [H1 H2]].
  - intros k a [Hk [Ha Hm]]. destruct (shr_1_halves a Ha) as [H1 H2].
    split; [lia|]. split; [exact H1|].
    rewrite Z.pow_add_r, Z.pow_1_r by lia.
    assert (0 < 2 ^ k)%Z by (apply Z.pow_pos_nonneg; lia). nia.
  - rewrite Z.pow_0_r. lia.
  - now rewrite Z.add_0_l in H2.
Qed.

Lemma shr_record_of_loc_m (m : Z) (l : location) :
  shr_m (shr_record_of_loc m l) = m.
Proof.
  destruct l as [|[| |]]; reflexivity.
Qed.

Lemma digits2_pos_bounds (p : positive) :
  (2 ^ (Z.pos (digits2_pos p) - 1) <= Z.pos p < 2 ^ Z.pos (digits2_pos p))%Z.
Proof.
  induction p as [p IH|p IH|]; simpl digits2_pos;
    rewrite ?Pos2Z.inj_succ;
    try (replace (Z.succ (Z.pos (digits2_pos p)) - 1)%Z
           with (Z.succ (Z.pos (digits2_pos p) - 1)) by lia;
         rewrite !Z.pow_succ_r by lia; lia).
  simpl. lia.
Qed.

Lemma Zdigits2_bounds (m D : Z) :
  (0 <= m < 2 ^ D)%Z -> (0 <= D)%Z ->
  (0 <= Zdigits2 m <= D)%Z /\ (m < 2 ^ Zdigits2 m)%Z.
Proof.
  intros [H0 H1] HD. destruct m as [|p|p]; simpl; [lia| |lia].
  destruct (digits2_pos_bounds p) as [Hl Hu]. split; [|exact Hu].
  assert (H : (2 ^ (Z.pos (digits2_pos p) - 1) < 2 ^ D)%Z) by lia.
  apply Z.pow_lt_mono_r_iff in H; lia.
Qed.

Lemma shr_fexp_eq (m e : Z) (l : location) :
  shr_fexp prec emax m e l
  = shr (shr_record_of_loc m l) e
      (Z.max (Zdigits2 m + e - 53) (-1074) - e).
Proof. reflexivity. Qed.

(** After [shr_fexp] the mantissa has at most 53 digits. *)
Lemma shr_fexp_bounds (m e D : Z) (l : location) :
  (0 <= m < 2 ^ D)%Z -> (0 <= D)%Z ->
  (0 <= shr_m (fst (shr_fexp prec emax m e l)) < 2 ^ 53)%Z /\
  (snd (shr_fexp prec emax m e l)
   <= Z.max e (Z.max (D + e - 53) (-1074)))%Z.
Proof.
  intros Hm HD. rewrite shr_fexp_eq.
  destruct (Zdigits2_bounds m D Hm HD) as [Hd Hu].
  set (d := Zdigits2 m) in *.
  destruct (Z.max (d + e - 53) (-1074) - e)%Z as [|n|n] eqn:En.
  - simpl. rewrite shr_record_of_loc_m. split; [|lia].
    assert (H : (2 ^ d <= 2 ^ 53)%Z) by (apply Z.pow_le_mono_r; lia). lia.
  - destruct (shr_bounds (shr_record_of_loc m l) e n) as [H1 [H2 H3]].
    { rewrite shr_record_of_loc_m. lia. }
    rewrite shr_record_of_loc_m in H2. rewrite H3. split; [|lia].
    split; [exact H1|].
    set (m' := shr_m (fst (shr (shr_record_of_loc m l) e (Z.pos n)))) in *.
    assert (Hn : (0 < 2 ^ Z.pos n)%Z) by (apply Z.pow_pos_nonneg; lia).
    destruct (Z_lt_le_dec d (Z.pos n)) as [Hlt|Hge].
    + assert (H : (2 ^ d <= 2 ^ Z.pos n)%Z)
        by (apply Z.pow_le_mono_r; lia).
      assert (m' = 0)%Z by nia. lia.
    + assert (H : (2 ^ d = 2 ^ (d - Z.pos n) * 2 ^ Z.pos n)%Z)
        by (rewrite <- Z.pow_add_r by lia; f_equal; lia).
      assert (H' : (2 ^ (d - Z.pos n) <= 2 ^ 53)%Z)
        by (apply Z.pow_le_mono_r; lia).
      nia.
  - simpl. rewrite shr_record_of_loc_m. split; [|lia].
    assert (H : (2 ^ d <= 2 ^ 53)%Z) by (apply Z.pow_le_mono_r; lia). lia.
Qed.

Lemma round_nearest_even_bounds (m : Z) (l : location) :
  (0 <= m)%Z -> (0 <= round_nearest_even m l <= m + 1)%Z.
Proof.
  intros H. destruct l as [|[| |]]; simpl; try lia.
  destruct (Z.even m); lia.
Qed.

(** A rounding that cannot overflow: the result has the sign given and is
    zero or finite. *)
Lemma binary_round_aux_small (s : bool) (m e : Z) (l : location) :
  (0 <= m < 2 ^ 106)%Z -> (e <= 917)%Z ->
  binary_round_aux prec emax s m e l = S754_zero s
  \/ exists m' e', binary_round_aux prec emax s m e l = S754_finite s m' e'.
Proof.
  intros Hm He. unfold binary_round_aux.
  destruct (shr_fexp_bounds m e 106 l Hm) as [H1 H2]; [lia|].
  destruct (shr_fexp prec emax m e l) as [mrs' e']. cbn [fst snd] in H1, H2.
  set (m1 := round_nearest_even (shr_m mrs') (loc_of_shr_record mrs')).
  assert (Hm1 : (0 <= m1 <= shr_m mrs' + 1)%Z)
    by (apply round_nearest_even_bounds; lia).
  destruct (shr_fexp_bounds m1 e' 54 loc_Exact) as [H3 H4]; [|lia|].
  { change (2 ^ 54)%Z with (2 * 2 ^ 53)%Z. lia. }
  destruct (shr_fexp prec emax m1 e' loc_Exact) as [mrs'' e''].
  cbn [fst snd] in H3, H4.
  destruct (shr_m mrs'') as [|p|p]; [now left| |lia].
  change (emax - prec)%Z with 971%Z.
  destruct (Z.leb e'' 971) eqn:E; [right; now exists p, e''|].
  apply Z.leb_gt in E. lia.
Qed.

Lemma bounded_mantissa (m : positive) (e : Z) :
  bounded prec emax m e = true -> (Z.pos m < 2 ^ 53)%Z.
Proof.
  unfold bounded. intros H. apply andb_prop in H as [H _].
  unfold canonical_mantissa in H. apply Z.eqb_eq in H.
  change (fexp prec emax (Z.pos (digits2_pos m) + e))
    with (Z.max (Z.pos (digits2_pos m) + e - 53) (-1074)) in H.
  destruct (digits2_pos_bounds m) as [_ Hu].
  assert (Hd : (Z.pos (digits2_pos m) <= 53)%Z) by lia.
  apply (Z.pow_le_mono_r 2) in Hd; lia.
Qed.

(** A product of two numbers whose exponents add up to little is zero or
    finite, with the sign of the product. *)
Lemma SFmul_small (sx sy : bool) (mx my : positive) (ex ey : Z) :
  bounded prec emax mx ex = true -> bounded prec emax my ey = true ->
  (ex + ey <= 917)%Z ->
  let p := SFmul prec emax (S754_finite sx mx ex) (S754_finite sy my ey) in
  p = S754_zero (xorb sx sy) \/ exists m e, p = S754_finite (xorb sx sy) m e.
Proof.
  intros Hx Hy He. simpl. apply binary_round_aux_small; [|exact He].
  apply bounded_mantissa in Hx, Hy. rewrite Pos2Z.inj_mul.
  change (2 ^ 106)%Z with (2 ^ 53 * 2 ^ 53)%Z. nia.
Qed.

Lemma finite_exponent (x : spec_float) :
  valid_binary x = true -> binary64.SFfinite x = true ->
  binary64.exponent_le x 971.
Proof.
  destruct x as [s|s| |s m e]; simpl; try discriminate; auto.
  intros H _. unfold bounded in H. apply andb_prop in H as [_ H].
  now apply Z.leb_le in H.
Qed.

Lemma exponent_le_finite (x : spec_float) (e0 : Z) :
  binary64.exponent_le x e0 -> binary64.SFfinite x = true.
Proof.
  now destruct x.
Qed.

Lemma SFmul_exponents (x y : spec_float) (ex ey : Z) :
  valid_binary x = true -> valid_binary y = true ->
  binary64.exponent_le x ex -> binary64.exponent_le y ey ->
  (ex + ey <= 917)%Z ->
  binary64.SFfinite (SFmul prec emax x y) = true.
Proof.
  intros Vx Vy Hx Hy He.
  destruct x as [sx|sx| |sx mx ex'], y as [sy|sy| |sy my ey'];
    simpl in Hx, Hy; try contradiction; try reflexivity.
  destruct (SFmul_small sx sy mx my ex' ey' Vx Vy) as [E|[m [e E]]];
    [lia| |]; now rewrite E.
Qed.

Lemma mul_exponents (x y : float) (ex ey : Z) :
  binary64.exponent_le (Prim2SF x) ex ->
  binary64.exponent_le (Prim2SF y) ey ->
  (ex + ey <= 917)%Z ->
  PrimFloat.is_finite (x * y) = true.
Proof.
  intros Hx Hy He. rewrite is_finite_spec, mul_spec.
  apply (SFmul_exponents _ _ ex ey); auto using Prim2SF_valid.
Qed.

(** The square of a number of small exponent, times [+0]. *)
Lemma mul_self_zero (c : float) :
  binary64.exponent_le (Prim2SF c) (-52) -> (c * c * 0)%float = 0%float.
Proof.
  intros H. apply Prim2SF_inj. rewrite !mul_spec.
  change (Prim2SF 0) with (S754_zero false).
  assert (V := Prim2SF_valid c).
  destruct (Prim2SF c) as [s|s| |s m e]; simpl in H; try contradiction.
  - simpl. now rewrite xorb_nilpotent.
  - destruct (SFmul_small s s m m e e V V) as [E|[m' [e' E]]]; [lia| |];
      unfold SF64mul; rewrite E; simpl; now rewrite xorb_nilpotent.
Qed.

(** *** Comparisons *)

Lemma SFabs_le_exponent (x : spec_float) (m0 : positive) (e0 : Z) :
  SFleb (SFabs x) (S754_finite false m0 e0) = true ->
  binary64.exponent_le x e0.
Proof.
  unfold SFleb. destruct x as [s|s| |s m e]; simpl; try discriminate; auto.
  destruct (Z.compare_spec e e0); try discriminate; lia.
Qed.

Lemma abs_le_1_exponent (c : float) :
  (abs c <=? 1)%float = true -> binary64.exponent_le (Prim2SF c) (-52).
Proof.
  rewrite leb_spec, abs_spec.
  change (Prim2SF 1) with (S754_finite false 4503599627370496 (-52)).
  apply SFabs_le_exponent.
Qed.

Lemma exponent_le_is_finite (x : float) (e0 : Z) :
  binary64.exponent_le (Prim2SF x) e0 -> PrimFloat.is_finite x = true.
Proof.
  rewrite is_finite_spec. apply exponent_le_finite.
Qed.

End FloatFacts.

(** ** Great-circle distance *)

Section Haversine.

Variable rt : runtime.functions.

Lemma math_1_opp (func : float -> float) (x : float) :
  (forall y, func (- y)%float = (- func y)%float) ->
  math.math_1 func (- x) = option_map PrimFloat.opp (math.math_1 func x).
Proof.
  intros H. unfold math.math_1. cbv zeta.
  rewrite H, !is_nan_opp, is_infinity_opp, is_finite_opp.
  destruct (is_nan (func x) && negb (is_nan x)); [reflexivity|].
  now destruct (is_infinity (func x) && is_finite x).
Qed.

Lemma math_1_finite (func : float -> float) (x : float) :
  is_finite (func x) = true -> math.math_1 func x = Some (func x).
Proof.
  unfold is_finite, math.math_1. intros H. cbv zeta.
  apply negb_true_iff, orb_false_iff in H as [-> ->]. reflexivity.
Qed.

Lemma half_angle_opp (d : float) :
  (math.radians (- d) / 2)%float = (- (math.radians d / 2))%float.
Proof.
  unfold math.radians. now rewrite mul_opp_l, div_opp_l.
Qed.

(** The sine of half the difference, with the two points exchanged. *)
Lemma sin_half_swap (x y : float) :
  (forall z, runtime.sin rt (- z)%float = (- runtime.sin rt z)%float) ->
  math.sin rt (math.radians (x - y) / 2)
  = math.sin rt (math.radians (y - x) / 2)
  \/ math.sin rt (math.radians (x - y) / 2)
     = option_map PrimFloat.opp (math.sin rt (math.radians (y - x) / 2)).
Proof.
  intros H. destruct (sub_swap y x) as [E|E]; rewrite E.
  - right. rewrite half_angle_opp. now apply math_1_opp.
  - now left.
Qed.

Lemma term_opp (c s : float) : (c * - s * - s)%float = (c * s * s)%float.
Proof.
  now rewrite (mul_opp_r c s), mul_opp_opp.
Qed.

Lemma haversine_distance_sym (lat1 lon1 lat2 lon2 : float) :
  (forall z, runtime.sin rt (- z)%float = (- runtime.sin rt z)%float) ->
  reports.haversine_distance rt lat1 lon1 lat2 lon2
  = reports.haversine_distance rt lat2 lon2 lat1 lon1.
Proof.
  intros H. unfold reports.haversine_distance. cbv zeta.
  destruct (sin_half_swap lat1 lat2 H) as [E1|E1];
    destruct (sin_half_swap lon1 lon2 H) as [E2|E2];
    rewrite E1, E2;
    destruct (math.sin rt (math.radians (lat2 - lat1) / 2)) as [sin_lat|];
    destruct (math.cos rt (math.radians lat1)) as [cos_lat1|];
    destruct (math.cos rt (math.radians lat2)) as [cos_lat2|];
    destruct (math.sin rt (math.radians (lon2 - lon1) / 2)) as [sin_lon|];
    simpl; try reflexivity;
    rewrite ?mul_opp_opp, ?term_opp, (mul_comm cos_lat2 cos_lat1);
    reflexivity.
Qed.

Lemma radians_finite (x : float) :
  is_finite x = true -> is_finite (math.radians x) = true.
Proof.
  intros H. unfold math.radians.
  apply (mul_exponents _ _ 971 (-58)); [| |lia].
  - apply finite_exponent; [apply Prim2SF_valid|].
    now rewrite <- is_finite_spec.
  - change (Prim2SF math.degToRad)
      with (S754_finite false 5030569068109113 (-58)).
    simpl. lia.
Qed.

(** The distance of a point to itself. *)
Lemma haversine_distance_same (lat lon : float) :
  runtime.sin rt 0 = 0%float ->
  runtime.atan2 rt 0 1 = 0%float ->
  (forall x, is_finite x = true ->
             (abs (runtime.cos rt x) <=? 1)%float = true) ->
  is_finite lat = true -> is_finite lon = true ->
  reports.haversine_distance rt lat lon lat lon = Some 0%float.
Proof.
  intros Hsin Hatan Hcos Hlat Hlon. unfold reports.haversine_distance.
  cbv zeta. rewrite !sub_diag by assumption.
  change (math.radians 0 / 2)%float with 0%float.
  assert (Es : math.sin rt 0 = Some 0%float).
  { unfold math.sin. rewrite math_1_finite; rewrite Hsin; reflexivity. }
  rewrite Es.
  assert (Hc := abs_le_1_exponent _ (Hcos _ (radians_finite lat Hlat))).
  assert (Ec : math.cos rt (math.radians lat)
               = Some (runtime.cos rt (math.radians lat))).
  { unfold math.cos. apply math_1_finite.
    now apply exponent_le_is_finite in Hc. }
  rewrite Ec. rewrite (mul_self_zero _ Hc).
  change (0 * 0 + 0 * 0)%float with 0%float.
  change (math.sqrt 0) with (Some 0%float).
  change (math.sqrt (1 - 0)) with (Some 1%float).
  unfold math.atan2, math.math_2. cbv zeta. rewrite Hatan. reflexivity.
Qed.

(** A quarter of the way round the globe along the equator and back: the
    radius is 6371000. *)
Lemma haversine_distance_half_turn :
  runtime.sin rt 0 = 0%float ->
  runtime.sin rt (math.pi / 2) = 1%float ->
  runtime.cos rt 0 = 1%float ->
  runtime.atan2 rt 1 0 = (math.pi / 2)%float ->
  reports.haversine_distance rt 0 0 0 180 = Some (6371000 * math.pi)%float.
Proof.
  intros Hs0 Hs1 Hc Ha. unfold reports.haversine_distance. cbv zeta.
  change (math.radians (0 - 0) / 2)%float with 0%float.
  change (math.radians (180 - 0) / 2)%float with (math.pi / 2)%float.
  change (math.radians 0) with 0%float.
  unfold math.sin, math.cos. rewrite !math_1_finite;
    rewrite ?Hs0, ?Hs1, ?Hc; try reflexivity.
  change (0 * 0 + 1 * 1 * 1 * 1)%float with 1%float.
  change (math.sqrt 1) with (Some 1%float).
  change (math.sqrt (1 - 1)) with (Some 0%float).
  unfold math.atan2, math.math_2. cbv zeta. rewrite Ha. reflexivity.
Qed.

End Haversine.

(** C9: [haversine_distance] has the same outcome, value or exception, when
    its two points are exchanged, for all coordinates and every C library
    whose sine is odd; it is 0 from a point to itself, for all finite
    coordinates and every C library with [sin 0 = 0], [atan2 0 1 = 0] and a
    cosine of magnitude at most 1; the radius is 6371000: half a turn along
    the equator gives [6371000 * pi].  The value depends on the arguments
    and on nothing else.  The call does raise for some points almost
    opposite on the globe: with the values of the C library it does so from
    (2.5, 0) to (-2.5, 180). *)
Theorem haversine_symmetric_and_zero :
  (forall rt : runtime.functions,
     (forall z, runtime.sin rt (- z)%float = (- runtime.sin rt z)%float) ->
     forall lat1 lon1 lat2 lon2 : float,
       reports.haversine_distance rt lat1 lon1 lat2 lon2
       = reports.haversine_distance rt lat2 lon2 lat1 lon1) /\
  (forall rt : runtime.functions,
     runtime.sin rt 0 = 0%float ->
     runtime.atan2 rt 0 1 = 0%float ->
     (forall x, is_finite x = true ->
                (abs (runtime.cos rt x) <=? 1)%float = true) ->
     forall lat lon : float,
       is_finite lat = true -> is_finite lon = true ->
       reports.haversine_distance rt lat lon lat lon = Some 0%float) /\
  (forall rt : runtime.functions,
     runtime.sin rt 0 = 0%float ->
     runtime.sin rt (math.pi / 2) = 1%float ->
     runtime.cos rt 0 = 1%float ->
     runtime.atan2 rt 1 0 = (math.pi / 2)%float ->
     reports.haversine_distance rt 0 0 0 180
     = Some (6371000 * math.pi)%float) /\
  reports.haversine_distance Examples.measured 2.5 0 (-2.5) 180 = None /\
  reports.haversine_distance Examples.measured (-2.5) 180 2.5 0 = None.
Proof.
  split; [|split; [|split; [|split]]].
  - intros rt H lat1 lon1 lat2 lon2. now apply haversine_distance_sym.
  - intros rt Hsin Hatan Hcos lat lon Hlat Hlon.
    now apply haversine_distance_same.
  - intros rt. apply haversine_distance_half_turn.
  - reflexivity.
  - reflexivity.
Qed.

(** With the sine, the cosine and the arc tangent taken to first order, the
    distance between two of the sample points is the same both ways, and
    that of the first to itself is 0. *)
Lemma haversine_symmetric_and_zero_witness :
  reports.haversine_distance Examples.small_angles 23.75 90.5 23.8125 90.5625
  = reports.haversine_distance Examples.small_angles 23.8125 90.5625 23.75 90.5
  /\ reports.haversine_distance Examples.small_angles 23.75 90.5 23.75 90.5
     = Some 0%float.
Proof.
  split.
  - apply (proj1 haversine_symmetric_and_zero Examples.small_angles).
    reflexivity.
  - apply (proj1 (proj2 haversine_symmetric_and_zero) Examples.small_angles);
      reflexivity.
Defined.

(** ** Station matching *)

Section Matching.

Variable rt : runtime.functions.

Lemma make_pair_distance (matched_pairs : list reports.MatchedPair)
    (s1 s2 : models.LocationSample) :
  reports.make_pair rt matched_pairs s1 s2
  = option_map (Spec.pair_of (List.length matched_pairs + 1) s1 s2)
      (Spec.sample_distance rt s1 s2).
Proof.
  unfold reports.make_pair, Spec.sample_distance.
  now destruct (reports.haversine_distance rt _ _ _ _).
Qed.

Lemma pairable_distance (s1 s2 : models.LocationSample) :
  Spec.pairable rt s1 s2 = true ->
  exists d, Spec.sample_distance rt s1 s2 = Some d.
Proof.
  unfold Spec.pairable. intros H. apply andb_prop in H as [_ H].
  destruct (Spec.sample_distance rt s1 s2) as [d|]; [now exists d|discriminate].
Qed.

(** The scan ends at the first sample that can be paired. *)
Lemma scan_station2_find (s1 : models.LocationSample)
    (station2_samples : list models.LocationSample)
    (matched_pairs : list reports.MatchedPair) :
  reports.scan_station2 rt s1 station2_samples matched_pairs
  = match find (Spec.pairable rt s1) station2_samples with
    | Some s2 =>
        match Spec.sample_distance rt s1 s2 with
        | Some d =>
            matched_pairs
            ++ [Spec.pair_of (List.length matched_pairs + 1) s1 s2 d]
        | None => matched_pairs
        end
    | None => matched_pairs
    end.
Proof.
  induction station2_samples as [|s2 rest IH]; simpl; [reflexivity|].
  unfold Spec.pairable at 1. rewrite make_pair_distance.
  destruct (reports.time_match s1 s2); [|exact IH].
  destruct (Spec.sample_distance rt s1 s2) as [d|] eqn:E; simpl;
    [now rewrite E|exact IH].
Qed.

Lemma find_first {A : Type} (f : A -> bool) (before : list A) (x : A)
    (after : list A) :
  (forall y, In y before -> f y = false) -> f x = true ->
  find f (before ++ x :: after) = Some x.
Proof.
  intros Hb Hx. induction before as [|y before IH]; simpl.
  - now rewrite Hx.
  - rewrite (Hb y) by now left. apply IH. intros z Hz. apply Hb. now right.
Qed.

Lemma fold_scan_numbered (station2_samples station1_samples
    : list models.LocationSample) (acc : list reports.MatchedPair) :
  fold_left (fun mp s1 => reports.scan_station2 rt s1 station2_samples mp)
    station1_samples acc
  = acc ++ Spec.numbered (List.length acc + 1)
             (Spec.first_matches rt station1_samples station2_samples).
Proof.
  revert acc. induction station1_samples as [|s1 l1 IH]; intros acc; simpl.
  - now rewrite app_nil_r.
  - rewrite IH, scan_station2_find.
    destruct (find (Spec.pairable rt s1) station2_samples) as [s2|];
      [|reflexivity].
    destruct (Spec.sample_distance rt s1 s2) as [d|]; [|reflexivity].
    simpl. rewrite <- app_assoc, length_app. simpl.
    now replace (List.length acc + 1 + 1)%nat
      with (S (List.length acc + 1)) by lia.
Qed.

Lemma match_stations_numbered (station1_samples station2_samples
    : list models.LocationSample) :
  reports.match_stations rt station1_samples station2_samples
  = Spec.numbered 1 (Spec.first_matches rt station1_samples station2_samples).
Proof.
  unfold reports.match_stations. now rewrite fold_scan_numbered.
Qed.

(** When no distance fails, the first sample that can be paired is the
    first time match. *)
Lemma find_pairable_defined (s1 : models.LocationSample)
    (station2_samples : list models.LocationSample) :
  (forall s2, In s2 station2_samples ->
              Spec.sample_distance rt s1 s2 <> None) ->
  find (Spec.pairable rt s1) station2_samples
  = find (reports.time_match s1) station2_samples.
Proof.
  induction station2_samples as [|s2 rest IH]; intros H; simpl;
    [reflexivity|].
  unfold Spec.pairable at 1.
  destruct (Spec.sample_distance rt s1 s2) as [d|] eqn:E.
  - rewrite andb_true_r. rewrite IH; [reflexivity|].
    intros x Hx. apply H. now right.
  - elim (H s2); [now left|exact E].
Qed.

End Matching.

Section TimeMatch.

Lemma time_match_iff (s1 s2 : models.LocationSample) :
  reports.time_match s1 s2 = true <->
  models.sample_date s1 = models.sample_date s2 /\
  exists n : Z,
    reports.time_difference (models.sample_time s1) (models.sample_time s2)
    = reports.Finite n /\ (n <= 120)%Z.
Proof.
  unfold reports.time_match. cbv zeta.
  rewrite andb_true_iff, String.eqb_eq.
  destruct (reports.time_difference _ _) as [n|]; simpl.
  - rewrite Z.leb_le. split.
    + intros [Hd Hn]. split; [exact Hd|]. now exists n.
    + intros [Hd [m [E Hm]]]. injection E as ->. now split.
  - split; [intros [_ H]; discriminate|].
    intros [_ [m [E _]]]. discriminate.
Qed.

End TimeMatch.

(** C1, as amended: in the scan of the station-2 samples for a station-1
    sample [s1], the pair of [s1] is made with the first sample, in the
    order of the list, that has the date of [s1], a time difference of at
    most 120 seconds, and a distance to [s1] whose computation does not
    raise; a sample that qualifies by date and time and whose distance
    raises is passed over and the scan goes on; the scan stops at the pair.
    The pairs of the report are these first matches, in the order of the
    station-1 samples and numbered from 1.  Where no distance raises, the
    match is the first sample that qualifies by date and time.  With A at
    10:00:00 and B, C at 10:01:00 and 10:01:30 of the same day, B and C both
    qualify and the pair of A is the one with B; with C listed before B it
    is the one with C, although B is nearer in time. *)
Theorem first_pairable_match_wins :
  (forall s1 s2 : models.LocationSample,
     reports.time_match s1 s2 = true <->
     models.sample_date s1 = models.sample_date s2 /\
     exists n : Z,
       reports.time_difference (models.sample_time s1) (models.sample_time s2)
       = reports.Finite n /\ (n <= 120)%Z) /\
  (forall (rt : runtime.functions)
          (s1 : models.LocationSample) (before : list models.LocationSample)
          (s2 : models.LocationSample) (after : list models.LocationSample)
          (matched_pairs : list reports.MatchedPair) (d : float),
     (forall x, In x before -> Spec.pairable rt s1 x = false) ->
     reports.time_match s1 s2 = true ->
     Spec.sample_distance rt s1 s2 = Some d ->
     reports.scan_station2 rt s1 (before ++ s2 :: after) matched_pairs
     = matched_pairs
       ++ [Spec.pair_of (List.length matched_pairs + 1) s1 s2 d]) /\
  (forall (rt : runtime.functions)
          (s1 s2 : models.LocationSample) (rest : list models.LocationSample)
          (matched_pairs : list reports.MatchedPair),
     Spec.sample_distance rt s1 s2 = None ->
     reports.scan_station2 rt s1 (s2 :: rest) matched_pairs
     = reports.scan_station2 rt s1 rest matched_pairs) /\
  (forall (rt : runtime.functions)
          (station1_samples station2_samples : list models.LocationSample),
     reports.match_stations rt station1_samples station2_samples
     = Spec.numbered 1
         (Spec.first_matches rt station1_samples station2_samples)) /\
  (forall (rt : runtime.functions) (s1 : models.LocationSample)
          (station2_samples : list models.LocationSample),
     (forall s2, In s2 station2_samples ->
                 Spec.sample_distance rt s1 s2 <> None) ->
     find (Spec.pairable rt s1) station2_samples
     = find (reports.time_match s1) station2_samples) /\
  (reports.time_match Examples.A Examples.B = true /\
   reports.time_match Examples.A Examples.C = true /\
   reports.match_stations Examples.measured
     [Examples.A] [Examples.B; Examples.C]
   = [Spec.pair_of 1 Examples.A Examples.B 0x1.26629d93e64cap+13] /\
   reports.match_stations Examples.measured
     [Examples.A] [Examples.C; Examples.B]
   = [Spec.pair_of 1 Examples.A Examples.C 0x1.265a58d96c96fp+14]).
Proof.
  split; [exact time_match_iff|].
  split; [|split; [|split; [exact match_stations_numbered|split]]].
  - intros rt s1 before s2 after mp d Hb Hs2 Hd.
    rewrite scan_station2_find, (find_first _ before s2 after Hb), Hd;
      [reflexivity|].
    unfold Spec.pairable. now rewrite Hs2, Hd.
  - intros rt s1 s2 rest mp Hd. simpl. rewrite make_pair_distance, Hd.
    simpl. now destruct (reports.time_match s1 s2).
  - exact find_pairable_defined.
  - repeat split; reflexivity.
Qed.

(** A sample that does not qualify, then B, then C: the pair of A is with B. *)
Lemma first_pairable_match_wins_witness :
  reports.scan_station2 Examples.measured Examples.A
    ([Examples.bad_time] ++ Examples.B :: [Examples.C]) []
  = [] ++ [Spec.pair_of (List.length (@nil reports.MatchedPair) + 1)
             Examples.A Examples.B 0x1.26629d93e64cap+13].
Proof.
  apply (proj1 (proj2 first_pairable_match_wins)).
  - intros x [<-|[]]. reflexivity.
  - reflexivity.
  - reflexivity.
Defined.

(** The claim as it stands fails where a distance raises: P is almost
    opposite to Q1 on the globe, Q1 comes first and qualifies by date and
    time, and the pair of P is made with Q2. *)
Lemma first_qualifying_sample_passed_over :
  reports.time_match Examples.P Examples.Q1 = true /\
  find (reports.time_match Examples.P) [Examples.Q1; Examples.Q2]
  = Some Examples.Q1 /\
  reports.match_stations Examples.measured
    [Examples.P] [Examples.Q1; Examples.Q2]
  = [Spec.pair_of 1 Examples.P Examples.Q2 0x1.2fb5fdb47a3ecp+24].
Proof.
  repeat split; reflexivity.
Qed.

(** ** The workbook *)

Section Workbook.

Local Open Scope string_scope.

Lemma has_illegal_app (a b : string) :
  openpyxl.has_illegal (a ++ b)
  = openpyxl.has_illegal a || openpyxl.has_illegal b.
Proof.
  induction a as [|c a IH]; simpl; [reflexivity|].
  now rewrite IH, orb_assoc.
Qed.

Lemma printable_app (a b : string) :
  Spec.printable (a ++ b) = Spec.printable a && Spec.printable b.
Proof.
  unfold Spec.printable. now rewrite has_illegal_app, negb_orb.
Qed.

Lemma printable_slice (n : N) (s : string) :
  Spec.printable s = true -> Spec.printable (PyStr.slice_to n s) = true.
Proof.
  unfold Spec.printable. revert n.
  induction s as [|c s IH]; intros n; simpl; [reflexivity|].
  destruct (n =? 0)%N; [reflexivity|]. simpl.
  rewrite !negb_orb. intros H. apply andb_prop in H as [-> H].
  now apply IH.
Qed.

Lemma printable_remove_from (old : string) (s : string) :
  Spec.printable s = true ->
  forall skip, Spec.printable (PyStr.remove_from old skip s) = true.
Proof.
  unfold Spec.printable.
  induction s as [|c s IH]; intros H skip; [reflexivity|].
  simpl in H. rewrite negb_orb in H. apply andb_prop in H as [Hc Hs].
  cbn [PyStr.remove_from].
  destruct skip as [|k]; [|now apply IH].
  destruct (String.prefix old (String c s)); [now apply IH|].
  cbn [openpyxl.has_illegal]. rewrite negb_orb, Hc. now apply IH.
Qed.

Lemma printable_min (first : string) (rest : list string) :
  Spec.printable first = true -> forallb Spec.printable rest = true ->
  Spec.printable (PyStr.min first rest) = true.
Proof.
  unfold PyStr.min. revert first.
  induction rest as [|t rest IH]; intros first Hf Hr; simpl; [exact Hf|].
  simpl in Hr. apply andb_prop in Hr as [Ht Hr].
  apply IH; [|exact Hr]. now destruct (PyStr.ltb t first).
Qed.

Lemma printable_max (first : string) (rest : list string) :
  Spec.printable first = true -> forallb Spec.printable rest = true ->
  Spec.printable (PyStr.max first rest) = true.
Proof.
  unfold PyStr.max. revert first.
  induction rest as [|t rest IH]; intros first Hf Hr; simpl; [exact Hf|].
  simpl in Hr. apply andb_prop in Hr as [Ht Hr].
  apply IH; [|exact Hr]. now destruct (PyStr.ltb first t).
Qed.

(** *** What a cell write can do *)

Lemma bind_value_fails (P : Prop) (v : openpyxl.Value) :
  Spec.fails_on_cell P (openpyxl.bind_value v).
Proof.
  destruct v as [s|n|x|a b q]; simpl; try exact I.
  unfold openpyxl.check_string. cbv zeta.
  now destruct (openpyxl.has_illegal _).
Qed.

Lemma cell_in_sheet (ws : openpyxl.Worksheet) (row_idx col : Z)
    (v : openpyxl.Value) (fill_font : option openpyxl.Style) :
  (1 <= row_idx <= openpyxl.max_row)%Z -> (1 <= col)%Z ->
  openpyxl.cell ws row_idx col v fill_font
  = match openpyxl.bind_value v with
    | Return v' =>
        Return (ws ++ [{| openpyxl.row := row_idx; openpyxl.column := col;
                          openpyxl.value := v';
                          openpyxl.style := fill_font |}])%list
    | Raise e => Raise e
    end.
Proof.
  intros Hr Hc. unfold openpyxl.cell.
  destruct (Z.ltb_spec row_idx 1); [lia|].
  destruct (Z.ltb_spec col 1); [lia|].
  destruct (Z.ltb_spec openpyxl.max_row row_idx); [lia|]. reflexivity.
Qed.

Lemma cell_fails (P : Prop) (ws : openpyxl.Worksheet) (row_idx col : Z)
    (v : openpyxl.Value) (fill_font : option openpyxl.Style) :
  (P -> (1 <= row_idx <= openpyxl.max_row)%Z /\ (1 <= col)%Z) ->
  Spec.fails_on_cell P (openpyxl.cell ws row_idx col v fill_font).
Proof.
  intros H. unfold openpyxl.cell.
  destruct (_ || _ || _) eqn:E.
  - simpl. intros HP. destruct (H HP) as [Hr Hc].
    destruct (Z.ltb_spec row_idx 1); [lia|].
    destruct (Z.ltb_spec col 1); [lia|].
    destruct (Z.ltb_spec openpyxl.max_row row_idx); [lia|]. discriminate.
  - assert (Hv := bind_value_fails P v).
    now destruct (openpyxl.bind_value v).
Qed.

Lemma cell_out_of_sheet (ws : openpyxl.Worksheet) (row_idx col : Z)
    (v : openpyxl.Value) (fill_font : option openpyxl.Style) :
  (openpyxl.max_row < row_idx)%Z ->
  openpyxl.cell ws row_idx col v fill_font
  = Raise (ValueError (CellOutOfSheet row_idx col)).
Proof.
  intros H. unfold openpyxl.cell.
  destruct (Z.ltb_spec openpyxl.max_row row_idx); [|lia].
  now rewrite !orb_true_r.
Qed.

Lemma merge_cells_in_sheet (ws : openpyxl.Worksheet) (row_idx : Z) :
  (1 <= row_idx <= openpyxl.max_row)%Z ->
  openpyxl.merge_cells ws row_idx = Return ws.
Proof.
  intros H. unfold openpyxl.merge_cells.
  destruct (Z.ltb_spec row_idx 1); [lia|].
  destruct (Z.ltb_spec openpyxl.max_row row_idx); [lia|]. reflexivity.
Qed.

Lemma merge_cells_out_of_sheet (ws : openpyxl.Worksheet) (row_idx : Z) :
  (openpyxl.max_row < row_idx)%Z ->
  openpyxl.merge_cells ws row_idx
  = Raise (ValueError (CellOutOfSheet row_idx 1)).
Proof.
  intros H. unfold openpyxl.merge_cells.
  destruct (Z.ltb_spec openpyxl.max_row row_idx); [|lia].
  now rewrite orb_true_r.
Qed.

Lemma merge_cells_fails (P : Prop) (ws : openpyxl.Worksheet) (row_idx : Z) :
  (P -> (1 <= row_idx <= openpyxl.max_row)%Z) ->
  Spec.fails_on_cell P (openpyxl.merge_cells ws row_idx).
Proof.
  intros H. unfold openpyxl.merge_cells.
  destruct (_ || _) eqn:E; [|exact I].
  simpl. intros HP. specialize (H HP).
  destruct (Z.ltb_spec row_idx 1); [lia|].
  destruct (Z.ltb_spec openpyxl.max_row row_idx); [lia|]. discriminate.
Qed.

Lemma set_value_fails (P : Prop) (ws : openpyxl.Worksheet)
    (row_idx col : Z) (v : openpyxl.Value) :
  Spec.fails_on_cell P (openpyxl.set_value ws row_idx col v).
Proof.
  unfold openpyxl.set_value. assert (H := bind_value_fails P v).
  now destruct (openpyxl.bind_value v).
Qed.

Lemma bind_fails (P : Prop) {A B : Type} (r : result A)
    (k : A -> result B) :
  Spec.fails_on_cell P r -> (forall a, Spec.fails_on_cell P (k a)) ->
  Spec.fails_on_cell P (reports.bind r k).
Proof.
  intros Hr Hk. destruct r as [a|e]; simpl; [apply Hk|exact Hr].
Qed.

Lemma bind_value_text (s : string) :
  Spec.printable s = true ->
  openpyxl.bind_value (openpyxl.Text s)
  = Return (openpyxl.Text (PyStr.slice_to 32767 s)).
Proof.
  intros H. apply (printable_slice 32767) in H. unfold Spec.printable in H.
  apply negb_true_iff in H. simpl. unfold openpyxl.check_string.
  cbv zeta. now rewrite H.
Qed.

Lemma cell_text_returns (ws : openpyxl.Worksheet) (row_idx col : Z)
    (s : string) (fill_font : option openpyxl.Style) :
  (1 <= row_idx <= openpyxl.max_row)%Z -> (1 <= col)%Z ->
  Spec.printable s = true ->
  Spec.returns (openpyxl.cell ws row_idx col (openpyxl.Text s) fill_font).
Proof.
  intros Hr Hc H. rewrite cell_in_sheet by assumption.
  rewrite (bind_value_text s H). now eexists.
Qed.

Lemma cell_number_returns (ws : openpyxl.Worksheet) (row_idx col : Z)
    (v : openpyxl.Value) (fill_font : option openpyxl.Style) :
  (1 <= row_idx <= openpyxl.max_row)%Z -> (1 <= col)%Z ->
  match v with openpyxl.Text _ => False | _ => True end ->
  Spec.returns (openpyxl.cell ws row_idx col v fill_font).
Proof.
  intros Hr Hc H. rewrite cell_in_sheet by assumption.
  destruct v; [contradiction| | |]; now eexists.
Qed.

Lemma set_value_text_returns (ws : openpyxl.Worksheet) (row_idx col : Z)
    (s : string) :
  Spec.printable s = true ->
  Spec.returns (openpyxl.set_value ws row_idx col (openpyxl.Text s)).
Proof.
  intros H. unfold openpyxl.set_value. rewrite (bind_value_text s H).
  now eexists.
Qed.

Lemma bind_returns {A B : Type} (r : result A) (k : A -> result B) :
  Spec.returns r -> (forall a, Spec.returns (k a)) ->
  Spec.returns (reports.bind r k).
Proof.
  intros [a ->] Hk. simpl. apply Hk.
Qed.

Lemma bind_inv {A B : Type} (r : result A) (k : A -> result B) (b : B) :
  reports.bind r k = Return b -> exists a, r = Return a /\ k a = Return b.
Proof.
  destruct r as [a|e]; simpl; [|discriminate]. intros H. now exists a.
Qed.

End Workbook.

(** *** The parts of the sheet *)

Ltac in_sheet := intros; unfold openpyxl.max_row in *; lia.

Ltac fails_step :=
  match goal with
  | |- Spec.fails_on_cell _ (reports.bind _ _) =>
      apply bind_fails; [|intros ?]
  | |- Spec.fails_on_cell _ (openpyxl.cell _ _ _ _ _) =>
      apply cell_fails; in_sheet
  | |- Spec.fails_on_cell _ (openpyxl.merge_cells _ _) =>
      apply merge_cells_fails; in_sheet
  | |- Spec.fails_on_cell _ (Return _) => exact I
  end.

Ltac returns_step :=
  match goal with
  | |- Spec.returns (reports.bind _ _) => apply bind_returns; [|intros ?]
  | |- Spec.returns (openpyxl.cell _ _ _ (openpyxl.Text _) _) =>
      apply cell_text_returns; [in_sheet|in_sheet|]
  | |- Spec.returns (openpyxl.cell _ _ _ _ _) =>
      apply cell_number_returns; [in_sheet|in_sheet|exact I]
  | |- Spec.returns (openpyxl.merge_cells _ _) =>
      rewrite merge_cells_in_sheet by in_sheet; eexists; reflexivity
  | |- Spec.returns (Return _) => eexists; reflexivity
  end.

Section Sheet.

Local Open Scope string_scope.

Lemma write_header_fails (P : Prop)
    (start_date end_date station1 station2 : string)
    (matched_pairs : list reports.MatchedPair) :
  Spec.fails_on_cell P
    (reports.write_header start_date end_date station1 station2
       matched_pairs).
Proof.
  unfold reports.write_header. repeat fails_step.
  - destruct (String.eqb start_date end_date);
      [exact I|apply set_value_fails].
  - destruct (map _ matched_pairs); repeat fails_step.
Qed.

Lemma write_headers_fails (P : Prop) (headers : list string) :
  forall (ws : openpyxl.Worksheet) (col : Z),
    (1 <= col)%Z ->
    Spec.fails_on_cell P (reports.write_headers ws col headers).
Proof.
  induction headers as [|h l IH]; intros ws col Hc;
    cbn [reports.write_headers]; repeat fails_step. apply IH. lia.
Qed.

Lemma write_pair_fails (P : Prop) (rt : runtime.functions)
    (ws : openpyxl.Worksheet) (row_idx : Z) (p : reports.MatchedPair) :
  (P -> (1 <= row_idx <= openpyxl.max_row)%Z) ->
  Spec.fails_on_cell P (reports.write_pair rt ws row_idx p).
Proof.
  intros H. unfold reports.write_pair.
  repeat (first [fails_step|apply cell_fails; intros HP; split; [auto|lia]]).
Qed.

Lemma write_pairs_fails (P : Prop) (rt : runtime.functions)
    (matched_pairs : list reports.MatchedPair) :
  forall (ws : openpyxl.Worksheet) (row_idx : Z) (n : nat),
    (P -> (1 <= row_idx)%Z /\
          (row_idx + Z.of_nat (List.length matched_pairs) - 1
           <= openpyxl.max_row)%Z) ->
    Spec.fails_on_cell P (reports.write_pairs rt ws row_idx matched_pairs n).
Proof.
  induction matched_pairs as [|p l IH]; intros ws row_idx n H;
    cbn [reports.write_pairs]; [exact I|].
  apply bind_fails.
  - apply write_pair_fails. intros HP. destruct (H HP) as [H1 H2].
    cbn [List.length] in H2. lia.
  - intros ws'. apply IH. intros HP. destruct (H HP) as [H1 H2].
    cbn [List.length] in H2. lia.
Qed.

(** The count the loop over the pairs keeps. *)
Lemma write_pairs_count (rt : runtime.functions)
    (matched_pairs : list reports.MatchedPair) :
  forall (ws ws' : openpyxl.Worksheet) (row_idx : Z) (n k : nat),
    reports.write_pairs rt ws row_idx matched_pairs n = Return (ws', k) ->
    k = (n + List.length (filter reports.is_successful matched_pairs))%nat.
Proof.
  induction matched_pairs as [|p l IH]; intros ws ws' row_idx n k;
    cbn [reports.write_pairs filter].
  - intros H. injection H as _ <-. simpl. lia.
  - intros H. apply bind_inv in H as [ws1 [_ H]]. apply IH in H.
    destruct (reports.is_successful p); simpl; lia.
Qed.

Lemma success_rate_returns (successful total : nat) :
  (0 < total)%nat -> Spec.returns (reports.success_rate successful total).
Proof.
  intros H. unfold reports.success_rate.
  destruct total as [|n]; [lia|]. simpl. now eexists.
Qed.

(** What a report that was assembled holds. *)
Lemma assemble_report_inv (rt : runtime.functions)
    (start_date end_date station1 station2 : string)
    (matched_pairs : list reports.MatchedPair) (r : reports.Report) :
  reports.assemble_report rt start_date end_date station1 station2
    matched_pairs = Return r ->
  reports.rows r = matched_pairs /\
  reports.total_pairs r = List.length matched_pairs /\
  reports.successful_communications r
  = List.length (filter reports.is_successful matched_pairs) /\
  reports.success_rate (reports.successful_communications r)
    (reports.total_pairs r) = Return (reports.rate r) /\
  reports.filename r
  = reports.report_filename station1 station2 start_date end_date.
Proof.
  unfold reports.assemble_report. intros H.
  apply bind_inv in H as [ws0 [_ H]].
  apply bind_inv in H as [ws1 [_ H]].
  apply bind_inv in H as [[ws2 k] [Hk H]].
  apply write_pairs_count in Hk. simpl in Hk. subst k.
  apply bind_inv in H as [ws2' [_ H]].
  apply bind_inv in H as [q [Hq H]].
  apply bind_inv in H as [ws3 [_ H]].
  injection H as <-. simpl. now repeat split.
Qed.

(** With a pair at hand the division of the summary is defined, and the
    assembly can only fail on a text, or on a row past the end of the sheet
    when the pairs are too many for it. *)
Lemma assemble_report_fails (rt : runtime.functions)
    (start_date end_date station1 station2 : string)
    (matched_pairs : list reports.MatchedPair) :
  matched_pairs <> [] ->
  Spec.fails_on_cell (Spec.fits_sheet (List.length matched_pairs))
    (reports.assemble_report rt start_date end_date station1 station2
       matched_pairs).
Proof.
  intros Hm. unfold reports.assemble_report, Spec.fits_sheet.
  apply bind_fails; [apply write_header_fails|intros ws0].
  apply bind_fails; [apply write_headers_fails; lia|intros ws1].
  apply bind_fails; [apply write_pairs_fails; in_sheet|intros [ws2 k]].
  apply bind_fails; [apply merge_cells_fails; in_sheet|intros ws2'].
  destruct (success_rate_returns k (List.length matched_pairs)) as [q ->].
  { destruct matched_pairs; [congruence|simpl; lia]. }
  cbn [reports.bind]. repeat fails_step.
Qed.

Lemma assemble_report_empty (rt : runtime.functions)
    (start_date end_date station1 station2 : string) :
  Spec.printable start_date = true -> Spec.printable end_date = true ->
  Spec.printable station1 = true -> Spec.printable station2 = true ->
  reports.assemble_report rt start_date end_date station1 station2 []
  = Raise ZeroDivisionError.
Proof.
  intros H1 H2 H3 H4. unfold reports.assemble_report.
  assert (Hh : Spec.returns
                 (reports.write_header start_date end_date station1
                    station2 [])).
  { unfold reports.write_header. cbn [map].
    repeat returns_step;
      rewrite ?printable_app, ?H1, ?H2, ?H3, ?H4; try reflexivity.
    destruct (String.eqb start_date end_date); [now eexists|].
    apply set_value_text_returns. now rewrite !printable_app, H1, H2. }
  destruct Hh as [ws0 ->]. cbn [reports.bind].
  assert (Hc : Spec.returns
                 (reports.write_headers ws0 1
                    (reports.headers station1 station2))).
  { unfold reports.headers. cbn [reports.write_headers].
    repeat returns_step; rewrite ?printable_app, ?H3, ?H4; reflexivity. }
  destruct Hc as [ws1 ->]. reflexivity.
Qed.

End Sheet.

(** ** Outcomes of the report *)

Section ReportOutcomes.

Local Open Scope string_scope.

Variable rt : runtime.functions.

Lemma is_empty_true {A : Type} (l : list A) :
  reports.is_empty l = true <-> l = [].
Proof. destruct l; simpl; split; congruence. Qed.

Lemma is_empty_false {A : Type} (l : list A) :
  reports.is_empty l = false <-> l <> [].
Proof. destruct l; simpl; split; congruence. Qed.

Lemma match_stations_nil_r (station1_samples : list models.LocationSample) :
  reports.match_stations rt station1_samples [] = [].
Proof.
  unfold reports.match_stations.
  induction station1_samples as [|s1 l IH]; simpl; auto.
Qed.

(** Where the entries of [first_matches] come from. *)
Lemma first_matches_in (l1 l2 : list models.LocationSample)
    (s1 s2 : models.LocationSample) (d : float) :
  In (s1, s2, d) (Spec.first_matches rt l1 l2) ->
  In s1 l1 /\ In s2 l2 /\ Spec.pairable rt s1 s2 = true /\
  Spec.sample_distance rt s1 s2 = Some d.
Proof.
  unfold Spec.first_matches. intros H.
  apply in_flat_map in H as [x [Hx H]].
  destruct (find (Spec.pairable rt x) l2) as [y|] eqn:Ef; [|contradiction].
  destruct (Spec.sample_distance rt x y) as [dxy|] eqn:Ed; [|contradiction].
  destruct H as [H|[]]. injection H as -> -> ->.
  apply find_some in Ef as [Hy Hp]. now repeat split.
Qed.

Lemma numbered_in (l : list (models.LocationSample * models.LocationSample
                             * float)) :
  forall (n : nat) (p : reports.MatchedPair),
    In p (Spec.numbered n l) ->
    exists k s1 s2 d, In (s1, s2, d) l /\ p = Spec.pair_of k s1 s2 d.
Proof.
  induction l as [|[[s1 s2] d] l IH]; intros n p H; simpl in H;
    [contradiction|].
  destruct H as [<-|H].
  - exists n, s1, s2, d. split; [now left|reflexivity].
  - destruct (IH _ _ H) as [k [x1 [x2 [dx [Hin E]]]]].
    exists k, x1, x2, dx. split; [now right|exact E].
Qed.

Lemma printable_pair_of (n : nat) (s1 s2 : models.LocationSample)
    (d : float) :
  Spec.printable_pair (Spec.pair_of n s1 s2 d) = Spec.printable_sample s1.
Proof.
  unfold Spec.printable_pair, Spec.printable_sample. simpl.
  rewrite printable_app. change (Spec.printable " (mean)") with true.
  now rewrite andb_true_r.
Qed.

Lemma match_stations_printable (l1 l2 : list models.LocationSample) :
  forallb Spec.printable_sample l1 = true ->
  forallb Spec.printable_pair (reports.match_stations rt l1 l2) = true.
Proof.
  intros H. rewrite forallb_forall in H. apply forallb_forall. intros p Hp.
  rewrite match_stations_numbered in Hp.
  apply numbered_in in Hp as [k [s1 [s2 [d [Hin ->]]]]].
  apply first_matches_in in Hin as [H1 _].
  rewrite printable_pair_of. now apply H.
Qed.

(** *** A sheet of printable texts is written *)

Lemma times_printable (matched_pairs : list reports.MatchedPair) :
  forallb Spec.printable_pair matched_pairs = true ->
  forallb Spec.printable
    (map (fun pair => PyStr.remove " (mean)" (reports.time pair))
       matched_pairs) = true.
Proof.
  induction matched_pairs as [|p l IH]; simpl; [reflexivity|].
  intros H. apply andb_prop in H as [Hp Hl]. rewrite (IH Hl), andb_true_r.
  unfold Spec.printable_pair in Hp.
  apply andb_prop in Hp as [Hp _]. apply andb_prop in Hp as [Hp _].
  apply andb_prop in Hp as [Hp _]. apply andb_prop in Hp as [_ Hp].
  now apply printable_remove_from.
Qed.

Lemma write_header_returns (start_date end_date station1 station2 : string)
    (matched_pairs : list reports.MatchedPair) :
  Spec.printable start_date = true -> Spec.printable end_date = true ->
  Spec.printable station1 = true -> Spec.printable station2 = true ->
  forallb Spec.printable_pair matched_pairs = true ->
  Spec.returns
    (reports.write_header start_date end_date station1 station2
       matched_pairs).
Proof.
  intros H1 H2 H3 H4 Hp. apply times_printable in Hp.
  unfold reports.write_header.
  repeat returns_step;
    rewrite ?printable_app, ?H1, ?H2, ?H3, ?H4; try reflexivity.
  - destruct (String.eqb start_date end_date); [now eexists|].
    apply set_value_text_returns. now rewrite !printable_app, H1, H2.
  - destruct (map _ matched_pairs) as [|t times']; [now eexists|].
    simpl in Hp. apply andb_prop in Hp as [Ht Hr].
    repeat returns_step; [reflexivity|].
    rewrite !printable_app, printable_min, printable_max by assumption.
    reflexivity.
Qed.

Lemma write_headers_returns (station1 station2 : string)
    (ws : openpyxl.Worksheet) :
  Spec.printable station1 = true -> Spec.printable station2 = true ->
  Spec.returns
    (reports.write_headers ws 1 (reports.headers station1 station2)).
Proof.
  intros H3 H4. unfold reports.headers. cbn [reports.write_headers].
  repeat returns_step; rewrite ?printable_app, ?H3, ?H4; reflexivity.
Qed.

Lemma write_pair_returns (ws : openpyxl.Worksheet) (row_idx : Z)
    (p : reports.MatchedPair) :
  (1 <= row_idx <= openpyxl.max_row)%Z ->
  Spec.printable_pair p = true ->
  Spec.returns (reports.write_pair rt ws row_idx p).
Proof.
  unfold Spec.printable_pair. intros Hrow H.
  apply andb_prop in H as [H H5]. apply andb_prop in H as [H H4].
  apply andb_prop in H as [H H3]. apply andb_prop in H as [H1 H2].
  unfold reports.write_pair. repeat returns_step; assumption.
Qed.

Lemma write_pairs_returns (matched_pairs : list reports.MatchedPair) :
  forallb Spec.printable_pair matched_pairs = true ->
  forall (ws : openpyxl.Worksheet) (row_idx : Z) (n : nat),
    (1 <= row_idx)%Z ->
    (row_idx + Z.of_nat (List.length matched_pairs) - 1
     <= openpyxl.max_row)%Z ->
    Spec.returns (reports.write_pairs rt ws row_idx matched_pairs n).
Proof.
  induction matched_pairs as [|p l IH]; intros H ws row_idx n H1 H2;
    cbn [reports.write_pairs]; [now eexists|].
  simpl in H. apply andb_prop in H as [Hp Hl]. cbn [List.length] in H2.
  apply bind_returns; [apply write_pair_returns; [lia|exact Hp]|intros ws'].
  apply IH; [exact Hl|lia|lia].
Qed.

Lemma assemble_report_returns
    (start_date end_date station1 station2 : string)
    (matched_pairs : list reports.MatchedPair) :
  matched_pairs <> [] ->
  Spec.fits_sheet (List.length matched_pairs) ->
  Spec.printable start_date = true -> Spec.printable end_date = true ->
  Spec.printable station1 = true -> Spec.printable station2 = true ->
  forallb Spec.printable_pair matched_pairs = true ->
  Spec.returns
    (reports.assemble_report rt start_date end_date station1 station2
       matched_pairs).
Proof.
  intros Hm Hfit H1 H2 H3 H4 Hp. unfold reports.assemble_report.
  unfold Spec.fits_sheet in Hfit.
  apply bind_returns; [now apply write_header_returns|intros ws0].
  apply bind_returns; [now apply write_headers_returns|intros ws1].
  apply bind_returns;
    [apply write_pairs_returns; [exact Hp|lia|lia]|intros [ws2 k]].
  apply bind_returns;
    [rewrite merge_cells_in_sheet by lia; now eexists|intros ws2'].
  apply bind_returns.
  { apply success_rate_returns. destruct matched_pairs; [congruence|].
    simpl. lia. }
  intros q. repeat returns_step.
Qed.

(** *** More pairs than the sheet has rows for *)

Lemma write_pair_out_of_sheet (ws : openpyxl.Worksheet) (row_idx : Z)
    (p : reports.MatchedPair) :
  (openpyxl.max_row < row_idx)%Z ->
  reports.write_pair rt ws row_idx p
  = Raise (ValueError (CellOutOfSheet row_idx 1)).
Proof.
  intros H. unfold reports.write_pair.
  now rewrite (cell_out_of_sheet ws row_idx 1 _ None H).
Qed.

Lemma write_pairs_out_of_sheet (matched_pairs : list reports.MatchedPair) :
  forallb Spec.printable_pair matched_pairs = true ->
  forall (ws : openpyxl.Worksheet) (row_idx : Z) (n : nat),
    (1 <= row_idx <= openpyxl.max_row + 1)%Z ->
    (openpyxl.max_row
     < row_idx + Z.of_nat (List.length matched_pairs) - 1)%Z ->
    reports.write_pairs rt ws row_idx matched_pairs n
    = Raise (ValueError (CellOutOfSheet (openpyxl.max_row + 1) 1)).
Proof.
  induction matched_pairs as [|p l IH]; intros H ws row_idx n H1 H2;
    cbn [reports.write_pairs List.length] in *; [lia|].
  simpl in H. apply andb_prop in H as [Hp Hl].
  destruct (Z.eq_dec row_idx (openpyxl.max_row + 1)) as [->|Hne].
  - now rewrite write_pair_out_of_sheet by lia.
  - destruct (write_pair_returns ws row_idx p ltac:(lia) Hp) as [ws' ->].
    cbn [reports.bind]. apply IH; [exact Hl|lia|lia].
Qed.

(** Texts that are all taken and pairs that do not fit: the sheet refuses the
    first row after its last one, in the loop over the pairs or, when all
    pairs have a row, at the range merged for the summary. *)
Lemma assemble_report_out_of_sheet
    (start_date end_date station1 station2 : string)
    (matched_pairs : list reports.MatchedPair) :
  ~ Spec.fits_sheet (List.length matched_pairs) ->
  Spec.printable start_date = true -> Spec.printable end_date = true ->
  Spec.printable station1 = true -> Spec.printable station2 = true ->
  forallb Spec.printable_pair matched_pairs = true ->
  exists row_idx : Z,
    (openpyxl.max_row < row_idx)%Z /\
    reports.assemble_report rt start_date end_date station1 station2
      matched_pairs
    = Raise (ValueError (CellOutOfSheet row_idx 1)).
Proof.
  intros Hfit H1 H2 H3 H4 Hp. unfold Spec.fits_sheet in Hfit.
  unfold reports.assemble_report.
  destruct (write_header_returns start_date end_date station1 station2
              matched_pairs H1 H2 H3 H4 Hp) as [ws0 ->].
  cbn [reports.bind].
  destruct (write_headers_returns station1 station2 ws0 H3 H4) as [ws1 ->].
  cbn [reports.bind].
  destruct (Z_le_gt_dec (9 + Z.of_nat (List.length matched_pairs) - 1)
              openpyxl.max_row) as [Hle|Hgt].
  - destruct (write_pairs_returns matched_pairs Hp ws1 9 0 ltac:(lia) Hle)
      as [[ws2 k] ->].
    cbn [reports.bind]. rewrite merge_cells_out_of_sheet by lia.
    eexists. split; [|reflexivity]. lia.
  - rewrite (write_pairs_out_of_sheet matched_pairs Hp ws1 9 0)
      by (unfold openpyxl.max_row in *; lia).
    eexists. split; [|reflexivity]. lia.
Qed.

(** *** The ways the call can end *)

Lemma generate_cases (start_date end_date station1 station2 : string)
    (samples : list models.LocationSample) :
  let l1 := filter (reports.is_station station1) samples in
  let l2 := filter (reports.is_station station2) samples in
  let mp := reports.match_stations rt l1 l2 in
  let dates :=
    runtime.strptime_date rt start_date && runtime.strptime_date rt end_date in
  let answer :=
    reports.generate_station_report rt start_date end_date station1 station2
      samples in
  (dates = false /\
   answer = Raise (HTTPException 400 (InvalidDateFormat DateNotParsed))) \/
  (dates = true /\ samples = [] /\
   answer = Raise (HTTPException 404 NoDataForCriteria)) \/
  (dates = true /\ samples <> [] /\ (l1 = [] \/ l2 = []) /\
   answer = Raise (HTTPException 404 (NoDataForStations station1 station2))) \/
  (dates = true /\ l1 <> [] /\ l2 <> [] /\ mp = [] /\
   answer = Raise (HTTPException 404
                     (NoMatchingTimePairs (map models.sample_time l1)
                                          (map models.sample_time l2)))) \/
  (dates = true /\ l1 <> [] /\ l2 <> [] /\ mp <> [] /\
   ((exists r,
       reports.assemble_report rt start_date end_date station1 station2 mp
       = Return r /\ answer = Return r) \/
    (exists v,
       reports.assemble_report rt start_date end_date station1 station2 mp
       = Raise (IllegalCharacterError v) /\
       answer = Raise (HTTPException 500
                         (ReportGenerationFailed
                            (IllegalCharacterError v)))) \/
    (exists row_idx col,
       reports.assemble_report rt start_date end_date station1 station2 mp
       = Raise (ValueError (CellOutOfSheet row_idx col)) /\
       ~ Spec.fits_sheet (List.length mp) /\
       answer = Raise (HTTPException 400
                         (InvalidDateFormat (CellOutOfSheet row_idx col)))))).
Proof.
  intros l1 l2 mp dates answer. unfold answer.
  unfold reports.generate_station_report. cbv zeta. fold dates.
  destruct dates; [right|left; now split]. cbn [negb].
  destruct samples as [|s samples']; [left; now repeat split|].
  right. cbn [reports.is_empty]. fold l1 l2. fold mp.
  destruct l1 as [|x1 l1'] eqn:E1.
  { left. repeat split; try congruence. now left. }
  destruct l2 as [|x2 l2'] eqn:E2.
  { left. repeat split; try congruence. now right. }
  right. cbn [reports.is_empty orb].
  destruct mp as [|p mp'] eqn:Em.
  { left. repeat split; congruence. }
  right. cbn [reports.is_empty].
  repeat split; try congruence.
  assert (Hf := assemble_report_fails rt start_date end_date station1
                  station2 (p :: mp') ltac:(congruence)).
  destruct (reports.assemble_report rt start_date end_date station1 station2
              (p :: mp')) as [r|e].
  - left. now exists r.
  - right. destruct e as [c d|ve|cid|cid|cause| |e|v]; try contradiction.
    + destruct e as [|row_idx col]; [contradiction|].
      right. exists row_idx, col. now repeat split.
    + left. now exists v.
Qed.

End ReportOutcomes.

(** C8: [generate_station_report], once the two dates are accepted, ends in
    "no data found" (404) when the query returned nothing or one of the two
    stations has no sample, and in the different "no matching time pairs"
    (404), which carries the times of both stations, when both have samples
    and no pair was matched.  The workbook is assembled in every other case
    and in no other, from at least one pair, so that the division of its
    success rate never raises: the assembly gives the report, or stops on a
    text that a cell refuses (500), or, when the pairs are more than the
    sheet has rows for, on a row that the sheet refuses (400, under the
    heading of an invalid date).  When the dates, the stations and the
    station-1 samples hold no refused text, it gives the report if the
    pairs fit the sheet and the 400 if they do not.  A report that is
    returned has the matched pairs as its rows, at least one.  A date that
    is not accepted is answered 400. *)
Theorem report_empty_outcomes :
  (forall (rt : runtime.functions) (start_date end_date : string),
     runtime.strptime_date rt start_date = true ->
     runtime.strptime_date rt end_date = true ->
     (forall station1 station2 : string,
        reports.generate_station_report rt start_date end_date
          station1 station2 []
        = Raise (HTTPException 404 NoDataForCriteria)) /\
     (forall (station1 station2 : string)
             (samples : list models.LocationSample),
        samples <> [] ->
        filter (reports.is_station station1) samples = [] \/
        filter (reports.is_station station2) samples = [] ->
        reports.generate_station_report rt start_date end_date
          station1 station2 samples
        = Raise (HTTPException 404 (NoDataForStations station1 station2))) /\
     (forall (station1 station2 : string)
             (samples : list models.LocationSample),
        let station1_samples := filter (reports.is_station station1) samples in
        let station2_samples := filter (reports.is_station station2) samples in
        station1_samples <> [] -> station2_samples <> [] ->
        reports.match_stations rt station1_samples station2_samples = [] ->
        reports.generate_station_report rt start_date end_date
          station1 station2 samples
        = Raise (HTTPException 404
                   (NoMatchingTimePairs
                      (map models.sample_time station1_samples)
                      (map models.sample_time station2_samples)))) /\
     (forall (station1 station2 : string)
             (samples : list models.LocationSample),
        let station1_samples := filter (reports.is_station station1) samples in
        let station2_samples := filter (reports.is_station station2) samples in
        let matched_pairs :=
          reports.match_stations rt station1_samples station2_samples in
        matched_pairs <> [] ->
        ((exists r : reports.Report,
            reports.generate_station_report rt start_date end_date
              station1 station2 samples = Return r /\
            reports.assemble_report rt start_date end_date station1 station2
              matched_pairs = Return r /\
            reports.rows r = matched_pairs /\
            (0 < reports.total_pairs r)%nat) \/
         (exists v : string,
            reports.generate_station_report rt start_date end_date
              station1 station2 samples
            = Raise (HTTPException 500
                       (ReportGenerationFailed (IllegalCharacterError v)))) \/
         (exists row_idx col : Z,
            ~ Spec.fits_sheet (List.length matched_pairs) /\
            reports.generate_station_report rt start_date end_date
              station1 station2 samples
            = Raise (HTTPException 400
                       (InvalidDateFormat (CellOutOfSheet row_idx col))))) /\
        (Spec.fits_sheet (List.length matched_pairs) ->
         Spec.printable start_date = true ->
         Spec.printable end_date = true ->
         Spec.printable station1 = true ->
         Spec.printable station2 = true ->
         forallb Spec.printable_sample station1_samples = true ->
         exists r : reports.Report,
           reports.generate_station_report rt start_date end_date
             station1 station2 samples = Return r) /\
        (~ Spec.fits_sheet (List.length matched_pairs) ->
         Spec.printable start_date = true ->
         Spec.printable end_date = true ->
         Spec.printable station1 = true ->
         Spec.printable station2 = true ->
         forallb Spec.printable_sample station1_samples = true ->
         exists row_idx : Z,
           (openpyxl.max_row < row_idx)%Z /\
           reports.generate_station_report rt start_date end_date
             station1 station2 samples
           = Raise (HTTPException 400
                      (InvalidDateFormat (CellOutOfSheet row_idx 1)))))) /\
  (forall (rt : runtime.functions)
          (start_date end_date station1 station2 : string)
          (samples : list models.LocationSample) (r : reports.Report),
     reports.generate_station_report rt start_date end_date
       station1 station2 samples = Return r ->
     reports.rows r <> [] /\
     reports.rows r
     = reports.match_stations rt
         (filter (reports.is_station station1) samples)
         (filter (reports.is_station station2) samples)) /\
  (forall (rt : runtime.functions)
          (start_date end_date station1 station2 : string)
          (samples : list models.LocationSample),
     reports.generate_station_report rt start_date end_date
       station1 station2 samples
     <> Raise (HTTPException 500 (ReportGenerationFailed ZeroDivisionError))) /\
  (forall (rt : runtime.functions)
          (start_date end_date station1 station2 : string)
          (samples : list models.LocationSample),
     runtime.strptime_date rt start_date = false \/
     runtime.strptime_date rt end_date = false ->
     reports.generate_station_report rt start_date end_date
       station1 station2 samples
     = Raise (HTTPException 400 (InvalidDateFormat DateNotParsed))).
Proof.
  split; [|split; [|split]].
  - intros rt start_date end_date Hs He.
    assert (Hd : runtime.strptime_date rt start_date
                 && runtime.strptime_date rt end_date = true)
      by now rewrite Hs, He.
    split; [|split; [|split]].
    + intros station1 station2.
      unfold reports.generate_station_report. cbv zeta. now rewrite Hd.
    + intros station1 station2 samples Hne Hl.
      destruct (generate_cases rt start_date end_date station1 station2
                  samples)
        as [[H _]|[[_ [H _]]|[[_ [_ [_ H]]]|[[_ [H1 [H2 _]]]|[_ [H1 [H2 _]]]]]]];
        [congruence|congruence|exact H| |]; destruct Hl; congruence.
    + intros station1 station2 samples l1 l2 H1 H2 Hm.
      destruct (generate_cases rt start_date end_date station1 station2
                  samples)
        as [[H _]|[[_ [H _]]|[[_ [_ [H _]]]|[[_ [_ [_ [_ H]]]]|[_ [_ [_ [H _]]]]]]]].
      * congruence.
      * subst samples. now elim H1.
      * destruct H; [now elim H1|now elim H2].
      * exact H.
      * now elim H.
    + intros station1 station2 samples l1 l2 mp Hm.
      destruct (generate_cases rt start_date end_date station1 station2
                  samples)
        as [[H _]|[[_ [H _]]|[[_ [_ [H _]]]|[[_ [_ [_ [H _]]]]|[_ [_ [_ [_ H]]]]]]]].
      * congruence.
      * subst samples. now elim Hm.
      * elim Hm. unfold mp, l1, l2.
        destruct H as [H|H]; rewrite H;
          [reflexivity|apply match_stations_nil_r].
      * now elim Hm.
      * fold l1 l2 in H. fold mp in H. split; [|split].
        { destruct H as [[r [Ha Hg]]|[[v [_ Hg]]|[row_idx [col [_ [Hn Hg]]]]]];
            [left|right; left; now exists v
            |right; right; now exists row_idx, col].
          exists r. destruct (assemble_report_inv _ _ _ _ _ _ _ Ha)
            as [Hr [Ht _]].
          repeat split; try assumption. rewrite Ht.
          destruct mp; [congruence|simpl; lia]. }
        { intros Hfit P1 P2 P3 P4 P5.
          destruct (assemble_report_returns rt start_date end_date station1
                      station2 mp Hm Hfit P1 P2 P3 P4
                      (match_stations_printable rt l1 l2 P5)) as [r Hr].
          destruct H as [[r' [Ha Hg]]|[[v [Ha _]]|[row_idx [col [Ha _]]]]];
            [now exists r'|congruence|congruence]. }
        { intros Hfit P1 P2 P3 P4 P5.
          destruct (assemble_report_out_of_sheet rt start_date end_date
                      station1 station2 mp Hfit P1 P2 P3 P4
                      (match_stations_printable rt l1 l2 P5))
            as [row_idx [Hrow Hr]].
          exists row_idx. split; [exact Hrow|].
          destruct H as [[r' [Ha Hg]]|[[v [Ha _]]|[i [j [Ha [_ Hg]]]]]];
            [congruence|congruence|].
          rewrite Hg. congruence. }
  - intros rt start_date end_date station1 station2 samples r Hr.
    destruct (generate_cases rt start_date end_date station1 station2
                samples)
      as [[_ H]|[[_ [_ H]]|[[_ [_ [_ H]]]|[[_ [_ [_ [_ H]]]]|[_ [_ [_ [Hm H]]]]]]]];
      try congruence.
    destruct H as [[r' [Ha Hg]]|[[v [_ Hg]]|[row_idx [col [_ [_ Hg]]]]]];
      [|congruence|congruence].
    assert (r' = r) by congruence. subst r'.
    destruct (assemble_report_inv _ _ _ _ _ _ _ Ha) as [Hrows _].
    rewrite Hrows. now split.
  - intros rt start_date end_date station1 station2 samples.
    destruct (generate_cases rt start_date end_date station1 station2
                samples)
      as [[_ H]|[[_ [_ H]]|[[_ [_ [_ H]]]|[[_ [_ [_ [_ H]]]]|[_ [_ [_ [_ H]]]]]]]];
      try (rewrite H; discriminate).
    destruct H as [[r [_ H]]|[[v [_ H]]|[row_idx [col [_ [_ H]]]]]];
      rewrite H; discriminate.
  - intros rt start_date end_date station1 station2 samples H.
    unfold reports.generate_station_report. cbv zeta.
    destruct H as [-> | ->]; rewrite ?andb_false_r; reflexivity.
Qed.

(** Station alpha has a sample at 10:00:00, station bravo one two hours
    later: both have data, no pair is matched, and the answer carries the
    two lists of times. *)
Lemma report_empty_outcomes_witness :
  reports.generate_station_report Examples.measured
    "2024-05-01" "2024-05-01" "alpha" "bravo" [Examples.A; Examples.D]
  = Raise (HTTPException 404
             (NoMatchingTimePairs ["10:00:00"%string] ["12:00:00"%string])).
Proof.
  apply (proj1 (proj2 (proj2
           (proj1 report_empty_outcomes Examples.measured
              "2024-05-01"%string "2024-05-01"%string eq_refl eq_refl)))
           "alpha"%string "bravo"%string [Examples.A; Examples.D]).
  - discriminate.
  - discriminate.
  - reflexivity.
Defined.

(** ** The store and the ingest loop *)

Section Ingest.

Variable engine : database.Engine.

Lemma has_client_id_in (cid : string) (t : database.Table) :
  existsb (database.has_client_id cid) t = true <->
  In cid (map models.client_id t).
Proof.
  rewrite existsb_exists, in_map_iff. unfold database.has_client_id.
  split; intros [r [H1 H2]]; exists r.
  - apply String.eqb_eq in H2. now split.
  - split; [exact H2|]. now apply String.eqb_eq.
Qed.

Lemma rows_of_nil_iff (cid : string) (t : database.Table) :
  Spec.rows_of cid t = [] <-> ~ In cid (map models.client_id t).
Proof.
  unfold Spec.rows_of. induction t as [|r t IH]; simpl; [tauto|].
  unfold database.has_client_id at 1.
  destruct (String.eqb_spec (models.client_id r) cid) as [E|E].
  - split; [discriminate|]. intros H. elim H. now left.
  - rewrite IH. tauto.
Qed.

Lemma query_present (session : database.Session) (cid : string) :
  Spec.rows_of cid (database.table session) <> [] ->
  exists r, database.query_first_by_client_id session cid = Some r.
Proof.
  unfold database.query_first_by_client_id, Spec.rows_of.
  induction (database.table session) as [|r t IH]; simpl; [congruence|].
  destruct (database.has_client_id cid r); [now exists r|exact IH].
Qed.

Lemma query_absent (session : database.Session) (cid : string) :
  Spec.rows_of cid (database.table session) = [] ->
  database.query_first_by_client_id session cid = None.
Proof.
  unfold database.query_first_by_client_id, Spec.rows_of.
  induction (database.table session) as [|r t IH]; simpl; [reflexivity|].
  destruct (database.has_client_id cid r); [discriminate|exact IH].
Qed.

(** A query does not see what [add] has put in the session. *)
Lemma query_ignores_pending (session : database.Session)
    (row : models.LocationSample) (cid : string) :
  database.query_first_by_client_id (database.add session row) cid
  = database.query_first_by_client_id session cid.
Proof. reflexivity. Qed.

(** *** Flush *)

Lemma flush_returns (new : list models.LocationSample) :
  forall t t', database.flush engine t new = Return t' -> t' = t ++ new.
Proof.
  induction new as [|r new IH]; simpl; intros t t' H.
  - injection H as <-. now rewrite app_nil_r.
  - destruct (database.insertable engine r); [|discriminate].
    destruct (existsb _ t); [discriminate|]. simpl in H.
    rewrite (IH _ _ H), <- app_assoc. reflexivity.
Qed.

(** A flush that goes through added rows that can be stored and whose
    identifiers are new to the table and pairwise different. *)
Lemma flush_returns_fresh (new : list models.LocationSample) :
  forall t t',
    database.flush engine t new = Return t' ->
    forallb (database.insertable engine) new = true /\
    (forall r, In r new ->
               ~ In (models.client_id r) (map models.client_id t)) /\
    NoDup (map models.client_id new).
Proof.
  induction new as [|r new IH]; intros t t' H.
  - split; [reflexivity|]. split; [contradiction|constructor].
  - cbn [database.flush] in H.
    destruct (database.insertable engine r) eqn:Ei; [|discriminate].
    destruct (existsb _ t) eqn:E; [discriminate|]. simpl in H.
    destruct (IH _ _ H) as [Hins [Hnew Hdup]].
    assert (Hr : ~ In (models.client_id r) (map models.client_id t)).
    { intros Hin. apply has_client_id_in in Hin. congruence. }
    split; [|split].
    + simpl. now rewrite Ei.
    + intros x [<-|Hx]; [exact Hr|].
      intros Hin. apply (Hnew x Hx). rewrite map_app, in_app_iff. now left.
    + simpl. constructor; [|exact Hdup].
      intros Hin. apply in_map_iff in Hin as [x [Ex Hx]].
      apply (Hnew x Hx). rewrite map_app, in_app_iff. right. left.
      now rewrite Ex.
Qed.

(** When every row can be stored, the only failure is a conflict on
    [client_id]. *)
Lemma flush_raises_integrity (new : list models.LocationSample) :
  forallb (database.insertable engine) new = true ->
  forall t e, database.flush engine t new = Raise e ->
              exists cid, e = IntegrityError cid.
Proof.
  induction new as [|r new IH]; simpl; intros Hi t e H; [discriminate|].
  apply andb_prop in Hi as [Hr Hi]. rewrite Hr in H. simpl in H.
  destruct (existsb _ t); [|now apply (IH Hi _ _ H)].
  injection H as <-. now eexists.
Qed.

Lemma flush_fresh (new : list models.LocationSample) :
  forall t,
    forallb (database.insertable engine) new = true ->
    (forall r, In r new -> ~ In (models.client_id r) (map models.client_id t)) ->
    NoDup (map models.client_id new) ->
    database.flush engine t new = Return (t ++ new).
Proof.
  induction new as [|r new IH]; simpl; intros t Hi Hnew Hdup.
  - now rewrite app_nil_r.
  - inversion Hdup as [|? ? Hr Hdup']; subst.
    apply andb_prop in Hi as [Hir Hi]. rewrite Hir. simpl.
    destruct (existsb _ t) eqn:E.
    + apply has_client_id_in in E. now elim (Hnew r (or_introl eq_refl)).
    + rewrite IH; [now rewrite <- app_assoc|exact Hi| |exact Hdup'].
      intros x Hx. rewrite map_app, in_app_iff. simpl.
      intros [H|[H|[]]].
      * now apply (Hnew x (or_intror Hx)).
      * apply Hr. rewrite H. now apply in_map.
Qed.

(** A row that cannot be stored stops the flush. *)
Lemma flush_refused (new : list models.LocationSample) :
  forallb (database.insertable engine) new = false ->
  forall t, exists e, database.flush engine t new = Raise e.
Proof.
  intros Hi t. destruct (database.flush engine t new) as [t'|e] eqn:E;
    [|now exists e].
  apply flush_returns_fresh in E as [E _]. congruence.
Qed.

(** So do two pending rows with one [client_id]. *)
Lemma flush_duplicate (new : list models.LocationSample) :
  ~ NoDup (map models.client_id new) ->
  forall t, exists e, database.flush engine t new = Raise e.
Proof.
  intros Hd t. destruct (database.flush engine t new) as [t'|e] eqn:E;
    [|now exists e].
  apply flush_returns_fresh in E as [_ [_ E]]. contradiction.
Qed.

Lemma duplicate_not_NoDup {A : Type} (before : list A) (x : A)
    (middle : list A) (y : A) (after : list A) :
  x = y -> ~ NoDup (before ++ x :: middle ++ y :: after).
Proof.
  intros <- H. apply NoDup_remove_2 in H. apply H.
  apply in_or_app. right. apply in_or_app. right. now left.
Qed.

(** *** The loop *)

Lemma find_existsb (cid : string) (t : database.Table) :
  find (database.has_client_id cid) t = None <->
  existsb (database.has_client_id cid) t = false.
Proof.
  induction t as [|r t IH]; simpl; [tauto|].
  destruct (database.has_client_id cid r); simpl; [split; discriminate|exact IH].
Qed.

Lemma loop_state (device_id : string)
    (samples : list schemas.LocationSampleBase) :
  forall st : crud.progress,
    fold_left (crud.process_sample device_id) samples st
    = {| crud.successful_ids :=
           crud.successful_ids st ++ map schemas.id samples;
         crud.failed_samples := crud.failed_samples st;
         crud.db :=
           {| database.table := database.table (crud.db st);
              database.pending :=
                database.pending (crud.db st)
                ++ map (fun s => crud.new_sample s device_id)
                     (filter (Spec.unseen (database.table (crud.db st))) samples) |} |}.
Proof.
  induction samples as [|s samples IH]; intros st; simpl.
  - rewrite !app_nil_r. now destruct st as [? ? []].
  - rewrite IH. unfold crud.process_sample, Spec.unseen.
    unfold database.query_first_by_client_id.
    destruct (find _ (database.table (crud.db st))) eqn:E; simpl.
    + assert (H : existsb (database.has_client_id (schemas.id s))
                    (database.table (crud.db st)) = true).
      { destruct (existsb _ _) eqn:E'; [reflexivity|].
        apply find_existsb in E'. congruence. }
      rewrite H. simpl. now rewrite <- app_assoc.
    + apply find_existsb in E. rewrite E. simpl.
      now rewrite <- !app_assoc.
Qed.

(** The call, in terms of the flush of the rows made for unseen samples. *)
Lemma bulk_outcome (t : database.Table)
    (samples : list schemas.LocationSampleBase) (device_id : string) :
  crud.create_location_samples_bulk engine (Spec.fresh_session t)
    samples device_id
  = match database.flush engine t
            (map (fun s => crud.new_sample s device_id)
               (filter (Spec.unseen t) samples)) with
    | Return t' => (Return (map schemas.id samples, []), Spec.fresh_session t')
    | Raise e => (Raise (TransactionFailed e), Spec.fresh_session t)
    end.
Proof.
  unfold crud.create_location_samples_bulk. cbv zeta.
  rewrite loop_state. unfold database.commit. simpl.
  destruct (database.flush engine t _); reflexivity.
Qed.

Lemma unseen_false_iff (t : database.Table) (s : schemas.LocationSampleBase) :
  Spec.unseen t s = false <-> Spec.rows_of (schemas.id s) t <> [].
Proof.
  unfold Spec.unseen. rewrite negb_false_iff, has_client_id_in, rows_of_nil_iff.
  destruct (in_dec string_dec (schemas.id s) (map models.client_id t)); tauto.
Qed.

Lemma unseen_true_iff (t : database.Table) (s : schemas.LocationSampleBase) :
  Spec.unseen t s = true <-> Spec.rows_of (schemas.id s) t = [].
Proof.
  unfold Spec.unseen. rewrite negb_true_iff, rows_of_nil_iff.
  rewrite <- has_client_id_in. destruct (existsb _ t); split; congruence.
Qed.

Lemma filter_none {A : Type} (f : A -> bool) (l : list A) :
  (forall x, In x l -> f x = false) -> filter f l = [].
Proof.
  induction l as [|x l IH]; simpl; intros H; [reflexivity|].
  rewrite (H x) by now left. apply IH. intros y Hy. apply H. now right.
Qed.

Lemma bulk_all_known (t : database.Table)
    (samples : list schemas.LocationSampleBase) (device_id : string) :
  (forall s, In s samples -> Spec.rows_of (schemas.id s) t <> []) ->
  crud.create_location_samples_bulk engine (Spec.fresh_session t)
    samples device_id
  = (Return (map schemas.id samples, []), Spec.fresh_session t).
Proof.
  intros H. rewrite bulk_outcome, filter_none; [reflexivity|].
  intros s Hs. now apply unseen_false_iff, H.
Qed.

Lemma rows_of_app (cid : string) (t1 t2 : database.Table) :
  Spec.rows_of cid (t1 ++ t2) = Spec.rows_of cid t1 ++ Spec.rows_of cid t2.
Proof. apply filter_app. Qed.

(** The rows made for unseen samples carry none of the known identifiers. *)
Lemma rows_of_new (t : database.Table)
    (samples : list schemas.LocationSampleBase) (device_id cid : string) :
  Spec.rows_of cid t <> [] ->
  Spec.rows_of cid
    (map (fun s => crud.new_sample s device_id) (filter (Spec.unseen t) samples))
  = [].
Proof.
  intros Hcid. unfold Spec.rows_of. apply filter_none.
  intros r Hr. apply in_map_iff in Hr as [s [<- Hs]].
  apply filter_In in Hs as [_ Hs]. apply unseen_true_iff in Hs.
  unfold database.has_client_id. simpl.
  destruct (String.eqb_spec (schemas.id s) cid) as [E|E]; [|reflexivity].
  rewrite E in Hs. contradiction.
Qed.

Lemma rows_of_unique (cid : string) (t : database.Table) :
  Spec.unique_client_ids t -> Spec.rows_of cid t <> [] ->
  List.length (Spec.rows_of cid t) = 1%nat.
Proof.
  unfold Spec.unique_client_ids, Spec.rows_of.
  induction t as [|r t IH]; simpl; [congruence|].
  intros Hu Hne. inversion Hu as [|? ? Hr Hu']; subst.
  destruct (database.has_client_id cid r) eqn:E.
  - simpl. f_equal. apply String.eqb_eq in E. rewrite E in Hr.
    apply rows_of_nil_iff in Hr. unfold Spec.rows_of in Hr. now rewrite Hr.
  - now apply IH.
Qed.

Lemma new_rows_ids (device_id : string)
    (samples : list schemas.LocationSampleBase) :
  map models.client_id (map (fun s => crud.new_sample s device_id) samples)
  = map schemas.id samples.
Proof. rewrite map_map. reflexivity. Qed.

Lemma new_rows_unseen (t : database.Table) (device_id : string)
    (samples : list schemas.LocationSampleBase) (r : models.LocationSample) :
  In r (map (fun s => crud.new_sample s device_id)
          (filter (Spec.unseen t) samples)) ->
  ~ In (models.client_id r) (map models.client_id t).
Proof.
  intros Hr. apply in_map_iff in Hr as [s [<- Hs]].
  apply filter_In in Hs as [_ Hs]. apply unseen_true_iff in Hs.
  now apply rows_of_nil_iff in Hs.
Qed.

(** The two outcomes of the call: it returns exactly when the rows made for
    the unseen samples can be stored and carry pairwise different
    identifiers. *)
Lemma bulk_cases (t : database.Table)
    (samples : list schemas.LocationSampleBase) (device_id : string) :
  let fresh := filter (Spec.unseen t) samples in
  let rows := map (fun s => crud.new_sample s device_id) fresh in
  (NoDup (map schemas.id fresh) /\
   forallb (database.insertable engine) rows = true /\
   crud.create_location_samples_bulk engine (Spec.fresh_session t)
     samples device_id
   = (Return (map schemas.id samples, []), Spec.fresh_session (t ++ rows))) \/
  ((~ NoDup (map schemas.id fresh) \/
    forallb (database.insertable engine) rows = false) /\
   exists e,
     crud.create_location_samples_bulk engine (Spec.fresh_session t)
       samples device_id
     = (Raise (TransactionFailed e), Spec.fresh_session t) /\
     (forallb (database.insertable engine) rows = true ->
      exists cid, e = IntegrityError cid)).
Proof.
  intros fresh rows. rewrite bulk_outcome. fold fresh. fold rows.
  destruct (database.flush engine t rows) as [t'|e] eqn:E.
  - left. destruct (flush_returns_fresh _ _ _ E) as [Hi [_ Hdup]].
    unfold rows in Hdup. rewrite new_rows_ids in Hdup.
    split; [exact Hdup|]. split; [exact Hi|].
    now rewrite (flush_returns _ _ _ E).
  - right. split.
    + destruct (forallb (database.insertable engine) rows) eqn:Hi;
        [left|now right].
      intros Hdup. rewrite flush_fresh in E; [discriminate|exact Hi| |].
      * intros r Hr. now apply (new_rows_unseen t device_id samples).
      * unfold rows. now rewrite new_rows_ids.
    + exists e. split; [reflexivity|]. intros Hi.
      now apply (flush_raises_integrity rows Hi t).
Qed.

End Ingest.





(** ** The request schema and the endpoint *)

Section Endpoint.

Variable engine : database.Engine.

Lemma invalid_positions_nil (l : list schemas.LocationSampleBase) :
  forall i,
    schemas.invalid_positions i l = [] <->
    forallb schemas.LocationSampleBase_valid l = true.
Proof.
  induction l as [|s l IH]; intros i; simpl; [tauto|].
  destruct (schemas.LocationSampleBase_valid s); simpl.
  - apply IH.
  - split; discriminate.
Qed.

Lemma validate_accepts (body : schemas.BulkUploadRequest) :
  (List.length (schemas.samples body) <= 1000)%nat ->
  forallb schemas.LocationSampleBase_valid (schemas.samples body) = true ->
  schemas.BulkUploadRequest_validate body = Return body.
Proof.
  intros Hlen Hvalid. unfold schemas.BulkUploadRequest_validate, schemas.max_items.
  destruct (Nat.ltb_spec 1000 (List.length (schemas.samples body))); [lia|].
  apply (invalid_positions_nil _ 0%nat) in Hvalid. now rewrite Hvalid.
Qed.

Lemma validate_too_many (body : schemas.BulkUploadRequest) :
  (1000 < List.length (schemas.samples body))%nat ->
  schemas.BulkUploadRequest_validate body
  = Raise (RequestValidationError
             (TooManyItems 1000 (List.length (schemas.samples body)))).
Proof.
  intros Hlen. unfold schemas.BulkUploadRequest_validate, schemas.max_items.
  destruct (Nat.ltb_spec 1000 (List.length (schemas.samples body))); [reflexivity|lia].
Qed.

Lemma validate_invalid_item (body : schemas.BulkUploadRequest)
    (item : schemas.LocationSampleBase) :
  In item (schemas.samples body) ->
  schemas.LocationSampleBase_valid item = false ->
  exists e, schemas.BulkUploadRequest_validate body
            = Raise (RequestValidationError e).
Proof.
  intros Hin Hbad. unfold schemas.BulkUploadRequest_validate.
  destruct (schemas.max_items <? _)%nat; [now eexists|].
  destruct (schemas.invalid_positions 0 (schemas.samples body)) eqn:E;
    [|now eexists].
  apply invalid_positions_nil in E. rewrite forallb_forall in E.
  rewrite (E item Hin) in Hbad. discriminate.
Qed.

(** The size check of the handler itself raises inside the [try] whose
    handler turns every exception into the 500 answer: were the handler
    given more than 1000 samples, this is what it would answer. *)
Remark handler_size_check_answers_500 (request : schemas.BulkUploadRequest)
    (session : database.Session) :
  (1000 < List.length (schemas.samples request))%nat ->
  main.bulk_upload_locations engine request session
  = (Raise (HTTPException 500 InternalServerError), session).
Proof.
  intros H. unfold main.bulk_upload_locations.
  destruct (Nat.ltb_spec 1000 (List.length (schemas.samples request)));
    [reflexivity|lia].
Qed.

End Endpoint.

(** C4, as the code has it: an item that fails its validation (latitude,
    longitude or accuracy out of range, negative capture time, date or time
    not of the required form) makes the request body fail validation as a
    whole; the caller gets the validation error, the handler is not entered,
    and no item of the batch, valid or not, is accepted or stored. *)
Theorem invalid_item_rejects_whole_request :
  forall (engine : database.Engine)
         (body : schemas.BulkUploadRequest) (t : database.Table)
         (item : schemas.LocationSampleBase),
    In item (schemas.samples body) ->
    schemas.LocationSampleBase_valid item = false ->
    exists e : validation_error,
      main.post_locations_bulk engine body t
      = (Raise (RequestValidationError e), t).
Proof.
  intros engine body t item Hin Hbad. unfold main.post_locations_bulk.
  destruct (validate_invalid_item body item Hin Hbad) as [e ->].
  now exists e.
Qed.

Lemma invalid_item_rejects_whole_request_witness :
  exists e : validation_error,
    main.post_locations_bulk Examples.engine
      (Examples.request [Examples.good; Examples.bad_lat]) []
    = (Raise (RequestValidationError e), []).
Proof.
  apply (invalid_item_rejects_whole_request Examples.engine
           (Examples.request [Examples.good; Examples.bad_lat]) []
           Examples.bad_lat).
  - simpl. right. left. reflexivity.
  - reflexivity.
Defined.

(** A batch of a valid sample and one of latitude 95, sent to an empty store:
    the answer is the validation error and the valid sample is not stored,
    though alone it is accepted and stored. *)
Lemma valid_item_lost_with_invalid_one :
  schemas.LocationSampleBase_valid Examples.good = true /\
  schemas.LocationSampleBase_valid Examples.bad_lat = false /\
  main.post_locations_bulk Examples.engine
    (Examples.request [Examples.good; Examples.bad_lat]) []
  = (Raise (RequestValidationError (InvalidItems [1%nat])), []) /\
  main.post_locations_bulk Examples.engine (Examples.request [Examples.good]) []
  = (Return {| main.status := "success"; main.processed := 1; main.failed := 0;
               main.synced_ids := ["id-1"%string] |},
     [crud.new_sample Examples.good "device-1"]).
Proof.
  repeat split; reflexivity.
Qed.

(** C5: a body of at most 1000 valid samples, so one of exactly 1000, passes
    validation and is handed to the ingest loop, whose outcome is the answer;
    a body of more than 1000 samples, so one of 1001, is refused with the
    size error of the schema whatever its items are, and the store is left as
    it was. *)
Theorem batch_size_boundary :
  (forall (engine : database.Engine)
          (body : schemas.BulkUploadRequest) (t : database.Table),
     (List.length (schemas.samples body) <= 1000)%nat ->
     forallb schemas.LocationSampleBase_valid (schemas.samples body) = true ->
     schemas.BulkUploadRequest_validate body = Return body /\
     main.post_locations_bulk engine body t
     = let (r, session') :=
         crud.create_location_samples_bulk engine (Spec.fresh_session t)
           (schemas.samples body) (schemas.deviceId body) in
       (match r with
        | Return (ids, failed_samples) =>
            Return {| main.status := "success";
                      main.processed := List.length ids;
                      main.failed := List.length failed_samples;
                      main.synced_ids := ids |}
        | Raise _ => Raise (HTTPException 500 InternalServerError)
        end,
        database.table session')) /\
  (forall (engine : database.Engine)
          (body : schemas.BulkUploadRequest) (t : database.Table),
     (1000 < List.length (schemas.samples body))%nat ->
     main.post_locations_bulk engine body t
     = (Raise (RequestValidationError
                 (TooManyItems 1000 (List.length (schemas.samples body)))),
        t)).
Proof.
  split.
  - intros engine body t Hlen Hvalid.
    assert (Hv := validate_accepts body Hlen Hvalid).
    split; [exact Hv|].
    unfold main.post_locations_bulk. rewrite Hv.
    unfold main.bulk_upload_locations.
    destruct (Nat.ltb_spec 1000 (List.length (schemas.samples body))); [lia|].
    fold (Spec.fresh_session t).
    destruct (crud.create_location_samples_bulk _ _ _ _) as [[[ids failed]|e] session'];
      reflexivity.
  - intros engine body t Hlen. unfold main.post_locations_bulk.
    now rewrite (validate_too_many body Hlen).
Qed.

(** 1001 samples, none of them valid: the size error, and nothing stored. *)
Lemma batch_size_boundary_witness :
  main.post_locations_bulk Examples.engine
    (Examples.request (repeat Examples.bad_lat 1001)) []
  = (Raise (RequestValidationError
              (TooManyItems 1000
                 (List.length
                    (schemas.samples
                       (Examples.request (repeat Examples.bad_lat 1001)))))),
     []).
Proof.
  apply (proj2 batch_size_boundary).
  unfold Examples.request. cbn [schemas.samples]. rewrite repeat_length. lia.
Defined.

(** * Further properties *)

(** ** Time differences and time formats *)

Section MoreTimeFacts.

Local Open Scope string_scope.

Lemma time_difference_sym (t1 t2 : string) :
reports.time_difference t1 t2 = reports.time_difference t2 t1.
Proof.
unfold reports.time_difference. cbv zeta.
destruct (reports.total_seconds _) as [a|];
  destruct (reports.total_seconds _) as [b|]; try reflexivity.
f_equal. rewrite <- Z.abs_opp. f_equal. lia.
Qed.

Lemma has_char_lstrip (f : ascii -> bool) (c : ascii) (s : string) :
f c = false ->
Spec.has_char c (PyStr.lstrip_by f s) = Spec.has_char c s.
Proof.
intros Hc. induction s as [|a s IH]; [reflexivity|].
simpl. destruct (f a) eqn:Ha; [|reflexivity].
rewrite IH. destruct (Ascii.eqb_spec a c) as [->|_]; [congruence|reflexivity].
Qed.

Lemma has_char_rstrip (f : ascii -> bool) (c : ascii) (s : string) :
f c = false ->
Spec.has_char c (PyStr.rstrip_by f s) = Spec.has_char c s.
Proof.
intros Hc. induction s as [|a s IH]; [reflexivity|].
cbn [PyStr.rstrip_by Spec.has_char]. rewrite <- IH.
destruct (PyStr.rstrip_by f s); [|reflexivity].
destruct (f a) eqn:Ha; simpl; [|reflexivity].
destruct (Ascii.eqb_spec a c) as [->|_]; [congruence|reflexivity].
Qed.

Lemma int_digits_without (c : ascii) (s : string) :
PyStr.isdigit c = false -> c <> "_"%char ->
forall acc b z, PyStr.int_digits s acc b = Some z -> Spec.has_char c s = false.
Proof.
intros Hd Hu. induction s as [|a s IH]; intros acc b z H; [reflexivity|].
simpl in *. destruct (Ascii.eqb_spec a c) as [->|_]; simpl.
- rewrite Hd in H. destruct (Ascii.eqb_spec c "_"); [contradiction|].
  discriminate.
- destruct (PyStr.isdigit a); [now apply (IH _ _ _ H)|].
  destruct (Ascii.eqb a "_" && b); [now apply (IH _ _ _ H)|discriminate].
Qed.

(** A string [int] accepts holds no dot. *)
Lemma int_without_dot (s : string) (z : Z) :
PyStr.int s = Some z -> Spec.has_char "." s = false.
Proof.
unfold PyStr.int. intros H.
rewrite <- (has_char_lstrip PyStr.int_isspace "." s eq_refl).
rewrite <- (has_char_rstrip PyStr.int_isspace "." _ eq_refl).
destruct (PyStr.rstrip_by _ _) as [|a r]; [discriminate|].
assert (Hr : forall z', PyStr.int_digits r 0 false = Some z' ->
                        Spec.has_char "." (String a r) = false).
{ intros z' H'. simpl.
  rewrite (int_digits_without "." r eq_refl ltac:(discriminate) _ _ _ H').
  destruct (Ascii.eqb_spec a "."); [|reflexivity].
  subst a. discriminate. }
destruct (Ascii.eqb_spec a "+") as [->|Hplus].
{ now apply (Hr z). }
destruct (Ascii.eqb_spec a "-") as [->|Hminus].
{ destruct (PyStr.int_digits r 0 false) as [z'|] eqn:E; [|discriminate].
  now apply (Hr z'). }
assert (H' : PyStr.int_digits (String a r) 0 false = Some z).
{ revert H. destruct a as [[] [] [] [] [] [] [] []]; try exact (fun h => h);
    congruence. }
now apply (int_digits_without "." _ eq_refl ltac:(discriminate) _ _ _ H').
Qed.

(** A character other than the separator is found in one of the pieces. *)
Lemma has_char_split (c sep : ascii) (s : string) :
c <> sep ->
Spec.has_char c s = existsb (Spec.has_char c) (PyStr.split sep s).
Proof.
intros Hne. induction s as [|a s IH]; [reflexivity|].
cbn [PyStr.split Spec.has_char].
destruct (Ascii.eqb_spec a sep) as [->|Hsep].
- destruct (Ascii.eqb_spec sep c); [congruence|]. simpl. exact IH.
- rewrite IH. destruct (PyStr.split sep s) as [|w ws]; simpl.
  + now rewrite !orb_false_r.
  + now rewrite orb_assoc.
Qed.

Lemma total_seconds_without_dot (t : string) (z : Z) :
reports.total_seconds t = Some z -> Spec.has_char "." t = false.
Proof.
unfold reports.total_seconds. intros H.
rewrite (has_char_split "." ":" t) by discriminate.
destruct (PyStr.split ":" t) as [|w1 [|w2 [|w3 [|w4 ws]]]]; simpl in *;
  try discriminate.
- destruct (PyStr.int w1); discriminate.
- destruct (PyStr.int w1); [destruct (PyStr.int w2)|]; discriminate.
- destruct (PyStr.int w1) eqn:E1; [|discriminate].
  destruct (PyStr.int w2) eqn:E2; [|discriminate].
  destruct (PyStr.int w3) eqn:E3; [|discriminate].
  now rewrite (int_without_dot _ _ E1), (int_without_dot _ _ E2),
    (int_without_dot _ _ E3).
- destruct (PyStr.int w1); [|discriminate].
  destruct (PyStr.int w2); [|discriminate].
  destruct (PyStr.int w3); discriminate.
Qed.

(** [time_difference] of main.py in terms of [total_seconds]. *)
Lemma main_time_difference_eq (time1 time2 : string) :
main_helpers.time_difference time1 time2
= match reports.total_seconds time1, reports.total_seconds time2 with
  | Some a, Some b => Some (Z.abs (a - b))
  | _, _ => None
  end.
Proof.
unfold main_helpers.time_difference, reports.total_seconds.
destruct (map PyStr.int (PyStr.split ":" time1))
  as [|[h1|] [|[m1|] [|[s1|] [|x l]]]]; try reflexivity;
destruct (map PyStr.int (PyStr.split ":" time2))
  as [|[h2|] [|[m2|] [|[s2|] [|y l']]]]; reflexivity.
Qed.

End MoreTimeFacts.

(** X1: [time_difference] does not depend on the order of its two arguments,
    nor does the time match of two samples; on three times that parse it
    satisfies the triangle inequality, and a time that parses is at
    difference 0 from itself. *)
Theorem time_difference_symmetric :
  (forall t1 t2 : string,
     reports.time_difference t1 t2 = reports.time_difference t2 t1) /\
  (forall s1 s2 : models.LocationSample,
     reports.time_match s1 s2 = reports.time_match s2 s1) /\
  (forall (t1 t2 t3 : string) (a b : Z),
     reports.time_difference t1 t2 = reports.Finite a ->
     reports.time_difference t2 t3 = reports.Finite b ->
     exists c : Z,
       reports.time_difference t1 t3 = reports.Finite c /\ (c <= a + b)%Z) /\
  (forall t : string,
     ~ Spec.malformed t -> reports.time_difference t t = reports.Finite 0).
Proof.
  split; [exact time_difference_sym|]. split; [|split].
  - intros s1 s2. unfold reports.time_match. cbv zeta.
    now rewrite time_difference_sym, String.eqb_sym.
  - intros t1 t2 t3 a b. unfold reports.time_difference. cbv zeta.
    destruct (reports.total_seconds (PyStr.split_first "." t1)) as [x|];
      [|discriminate].
    destruct (reports.total_seconds (PyStr.split_first "." t2)) as [y|];
      [|discriminate].
    destruct (reports.total_seconds (PyStr.split_first "." t3)) as [z|];
      [|discriminate].
    intros Ha Hb. injection Ha as <-. injection Hb as <-.
    eexists. split; [reflexivity|lia].
  - intros t H. unfold Spec.malformed in H.
    unfold reports.time_difference. cbv zeta.
    destruct (reports.total_seconds _); [|congruence].
    now rewrite Z.sub_diag.
Qed.

Lemma time_difference_symmetric_witness :
  exists c : Z,
    reports.time_difference "10:00:00" "10:01:30" = reports.Finite c /\
    (c <= 60 + 30)%Z.
Proof.
  apply (proj1 (proj2 (proj2 time_difference_symmetric))
           "10:00:00"%string "10:01:00"%string "10:01:30"%string 60%Z 30%Z);
    reflexivity.
Defined.

(** X2: the [time_difference] of main.py, which has no handler and does not
    cut fractional seconds, returns a number only where the one of
    reports.py returns the same number; on strings without a dot the two
    agree, the exception of the one being the infinite value of the other;
    and it raises on every [HH:MM:SS] time followed by a fraction, which the
    one of reports.py reads. *)
Theorem main_time_difference_agrees :
  (forall (time1 time2 : string) (n : Z),
     main_helpers.time_difference time1 time2 = Some n ->
     reports.time_difference time1 time2 = reports.Finite n) /\
  (forall time1 time2 : string,
     Spec.has_char "." time1 = false -> Spec.has_char "." time2 = false ->
     reports.time_difference time1 time2
     = match main_helpers.time_difference time1 time2 with
       | Some n => reports.Finite n
       | None => reports.Infinity
       end) /\
  (forall (h m s : nat) (digits time2 : string),
     (h < 100)%nat -> (m < 100)%nat -> (s < 100)%nat ->
     main_helpers.time_difference
       (Spec.hhmmss h m s ++ Spec.fraction (Some digits)) time2 = None /\
     main_helpers.time_difference
       time2 (Spec.hhmmss h m s ++ Spec.fraction (Some digits)) = None).
Proof.
  assert (Hnodot : forall time1 time2,
            Spec.has_char "." time1 = false -> Spec.has_char "." time2 = false ->
            reports.time_difference time1 time2
            = match main_helpers.time_difference time1 time2 with
              | Some n => reports.Finite n
              | None => reports.Infinity
              end).
  { intros time1 time2 H1 H2. rewrite main_time_difference_eq.
    unfold reports.time_difference. cbv zeta.
    rewrite !split_first_without by assumption.
    destruct (reports.total_seconds time1);
      destruct (reports.total_seconds time2); reflexivity. }
  split; [|split; [exact Hnodot|]].
  - intros time1 time2 n H. rewrite main_time_difference_eq in H.
    destruct (reports.total_seconds time1) as [a|] eqn:E1; [|discriminate].
    destruct (reports.total_seconds time2) as [b|] eqn:E2; [|discriminate].
    rewrite Hnodot by (eapply total_seconds_without_dot; eassumption).
    rewrite main_time_difference_eq, E1, E2. now injection H as <-.
  - intros h m s digits time2 Hh Hm Hs.
    assert (E : reports.total_seconds
                  (Spec.hhmmss h m s ++ Spec.fraction (Some digits)) = None).
    { destruct (reports.total_seconds _) as [z|] eqn:E; [|reflexivity].
      apply total_seconds_without_dot in E.
      rewrite has_char_app in E.
      change (Spec.has_char "." (Spec.fraction (Some digits))) with true in E.
      rewrite orb_true_r in E. discriminate. }
    rewrite !main_time_difference_eq, E.
    split; [reflexivity|]. now destruct (reports.total_seconds time2).
Qed.

Lemma main_time_difference_agrees_witness :
  reports.time_difference "23:59:59" "00:00:01" = reports.Finite 86398.
Proof.
  apply (proj1 main_time_difference_agrees). reflexivity.
Defined.

Section FormatFacts.

Local Open Scope string_scope.

Lemma isdigit_digit_char (c : ascii) :
PyStr.isdigit c = true -> exists d : nat, (d < 10)%nat /\ c = Spec.digit_char d.
Proof.
intros H. exists (nat_of_ascii c - 48)%nat.
destruct c as [[] [] [] [] [] [] [] []]; try discriminate H;
  (split; [vm_compute; lia|reflexivity]).
Qed.

Lemma two_digits_of_chars (c1 c2 : ascii) :
PyStr.isdigit c1 = true -> PyStr.isdigit c2 = true ->
exists n : nat,
  (n < 100)%nat /\ Spec.two_digits n = String c1 (String c2 EmptyString).
Proof.
intros H1 H2.
destruct (isdigit_digit_char c1 H1) as [d1 [Hd1 ->]].
destruct (isdigit_digit_char c2 H2) as [d2 [Hd2 ->]].
exists (d1 * 10 + d2)%nat. split; [lia|]. unfold Spec.two_digits.
rewrite Nat.div_add_l, Nat.div_small, Nat.add_0_r by lia.
rewrite Nat.add_comm, Nat.Div0.mod_add, Nat.mod_small by lia.
reflexivity.
Qed.

Lemma two_digits_chars (n : nat) :
(n < 100)%nat ->
exists c1 c2 : ascii,
  Spec.two_digits n = String c1 (String c2 EmptyString) /\
  PyStr.isdigit c1 = true /\ PyStr.isdigit c2 = true.
Proof.
intros Hn. unfold Spec.two_digits. do 2 eexists. split; [reflexivity|].
assert (H : PyStr.isdigit (Spec.digit_char (n / 10))
            && PyStr.isdigit (Spec.digit_char (n mod 10)) = true)
  by (revert n Hn; apply below_100; vm_compute; reflexivity).
now apply andb_true_iff in H.
Qed.

Lemma at_dollar_iff (rest : string) :
schemas.at_dollar rest = true <-> rest = "" \/ rest = Spec.newline.
Proof.
unfold schemas.at_dollar, Spec.newline.
destruct rest as [|c [|c' r]].
- split; [now left|reflexivity].
- destruct (Ascii.eqb_spec c "010") as [->|H].
  + split; [now right|reflexivity].
  + split; [discriminate|]. intros [E|E]; [discriminate|]. congruence.
- split; [discriminate|]. intros [E|E]; discriminate.
Qed.

Lemma match_digit (ts : list schemas.token) (s rest : string) :
schemas.match_tokens (schemas.Digit :: ts) s = Some rest <->
exists c s', s = String c s' /\ PyStr.isdigit c = true /\
             schemas.match_tokens ts s' = Some rest.
Proof.
cbn [schemas.match_tokens]. destruct s as [|c s'].
- split; [discriminate|]. intros [c [s' [E _]]]. discriminate.
- destruct (PyStr.isdigit c) eqn:E.
  + split; [intros H; now exists c, s'|].
    intros [c0 [s0 [E0 [_ H]]]]. now injection E0 as <- <-.
  + split; [discriminate|].
    intros [c0 [s0 [E0 [Hd _]]]]. injection E0 as <- <-. congruence.
Qed.

Lemma match_lit (l : ascii) (ts : list schemas.token) (s rest : string) :
schemas.match_tokens (schemas.Lit l :: ts) s = Some rest <->
exists s', s = String l s' /\ schemas.match_tokens ts s' = Some rest.
Proof.
cbn [schemas.match_tokens]. destruct s as [|c s'].
- split; [discriminate|]. intros [s' [E _]]. discriminate.
- destruct (Ascii.eqb_spec c l) as [->|Hne].
  + split; [intros H; now exists s'|].
    intros [s0 [E0 H]]. now injection E0 as <-.
  + split; [discriminate|].
    intros [s0 [E0 _]]. injection E0 as E1 _. congruence.
Qed.

Lemma match_two_digits (ts : list schemas.token) (s rest : string) :
schemas.match_tokens (schemas.Digit :: schemas.Digit :: ts) s = Some rest <->
exists (n : nat) (s' : string),
  (n < 100)%nat /\ s = Spec.two_digits n ++ s' /\
  schemas.match_tokens ts s' = Some rest.
Proof.
rewrite match_digit. split.
- intros [c1 [s1 [-> [H1 H]]]]. apply match_digit in H.
  destruct H as [c2 [s2 [-> [H2 H]]]].
  destruct (two_digits_of_chars c1 c2 H1 H2) as [n [Hn E]].
  exists n, s2. rewrite E. now repeat split.
- intros [n [s' [Hn [-> H]]]].
  destruct (two_digits_chars n Hn) as [c1 [c2 [E [H1 H2]]]].
  rewrite E. exists c1, (String c2 s'). split; [reflexivity|].
  split; [exact H1|]. apply match_digit. now exists c2, s'.
Qed.

Lemma append_assoc (a b c : string) : (a ++ b) ++ c = a ++ b ++ c.
Proof. induction a; simpl; congruence. Qed.

Lemma append_empty (a : string) : a ++ "" = a.
Proof. induction a; simpl; congruence. Qed.

Lemma match_time_pattern (h m s : nat) (rest : string) :
(h < 100)%nat -> (m < 100)%nat -> (s < 100)%nat ->
schemas.match_tokens schemas.time_pattern (Spec.hhmmss h m s ++ rest)
= Some rest.
Proof.
intros Hh Hm Hs. unfold schemas.time_pattern, Spec.hhmmss.
rewrite !append_assoc.
apply match_two_digits. exists h. eexists.
split; [exact Hh|]. split; [reflexivity|].
apply match_lit. eexists. split; [reflexivity|].
apply match_two_digits. exists m. eexists.
split; [exact Hm|]. split; [reflexivity|].
apply match_lit. eexists. split; [reflexivity|].
apply match_two_digits. exists s. eexists.
split; [exact Hs|]. split; reflexivity.
Qed.

(** The strings the time validator accepts. *)
Lemma validate_time_format_iff (v : string) :
schemas.validate_time_format v = true <->
exists h m s : nat,
  (h < 100)%nat /\ (m < 100)%nat /\ (s < 100)%nat /\
  (v = Spec.hhmmss h m s \/ v = Spec.hhmmss h m s ++ Spec.newline).
Proof.
unfold schemas.validate_time_format, schemas.re_match.
split.
- destruct (schemas.match_tokens _ v) as [rest|] eqn:E; [|discriminate].
  intros Hrest. apply at_dollar_iff in Hrest.
  unfold schemas.time_pattern in E.
  apply match_two_digits in E. destruct E as [h [v1 [Hh [-> E]]]].
  apply match_lit in E. destruct E as [v2 [-> E]].
  apply match_two_digits in E. destruct E as [m [v3 [Hm [-> E]]]].
  apply match_lit in E. destruct E as [v4 [-> E]].
  apply match_two_digits in E. destruct E as [s [v5 [Hs [-> E]]]].
  cbn [schemas.match_tokens] in E. injection E as ->.
  exists h, m, s. repeat split; try assumption.
  unfold Spec.hhmmss.
  destruct Hrest as [-> | ->]; [left|right].
  + now rewrite append_empty.
  + rewrite !append_assoc. reflexivity.
- intros [h [m [s [Hh [Hm [Hs [-> | ->]]]]]]].
  + rewrite <- (append_empty (Spec.hhmmss h m s)).
    now rewrite match_time_pattern.
  + now rewrite match_time_pattern.
Qed.

Lemma match_date_pattern (y m d : nat) (rest : string) :
(y < 100 * 100)%nat -> (m < 100)%nat -> (d < 100)%nat ->
schemas.match_tokens schemas.date_pattern (Spec.yyyymmdd y m d ++ rest)
= Some rest.
Proof.
intros Hy Hm Hd. unfold schemas.date_pattern, Spec.yyyymmdd.
rewrite !append_assoc.
apply match_two_digits. exists (y / 100)%nat. eexists.
split; [apply Nat.Div0.div_lt_upper_bound; lia|]. split; [reflexivity|].
apply match_two_digits. exists (y mod 100)%nat. eexists.
split; [apply Nat.mod_upper_bound; lia|]. split; [reflexivity|].
apply match_lit. eexists. split; [reflexivity|].
apply match_two_digits. exists m. eexists.
split; [exact Hm|]. split; [reflexivity|].
apply match_lit. eexists. split; [reflexivity|].
apply match_two_digits. exists d. eexists.
split; [exact Hd|]. split; reflexivity.
Qed.

(** The strings the date validator accepts. *)
Lemma validate_date_format_iff (v : string) :
schemas.validate_date_format v = true <->
exists y m d : nat,
  (y < 100 * 100)%nat /\ (m < 100)%nat /\ (d < 100)%nat /\
  (v = Spec.yyyymmdd y m d \/ v = Spec.yyyymmdd y m d ++ Spec.newline).
Proof.
unfold schemas.validate_date_format, schemas.re_match.
split.
- destruct (schemas.match_tokens _ v) as [rest|] eqn:E; [|discriminate].
  intros Hrest. apply at_dollar_iff in Hrest.
  unfold schemas.date_pattern in E.
  apply match_two_digits in E. destruct E as [y1 [v1 [Hy1 [-> E]]]].
  apply match_two_digits in E. destruct E as [y2 [v2 [Hy2 [-> E]]]].
  apply match_lit in E. destruct E as [v3 [-> E]].
  apply match_two_digits in E. destruct E as [m [v4 [Hm [-> E]]]].
  apply match_lit in E. destruct E as [v5 [-> E]].
  apply match_two_digits in E. destruct E as [d [v6 [Hd [-> E]]]].
  cbn [schemas.match_tokens] in E. injection E as ->.
  exists (y1 * 100 + y2)%nat, m, d.
  split; [lia|]. split; [exact Hm|]. split; [exact Hd|].
  unfold Spec.yyyymmdd.
  rewrite Nat.div_add_l, Nat.div_small, Nat.add_0_r by lia.
  rewrite Nat.add_comm, Nat.Div0.mod_add, Nat.mod_small by lia.
  destruct Hrest as [-> | ->]; [left|right].
  + now rewrite append_empty.
  + rewrite !append_assoc. reflexivity.
- intros [y [m [d [Hy [Hm [Hd [-> | ->]]]]]]].
  + rewrite <- (append_empty (Spec.yyyymmdd y m d)).
    now rewrite match_date_pattern.
  + now rewrite match_date_pattern.
Qed.

(** A validated time is one [time_difference] can read. *)
Lemma total_seconds_newline (h m s : nat) :
(h < 100)%nat -> (m < 100)%nat -> (s < 100)%nat ->
reports.total_seconds (Spec.hhmmss h m s ++ Spec.newline)
= Some (Spec.seconds_since_midnight h m s).
Proof.
intros Hh Hm Hs. unfold reports.total_seconds.
change (Spec.hhmmss h m s ++ Spec.newline)
  with (Spec.two_digits h
          ++ String ":" (Spec.two_digits m
                           ++ String ":" (Spec.two_digits s ++ Spec.newline))).
rewrite (split_at_first ":" (Spec.two_digits h)) by now apply two_digits_no_colon.
rewrite (split_at_first ":" (Spec.two_digits m)) by now apply two_digits_no_colon.
rewrite (split_without ":" (Spec.two_digits s ++ Spec.newline))
  by (rewrite has_char_app, two_digits_no_colon by assumption; reflexivity).
cbn [map]. rewrite !int_two_digits by assumption.
assert (H : match PyStr.int (Spec.two_digits s ++ Spec.newline) with
            | Some z => Z.eqb z (Z.of_nat s)
            | None => false
            end = true)
  by (revert s Hs; apply below_100; vm_compute; reflexivity).
destruct (PyStr.int (Spec.two_digits s ++ Spec.newline)); [|discriminate].
apply Z.eqb_eq in H. now subst.
Qed.

Lemma validated_time_parses (v : string) :
schemas.validate_time_format v = true ->
exists z : Z,
  reports.total_seconds (PyStr.split_first "." v) = Some z /\
  (0 <= z <= 362439)%Z.
Proof.
intros H. apply validate_time_format_iff in H.
destruct H as [h [m [s [Hh [Hm [Hs Hv]]]]]].
exists (Spec.seconds_since_midnight h m s). split.
- destruct Hv as [-> | ->].
  + rewrite split_first_without by now apply hhmmss_no_dot.
    now apply total_seconds_hhmmss.
  + rewrite split_first_without
      by (rewrite has_char_app, hhmmss_no_dot by assumption; reflexivity).
    now apply total_seconds_newline.
- unfold Spec.seconds_since_midnight. lia.
Qed.

End FormatFacts.

(** X3: the validator of [sample_time] accepts exactly the strings made of
    two digits, a colon, two digits, a colon and two digits, with or without
    one final newline, and the validator of [sample_date] exactly four
    digits, a dash, two digits, a dash and two digits, with or without one
    final newline: neither bounds the hours, minutes, seconds, months or
    days. *)
Theorem validators_accept_digit_patterns :
  (forall v : string,
     schemas.validate_time_format v = true <->
     exists h m s : nat,
       (h < 100)%nat /\ (m < 100)%nat /\ (s < 100)%nat /\
       (v = Spec.hhmmss h m s \/ v = (Spec.hhmmss h m s ++ Spec.newline)%string)) /\
  (forall v : string,
     schemas.validate_date_format v = true <->
     exists y m d : nat,
       (y < 100 * 100)%nat /\ (m < 100)%nat /\ (d < 100)%nat /\
       (v = Spec.yyyymmdd y m d
        \/ v = (Spec.yyyymmdd y m d ++ Spec.newline)%string)).
Proof.
  split; [exact validate_time_format_iff|exact validate_date_format_iff].
Qed.

(** The time 99:99:99 followed by a newline. *)
Lemma validators_accept_digit_patterns_witness :
  schemas.validate_time_format
    (Spec.hhmmss 99 99 99 ++ Spec.newline)%string = true.
Proof.
  apply (proj2 (proj1 validators_accept_digit_patterns _)).
  exists 99%nat, 99%nat, 99%nat.
  split; [lia|]. split; [lia|]. split; [lia|]. now right.
Defined.

(** X4: a [sample_time] that passed the validator of the upload schema is
    always read by [time_difference]: between two uploaded samples that are
    valid, and between two rows of a store whose rows are all in the ranges
    of the schema, the difference is a number from 0 to 362439 and never the
    infinite value. *)
Theorem validated_times_always_parse :
  (forall x y : schemas.LocationSampleBase,
     schemas.LocationSampleBase_valid x = true ->
     schemas.LocationSampleBase_valid y = true ->
     exists n : Z,
       reports.time_difference (schemas.sample_time x) (schemas.sample_time y)
       = reports.Finite n /\ (0 <= n <= 362439)%Z) /\
  (forall (t : database.Table) (r1 r2 : models.LocationSample),
     forallb Spec.row_in_range t = true -> In r1 t -> In r2 t ->
     exists n : Z,
       reports.time_difference (models.sample_time r1) (models.sample_time r2)
       = reports.Finite n /\ (0 <= n <= 362439)%Z).
Proof.
  assert (H : forall v1 v2,
            schemas.validate_time_format v1 = true ->
            schemas.validate_time_format v2 = true ->
            exists n : Z,
              reports.time_difference v1 v2 = reports.Finite n /\
              (0 <= n <= 362439)%Z).
  { intros v1 v2 H1 H2.
    destruct (validated_time_parses v1 H1) as [a [Ea Ha]].
    destruct (validated_time_parses v2 H2) as [b [Eb Hb]].
    unfold reports.time_difference. cbv zeta. rewrite Ea, Eb.
    eexists. split; [reflexivity|lia]. }
  split.
  - intros x y Hx Hy. apply H.
    + unfold schemas.LocationSampleBase_valid in Hx.
      now apply andb_true_iff in Hx as [_ Hx].
    + unfold schemas.LocationSampleBase_valid in Hy.
      now apply andb_true_iff in Hy as [_ Hy].
  - intros t r1 r2 Ht H1 H2. rewrite forallb_forall in Ht. apply H.
    + specialize (Ht r1 H1). unfold Spec.row_in_range in Ht.
      now apply andb_true_iff in Ht as [_ Ht].
    + specialize (Ht r2 H2). unfold Spec.row_in_range in Ht.
      now apply andb_true_iff in Ht as [_ Ht].
Qed.

Lemma validated_times_always_parse_witness :
  exists n : Z,
    reports.time_difference (schemas.sample_time Examples.good)
      (schemas.sample_time Examples.good2)
    = reports.Finite n /\ (0 <= n <= 362439)%Z.
Proof.
  apply (proj1 validated_times_always_parse); reflexivity.
Defined.

(** ** More on the ingest *)

Section MoreIngest.

Variable engine : database.Engine.

Lemma find_app {A : Type} (f : A -> bool) (l1 l2 : list A) :
  find f (l1 ++ l2)
  = match find f l1 with
    | Some x => Some x
    | None => find f l2
    end.
Proof.
  induction l1 as [|x l1 IH]; simpl; [reflexivity|].
  destruct (f x); [reflexivity|exact IH].
Qed.

Lemma find_unique_id (device_id : string)
    (samples : list schemas.LocationSampleBase)
    (s : schemas.LocationSampleBase) :
  NoDup (map schemas.id samples) -> In s samples ->
  find (database.has_client_id (schemas.id s))
    (map (fun x => crud.new_sample x device_id) samples)
  = Some (crud.new_sample s device_id).
Proof.
  induction samples as [|x l IH]; intros Hdup Hin; [contradiction|].
  simpl in Hdup. inversion Hdup as [|? ? Hx Hdup']; subst.
  cbn [map find]. unfold database.has_client_id at 1.
  cbn [crud.new_sample models.client_id].
  destruct Hin as [->|Hin].
  - now rewrite String.eqb_refl.
  - destruct (String.eqb_spec (schemas.id x) (schemas.id s)) as [E|_].
    + elim Hx. rewrite E. now apply in_map.
    + now apply IH.
Qed.

Lemma validate_returns (body b : schemas.BulkUploadRequest) :
  schemas.BulkUploadRequest_validate body = Return b ->
  b = body /\ (1000 <? List.length (schemas.samples body))%nat = false.
Proof.
  unfold schemas.BulkUploadRequest_validate, schemas.max_items.
  destruct (1000 <? List.length (schemas.samples body))%nat; [discriminate|].
  destruct (schemas.invalid_positions _ _); [|discriminate].
  intros H. injection H as <-. now split.
Qed.

(** The three answers of the endpoint. *)
Lemma post_cases (body : schemas.BulkUploadRequest) (t : database.Table) :
  let samples := schemas.samples body in
  let fresh := filter (Spec.unseen t) samples in
  let rows := map (fun s => crud.new_sample s (schemas.deviceId body)) fresh in
  (exists e,
     schemas.BulkUploadRequest_validate body = Raise (RequestValidationError e) /\
     main.post_locations_bulk engine body t
     = (Raise (RequestValidationError e), t)) \/
  (schemas.BulkUploadRequest_validate body = Return body /\
   (~ NoDup (map schemas.id fresh) \/
    forallb (database.insertable engine) rows = false) /\
   main.post_locations_bulk engine body t
   = (Raise (HTTPException 500 InternalServerError), t)) \/
  (schemas.BulkUploadRequest_validate body = Return body /\
   NoDup (map schemas.id fresh) /\
   forallb (database.insertable engine) rows = true /\
   main.post_locations_bulk engine body t
   = (Return {| main.status := "success";
                main.processed := List.length samples;
                main.failed := 0;
                main.synced_ids := map schemas.id samples |},
      t ++ rows)).
Proof.
  intros samples fresh rows. unfold main.post_locations_bulk.
  destruct (schemas.BulkUploadRequest_validate body) as [b|e] eqn:Ev.
  - right. destruct (validate_returns body b Ev) as [-> Hlen].
    unfold main.bulk_upload_locations. rewrite Hlen.
    fold (Spec.fresh_session t). fold samples.
    destruct (bulk_cases engine t samples (schemas.deviceId body))
      as [[Hdup [Hi ->]]|[Hdup [e [-> _]]]].
    + right. split; [reflexivity|]. split; [exact Hdup|].
      split; [exact Hi|]. cbn. now rewrite length_map.
    + left. split; [reflexivity|]. split; [exact Hdup|reflexivity].
  - left. unfold schemas.BulkUploadRequest_validate in Ev.
    destruct (_ <? _)%nat.
    + injection Ev as <-. eexists. split; reflexivity.
    + destruct (schemas.invalid_positions _ _); [discriminate|].
      injection Ev as <-. eexists. split; reflexivity.
Qed.

Lemma row_in_range_new (s : schemas.LocationSampleBase) (device_id : string) :
  Spec.row_in_range (crud.new_sample s device_id)
  = schemas.LocationSampleBase_valid s.
Proof. reflexivity. Qed.

Lemma out_of_range_not_insertable (rows : list models.LocationSample) :
  forallb database.in_column_ranges rows = false ->
  forallb (database.insertable engine) rows = false.
Proof.
  induction rows as [|r rows IH]; simpl; [discriminate|].
  unfold database.insertable at 1.
  destruct (database.in_column_ranges r); simpl; [|reflexivity].
  intros H. rewrite (IH H). apply andb_false_r.
Qed.

End MoreIngest.



(** X6: the uniqueness of [client_id] and the ranges and formats of the
    upload schema are invariants of the store under the bulk endpoint:
    whatever the request and its answer, if the rows of the store had pairwise
    different identifiers they still have, and if they all were in the ranges
    of the schema they still are. *)
Theorem store_invariants :
  forall (engine : database.Engine)
         (body : schemas.BulkUploadRequest) (t : database.Table),
    (Spec.unique_client_ids t ->
     Spec.unique_client_ids (snd (main.post_locations_bulk engine body t))) /\
    (forallb Spec.row_in_range t = true ->
     forallb Spec.row_in_range (snd (main.post_locations_bulk engine body t))
     = true) /\
    (forallb database.in_column_ranges t = true ->
     forallb database.in_column_ranges
       (snd (main.post_locations_bulk engine body t)) = true).
Proof.
  intros engine body t.
  destruct (post_cases engine body t)
    as [[e [_ E]]|[[_ [_ E]]|[Hv [Hdup [Hi E]]]]];
    rewrite E; cbn [snd]; try (repeat split; intros H; exact H).
  split; [|split].
  - unfold Spec.unique_client_ids. intros Hu. rewrite map_app.
    apply NoDup_app; [exact Hu|now rewrite new_rows_ids|].
    intros cid Hin Hnew. apply in_map_iff in Hnew as [r [<- Hr]].
    now apply (new_rows_unseen t _ _ r Hr).
  - intros Hr. rewrite forallb_app, Hr. simpl.
    apply forallb_forall. intros r Hin.
    apply in_map_iff in Hin as [s [<- Hs]]. rewrite row_in_range_new.
    apply filter_In in Hs as [Hs _].
    unfold schemas.BulkUploadRequest_validate in Hv.
    destruct (_ <? _)%nat; [discriminate|].
    destruct (schemas.invalid_positions 0 (schemas.samples body)) eqn:Ei;
      [|discriminate].
    apply invalid_positions_nil in Ei. rewrite forallb_forall in Ei.
    now apply Ei.
  - intros Hr. rewrite forallb_app, Hr. simpl.
    apply forallb_forall. intros r Hin.
    rewrite forallb_forall in Hi. specialize (Hi r Hin).
    unfold database.insertable in Hi. now apply andb_prop in Hi as [Hi _].
Qed.

Lemma store_invariants_witness :
  Spec.unique_client_ids
    (snd (main.post_locations_bulk Examples.engine
            (Examples.request [Examples.good; Examples.good2]) [])).
Proof.
  apply (proj1 (store_invariants Examples.engine
                  (Examples.request [Examples.good; Examples.good2]) [])).
  constructor.
Defined.




(** ** File names *)

Section FileNames.

Lemma sub_non_ascii_ascii (text : string) :
forall in_run, Spec.all_chars reports.is_ascii
                 (reports.sub_non_ascii text in_run) = true.
Proof.
induction text as [|c text IH]; intros in_run; [reflexivity|].
simpl. destruct (reports.is_ascii c) eqn:E.
- simpl. now rewrite E, IH.
- destruct in_run; [apply IH|]. simpl. apply IH.
Qed.

Lemma sub_non_ascii_id (text : string) :
Spec.all_chars reports.is_ascii text = true ->
forall in_run, reports.sub_non_ascii text in_run = text.
Proof.
induction text as [|c text IH]; intros H in_run; [reflexivity|].
simpl in *. apply andb_true_iff in H as [Hc H].
now rewrite Hc, IH.
Qed.

Lemma sub_non_ascii_length (text : string) :
forall in_run,
  (String.length (reports.sub_non_ascii text in_run) <= String.length text)%nat.
Proof.
induction text as [|c text IH]; intros in_run; [reflexivity|].
simpl. destruct (reports.is_ascii c); simpl.
- apply le_n_S, IH.
- destruct in_run; simpl.
  + apply Nat.le_le_succ_r, IH.
  + apply le_n_S, IH.
Qed.

Lemma sub_problematic_safe (text : string) :
Spec.all_chars reports.is_ascii text = true ->
Spec.all_chars Spec.filename_safe (reports.sub_problematic text) = true.
Proof.
induction text as [|c text IH]; intros H; [reflexivity|].
simpl in *. apply andb_true_iff in H as [Hc H]. rewrite (IH H), andb_true_r.
unfold Spec.filename_safe. destruct (reports.is_problematic c) eqn:E.
- reflexivity.
- now rewrite Hc, E.
Qed.

Lemma sub_problematic_id (text : string) :
Spec.all_chars Spec.filename_safe text = true ->
reports.sub_problematic text = text.
Proof.
induction text as [|c text IH]; intros H; [reflexivity|].
simpl in *. apply andb_true_iff in H as [Hc H]. rewrite (IH H).
unfold Spec.filename_safe in Hc. apply andb_true_iff in Hc as [_ Hc].
apply negb_true_iff in Hc. now rewrite Hc.
Qed.

Lemma sub_problematic_length (text : string) :
String.length (reports.sub_problematic text) = String.length text.
Proof. induction text as [|c text IH]; simpl; congruence. Qed.

Lemma filename_safe_ascii (text : string) :
Spec.all_chars Spec.filename_safe text = true ->
Spec.all_chars reports.is_ascii text = true.
Proof.
induction text as [|c text IH]; intros H; [reflexivity|].
simpl in *. apply andb_true_iff in H as [Hc H]. rewrite (IH H).
unfold Spec.filename_safe in Hc. now apply andb_true_iff in Hc as [-> _].
Qed.

Lemma all_chars_app (p : ascii -> bool) (s1 s2 : string) :
Spec.all_chars p (s1 ++ s2)
= Spec.all_chars p s1 && Spec.all_chars p s2.
Proof.
induction s1 as [|c s1 IH]; [reflexivity|].
simpl. now rewrite IH, andb_assoc.
Qed.

Lemma safe_filename_safe (text : string) :
Spec.all_chars Spec.filename_safe (reports.safe_filename text) = true.
Proof.
unfold reports.safe_filename. apply sub_problematic_safe, sub_non_ascii_ascii.
Qed.

Lemma safe_filename_id (text : string) :
Spec.all_chars Spec.filename_safe text = true ->
reports.safe_filename text = text.
Proof.
intros H. unfold reports.safe_filename.
rewrite sub_non_ascii_id by now apply filename_safe_ascii.
now apply sub_problematic_id.
Qed.

End FileNames.

(** X9: [safe_filename] returns a text of ASCII characters none of which is
    one of the nine characters of its second pattern, not longer than the
    text it was given; it leaves a text that is already so as it is, so
    applying it twice is applying it once.  The file name of the report is
    made of such characters only whenever the two dates are, which the
    function does not clean. *)
Theorem safe_filename_is_safe :
  (forall text : string,
     Spec.all_chars Spec.filename_safe (reports.safe_filename text) = true) /\
  (forall text : string,
     (String.length (reports.safe_filename text) <= String.length text)%nat) /\
  (forall text : string,
     Spec.all_chars Spec.filename_safe text = true ->
     reports.safe_filename text = text) /\
  (forall text : string,
     reports.safe_filename (reports.safe_filename text)
     = reports.safe_filename text) /\
  (forall station1 station2 start_date end_date : string,
     Spec.all_chars Spec.filename_safe start_date = true ->
     Spec.all_chars Spec.filename_safe end_date = true ->
     Spec.all_chars Spec.filename_safe
       (reports.report_filename station1 station2 start_date end_date) = true).
Proof.
  split; [exact safe_filename_safe|]. split; [|split; [exact safe_filename_id|split]].
  - intros text. unfold reports.safe_filename.
    rewrite sub_problematic_length. apply sub_non_ascii_length.
  - intros text. apply safe_filename_id, safe_filename_safe.
  - intros station1 station2 start_date end_date Hs He.
    unfold reports.report_filename. cbv zeta.
    rewrite !all_chars_app, !safe_filename_safe, Hs, He. reflexivity.
Qed.

(** A station name with two accented letters in a row, a slash and a colon. *)
Lemma safe_filename_is_safe_witness :
  Spec.all_chars Spec.filename_safe
    (reports.report_filename
       (String "S" (String "t" (String "233" (String "232" "/1:a"))))
       "bravo" "2024-05-01" "2024-05-02") = true.
Proof.
  apply (proj2 (proj2 (proj2 (proj2 safe_filename_is_safe)))); reflexivity.
Defined.

(** ** Trajectories *)

Section Trajectories.

Variable iso : string -> option string.

Lemma lookup_add_row (row : main_endpoints.Row) (k : string)
  (d : list (string * main_endpoints.Trajectory)) :
Spec.lookup k ((main_endpoints.add_row iso) row d)
= if String.eqb (main_endpoints.trajectory_key row) k then
    Some match Spec.lookup k d with
         | Some traj =>
             {| main_endpoints.t_station := main_endpoints.t_station traj;
                main_endpoints.t_device_id := main_endpoints.t_device_id traj;
                main_endpoints.coordinates :=
                  main_endpoints.coordinates traj ++ [(main_endpoints.coordinate_of iso) row] |}
         | None =>
             {| main_endpoints.t_station := main_endpoints.row_station row;
                main_endpoints.t_device_id := main_endpoints.row_device_id row;
                main_endpoints.coordinates := [(main_endpoints.coordinate_of iso) row] |}
         end
  else Spec.lookup k d.
Proof.
induction d as [|[k' traj] d IH]; simpl.
- destruct (String.eqb_spec (main_endpoints.trajectory_key row) k); reflexivity.
- destruct (String.eqb_spec k' (main_endpoints.trajectory_key row)) as [E|E];
    simpl.
  + subst k'.
    destruct (String.eqb_spec (main_endpoints.trajectory_key row) k); reflexivity.
  + destruct (String.eqb_spec k' k) as [E'|E'].
    * subst k'.
      destruct (String.eqb_spec (main_endpoints.trajectory_key row) k);
        [congruence|reflexivity].
    * exact IH.
Qed.

Lemma keys_add_row (row : main_endpoints.Row)
  (d : list (string * main_endpoints.Trajectory)) :
map fst ((main_endpoints.add_row iso) row d)
= if in_dec string_dec (main_endpoints.trajectory_key row) (map fst d)
  then map fst d
  else map fst d ++ [main_endpoints.trajectory_key row].
Proof.
induction d as [|[k' traj] d IH]; simpl; [reflexivity|].
destruct (String.eqb_spec k' (main_endpoints.trajectory_key row)) as [E|E];
  simpl.
- destruct (string_dec k' (main_endpoints.trajectory_key row));
    [reflexivity|contradiction].
- rewrite IH.
  destruct (string_dec k' (main_endpoints.trajectory_key row)); [contradiction|].
  destruct (in_dec string_dec _ (map fst d)); reflexivity.
Qed.

Lemma total_add_row (row : main_endpoints.Row)
  (d : list (string * main_endpoints.Trajectory)) :
main_endpoints.total_coordinates ((main_endpoints.add_row iso) row d)
= S (main_endpoints.total_coordinates d).
Proof.
unfold main_endpoints.total_coordinates.
induction d as [|[k' traj] d IH]; simpl; [reflexivity|].
destruct (String.eqb k' (main_endpoints.trajectory_key row)); simpl.
- rewrite length_app. simpl. lia.
- rewrite IH. lia.
Qed.

Lemma group_rows_snoc (rows : list main_endpoints.Row) (row : main_endpoints.Row) :
(main_endpoints.group_rows iso) (rows ++ [row]) = (main_endpoints.add_row iso) row ((main_endpoints.group_rows iso) rows).
Proof.
unfold main_endpoints.group_rows. now rewrite fold_left_app.
Qed.

Lemma keys_nodup (rows : list main_endpoints.Row) :
NoDup (map fst ((main_endpoints.group_rows iso) rows)).
Proof.
induction rows as [|row rows IH] using rev_ind; [constructor|].
rewrite group_rows_snoc, keys_add_row.
destruct (in_dec string_dec _ _) as [Hin|Hnin]; [exact IH|].
apply NoDup_app; [exact IH|repeat constructor; intros []|].
intros k Hk [<-|[]]. contradiction.
Qed.

Lemma total_group_rows (rows : list main_endpoints.Row) :
main_endpoints.total_coordinates ((main_endpoints.group_rows iso) rows) = List.length rows.
Proof.
induction rows as [|row rows IH] using rev_ind; [reflexivity|].
rewrite group_rows_snoc, total_add_row, IH, length_app. simpl. lia.
Qed.

Lemma length_group_rows (rows : list main_endpoints.Row) :
(List.length ((main_endpoints.group_rows iso) rows) <= List.length rows)%nat.
Proof.
induction rows as [|row rows IH] using rev_ind; [reflexivity|].
rewrite group_rows_snoc, length_app. simpl.
rewrite <- (length_map fst ((main_endpoints.add_row iso) row _)), keys_add_row.
destruct (in_dec string_dec _ _).
- rewrite length_map. lia.
- rewrite length_app, length_map. simpl. lia.
Qed.

Lemma lookup_group_rows (rows : list main_endpoints.Row) (k : string) :
Spec.lookup k ((main_endpoints.group_rows iso) rows) = Spec.trajectory_of iso (Spec.rows_with_key k rows).
Proof.
induction rows as [|row rows IH] using rev_ind; [reflexivity|].
rewrite group_rows_snoc, lookup_add_row, IH.
unfold Spec.rows_with_key. rewrite filter_app. simpl.
destruct (String.eqb (main_endpoints.trajectory_key row) k).
- destruct (filter _ rows) as [|r0 rest]; simpl; [reflexivity|].
  now rewrite map_app.
- now rewrite app_nil_r.
Qed.

Lemma lookup_in {A : Type} (k : string) (a : A) (l : list (string * A)) :
Spec.lookup k l = Some a -> In (k, a) l.
Proof.
induction l as [|[k' a'] l IH]; simpl; [discriminate|].
destruct (String.eqb_spec k' k) as [->|_].
- intros H. injection H as ->. now left.
- intros H. right. now apply IH.
Qed.

Lemma in_lookup {A : Type} (k : string) (a : A) (l : list (string * A)) :
NoDup (map fst l) -> In (k, a) l -> Spec.lookup k l = Some a.
Proof.
induction l as [|[k' a'] l IH]; simpl; intros Hdup Hin; [contradiction|].
inversion Hdup as [|? ? Hk Hdup']; subst.
destruct Hin as [E|Hin].
- injection E as -> ->. now rewrite String.eqb_refl.
- destruct (String.eqb_spec k' k) as [->|_]; [|now apply IH].
  elim Hk. apply (in_map fst) in Hin. exact Hin.
Qed.

Lemma group_rows_entries (rows : list main_endpoints.Row) (k : string)
  (traj : main_endpoints.Trajectory) :
In (k, traj) ((main_endpoints.group_rows iso) rows) <->
Spec.trajectory_of iso (Spec.rows_with_key k rows) = Some traj.
Proof.
rewrite <- lookup_group_rows. split.
- apply in_lookup, keys_nodup.
- apply lookup_in.
Qed.

Lemma group_rows_nonempty (rows : list main_endpoints.Row) :
rows <> [] -> (main_endpoints.group_rows iso) rows <> [].
Proof.
intros H Hg.
assert (E := total_group_rows rows). rewrite Hg in E.
destruct rows; [congruence|discriminate].
Qed.

End Trajectories.

Section TrajectoryKeys.

Local Open Scope string_scope.

Lemma key_split (s1 s2 d1 d2 : string) :
Spec.has_char "_" s1 = false -> Spec.has_char "_" s2 = false ->
s1 ++ "_" ++ d1 = s2 ++ "_" ++ d2 -> s1 = s2 /\ d1 = d2.
Proof.
revert s2. induction s1 as [|c s1 IH]; intros [|c' s2] H1 H2 E; simpl in *.
- injection E as ->. now split.
- injection E as <- _. now rewrite Ascii.eqb_refl in H2.
- injection E as -> _. now rewrite Ascii.eqb_refl in H1.
- injection E as <- E.
  apply orb_false_iff in H1 as [_ H1]. apply orb_false_iff in H2 as [_ H2].
  destruct (IH s2 H1 H2 E) as [-> ->]. now split.
Qed.

End TrajectoryKeys.

(** X10: the loop of the two trajectory endpoints groups the rows by their
    key, the station and the device joined by an underscore.  The keys of the
    result are pairwise different; it has an entry for a key exactly when
    some row has that key, and the entry carries the station and the device
    of the first such row and one coordinate for each such row, in the order
    of the rows; the coordinates counted are as many as the rows, and the
    trajectories at most as many.  Without rows the endpoint of one date
    answers that there is no data where the one of a date range answers with
    zero trajectories; with rows the two give the same. *)
Theorem trajectories_group_by_key :
  forall (isoformat : string -> option string)
         (rows : list main_endpoints.Row),
    let trajectories := main_endpoints.group_rows isoformat rows in
    NoDup (map fst trajectories) /\
    (forall (k : string) (traj : main_endpoints.Trajectory),
       In (k, traj) trajectories <->
       Spec.trajectory_of isoformat (Spec.rows_with_key k rows) = Some traj) /\
    main_endpoints.total_coordinates trajectories = List.length rows /\
    (List.length trajectories <= List.length rows)%nat /\
    (main_endpoints.get_trajectories isoformat rows
     = main_endpoints.NoDataForDate <-> rows = []) /\
    (rows <> [] ->
     main_endpoints.get_trajectories isoformat rows
     = main_endpoints.get_trajectories_date_range isoformat rows) /\
    main_endpoints.get_trajectories_date_range isoformat rows
    = main_endpoints.Trajectories (List.length trajectories) (List.length rows)
        (map snd trajectories).
Proof.
  intros isoformat rows trajectories. subst trajectories.
  split; [apply keys_nodup|].
  split; [intros k traj; apply group_rows_entries|].
  split; [apply total_group_rows|].
  split; [apply length_group_rows|].
  split; [|split].
  - unfold main_endpoints.get_trajectories, main_endpoints.answer_of.
    destruct rows; split; intros H; try reflexivity; discriminate.
  - destruct rows; [congruence|reflexivity].
  - unfold main_endpoints.get_trajectories_date_range, main_endpoints.answer_of.
    now rewrite total_group_rows.
Qed.

Lemma trajectories_group_by_key_witness :
  main_endpoints.get_trajectories (fun _ => None)
    [Examples.row_of "alpha" "device-1"; Examples.row_of "bravo" "device-1";
     Examples.row_of "alpha" "device-1"]
  = main_endpoints.get_trajectories_date_range (fun _ => None)
      [Examples.row_of "alpha" "device-1"; Examples.row_of "bravo" "device-1";
       Examples.row_of "alpha" "device-1"].
Proof.
  apply (proj1 (proj2 (proj2 (proj2 (proj2 (proj2
           (trajectories_group_by_key (fun _ => None)
              [Examples.row_of "alpha" "device-1";
               Examples.row_of "bravo" "device-1";
               Examples.row_of "alpha" "device-1"]))))))).
  discriminate.
Defined.

(** X11: two rows have the same trajectory key exactly when they have the
    same station and device, provided no station name holds an underscore;
    in general two rows are put in one trajectory as soon as their keys are
    the same, under the station and the device of the first, which happens
    for the station "a_b" with the device "c" and the station "a" with the
    device "b_c". *)
Theorem trajectory_key_separates :
  (forall r1 r2 : main_endpoints.Row,
     Spec.has_char "_" (main_endpoints.row_station r1) = false ->
     Spec.has_char "_" (main_endpoints.row_station r2) = false ->
     (main_endpoints.trajectory_key r1 = main_endpoints.trajectory_key r2 <->
      main_endpoints.row_station r1 = main_endpoints.row_station r2 /\
      main_endpoints.row_device_id r1 = main_endpoints.row_device_id r2)) /\
  (forall (isoformat : string -> option string) (r1 r2 : main_endpoints.Row),
     main_endpoints.trajectory_key r1 = main_endpoints.trajectory_key r2 ->
     map snd (main_endpoints.group_rows isoformat [r1; r2])
     = [{| main_endpoints.t_station := main_endpoints.row_station r1;
           main_endpoints.t_device_id := main_endpoints.row_device_id r1;
           main_endpoints.coordinates :=
             [main_endpoints.coordinate_of isoformat r1;
              main_endpoints.coordinate_of isoformat r2] |}]) /\
  main_endpoints.trajectory_key (Examples.row_of "a_b" "c")
  = main_endpoints.trajectory_key (Examples.row_of "a" "b_c").
Proof.
  split; [|split; [|reflexivity]].
  - intros r1 r2 H1 H2. unfold main_endpoints.trajectory_key. split.
    + now apply key_split.
    + now intros [-> ->].
  - intros isoformat r1 r2 E. unfold main_endpoints.group_rows. simpl.
    now rewrite E, String.eqb_refl.
Qed.

Lemma trajectory_key_separates_witness :
  map snd
    (main_endpoints.group_rows (fun _ => None)
       [Examples.row_of "a_b" "c"; Examples.row_of "a" "b_c"])
  = [{| main_endpoints.t_station := "a_b";
        main_endpoints.t_device_id := "c";
        main_endpoints.coordinates :=
          [main_endpoints.coordinate_of (fun _ => None) (Examples.row_of "a_b" "c");
           main_endpoints.coordinate_of (fun _ => None) (Examples.row_of "a" "b_c")] |}].
Proof.
  apply (proj1 (proj2 trajectory_key_separates)). reflexivity.
Defined.

(** ** More on the report *)

Section MoreReport.

Variable rt : runtime.functions.

Lemma numbered_serials
    (l : list (models.LocationSample * models.LocationSample * float)) :
  forall n, map reports.serial (Spec.numbered n l) = seq n (List.length l).
Proof.
  induction l as [|[[s1 s2] d] l IH]; intros n; simpl; [reflexivity|].
  now rewrite IH.
Qed.

Lemma numbered_length
    (l : list (models.LocationSample * models.LocationSample * float)) :
  forall n, List.length (Spec.numbered n l) = List.length l.
Proof.
  induction l as [|[[s1 s2] d] l IH]; intros n; simpl; [reflexivity|].
  now rewrite IH.
Qed.

Lemma first_matches_length (l1 l2 : list models.LocationSample) :
  List.length (Spec.first_matches rt l1 l2)
  = List.length (filter (fun s1 => existsb (Spec.pairable rt s1) l2) l1).
Proof.
  unfold Spec.first_matches.
  induction l1 as [|s1 l1 IH]; simpl; [reflexivity|].
  rewrite length_app, IH.
  destruct (find (Spec.pairable rt s1) l2) as [s2|] eqn:E.
  - apply find_some in E as [Hin Hm].
    assert (Hex : existsb (Spec.pairable rt s1) l2 = true)
      by (apply existsb_exists; now exists s2).
    rewrite Hex. now destruct (pairable_distance rt s1 s2 Hm) as [d ->].
  - assert (Hex : existsb (Spec.pairable rt s1) l2 = false).
    { destruct (existsb _ l2) eqn:Hex; [|reflexivity].
      apply existsb_exists in Hex as [x [Hx Hm]].
      now rewrite (find_none _ _ E x Hx) in Hm. }
    now rewrite Hex.
Qed.

Lemma filter_length_le {A : Type} (f : A -> bool) (l : list A) :
  (List.length (filter f l) <= List.length l)%nat.
Proof.
  induction l as [|x l IH]; simpl; [reflexivity|].
  destruct (f x); simpl; lia.
Qed.

Lemma success_rate_bounds (successful total : nat) (r : Q) :
  (successful <= total)%nat ->
  reports.success_rate successful total = Return r ->
  (0 < total)%nat /\ (0 <= r)%Q /\ (r <= 100)%Q /\
  (r * inject_Z (Z.of_nat total) == 100 * inject_Z (Z.of_nat successful))%Q.
Proof.
  intros Hle. unfold reports.success_rate.
  destruct (Nat.eqb_spec total 0) as [|Hne]; [discriminate|].
  intros H. injection H as <-. split; [lia|].
  assert (Ht : (0 < Z.of_nat total)%Z) by lia.
  assert (Hs : (0 <= Z.of_nat successful <= Z.of_nat total)%Z) by lia.
  set (s := Z.of_nat successful) in *. set (n := Z.of_nat total) in *.
  assert (Hn : ~ (inject_Z n == 0)%Q).
  { unfold Qeq, inject_Z. simpl. lia. }
  assert (Hdiv : (inject_Z s / inject_Z n * inject_Z n == inject_Z s)%Q)
    by (field; exact Hn).
  assert (H0 : (0 <= inject_Z s / inject_Z n)%Q).
  { apply Qle_shift_div_l; [unfold Qlt, inject_Z; simpl; lia|].
    unfold Qle, inject_Z. simpl. lia. }
  assert (H1 : (inject_Z s / inject_Z n <= 1)%Q).
  { apply Qle_shift_div_r; [unfold Qlt, inject_Z; simpl; lia|].
    rewrite Qmult_1_l, <- Zle_Qle. lia. }
  split; [|split].
  - apply Qmult_le_0_compat; [exact H0|discriminate].
  - setoid_replace (100 : Q) with (1 * 100)%Q at 2 by reflexivity.
    apply Qmult_le_compat_r; [exact H1|discriminate].
  - field. exact Hn.
Qed.

End MoreReport.

Section ReportFigures.

Local Open Scope string_scope.

Lemma generate_returns (rt : runtime.functions)
    (start_date end_date station1 station2 : string)
    (samples : list models.LocationSample) (r : reports.Report) :
  reports.generate_station_report rt start_date end_date station1 station2
    samples = Return r ->
  reports.assemble_report rt start_date end_date station1 station2
    (reports.match_stations rt
       (filter (reports.is_station station1) samples)
       (filter (reports.is_station station2) samples))
  = Return r.
Proof.
  unfold reports.generate_station_report. cbv zeta.
  destruct (negb _); [discriminate|].
  destruct (reports.is_empty samples); [discriminate|].
  destruct (_ || _); [discriminate|].
  destruct (reports.is_empty (reports.match_stations _ _ _)); [discriminate|].
  destruct (reports.assemble_report _ _ _ _ _ _) as [r'|e]; [congruence|].
  destruct e; discriminate.
Qed.

Lemma successful_iff_phrases (text : string) :
  (reports.get_comm_state_value text =? 2)%Z
  || (reports.get_comm_state_value text =? 3)%Z = true <->
  Spec.Substring "loud and clear" (PyStr.lower text) \/
  Spec.Substring "readable noisy" (PyStr.lower text).
Proof.
  rewrite get_comm_state_value_lower. cbv zeta. rewrite <- !contains_iff.
  destruct (PyStr.contains "loud and clear" (PyStr.lower text));
    destruct (PyStr.contains "readable noisy" (PyStr.lower text));
    destruct (PyStr.contains "noisy" (PyStr.lower text)); simpl;
    intuition discriminate.
Qed.

Lemma successful_iff_green (v : Z) :
  (v =? 2)%Z || (v =? 3)%Z = true <->
  openpyxl.fill_color (reports.get_comm_state_style v) = "006400" \/
  openpyxl.fill_color (reports.get_comm_state_style v) = "90EE90".
Proof.
  unfold reports.get_comm_state_style.
  destruct (v =? 3)%Z; [simpl; rewrite orb_true_r; intuition|].
  destruct (v =? 2)%Z; [simpl; intuition|].
  destruct (v =? 1)%Z; simpl; intuition discriminate.
Qed.

End ReportFigures.

(** X12: the matched pairs are numbered 1, 2, ... in their order; there is
    one for each station-1 sample that can be paired with one of the
    station-2 samples (a time match whose distance does not raise), so at
    most as many as station-1 samples; and each pair is made of a station-1
    sample and a station-2 sample of the two lists that are a time match,
    with their distance, the date, time, frequency, power and communication
    state being those of the station-1 sample. *)
Theorem matched_pairs_are_sound :
  forall (rt : runtime.functions)
         (station1_samples station2_samples : list models.LocationSample),
    let matched_pairs :=
      reports.match_stations rt station1_samples station2_samples in
    map reports.serial matched_pairs = seq 1 (List.length matched_pairs) /\
    List.length matched_pairs
    = List.length
        (filter (fun s1 => existsb (Spec.pairable rt s1) station2_samples)
           station1_samples) /\
    (List.length matched_pairs <= List.length station1_samples)%nat /\
    (forall p : reports.MatchedPair,
       In p matched_pairs ->
       exists (s1 s2 : models.LocationSample) (d : float),
         In s1 station1_samples /\ In s2 station2_samples /\
         reports.time_match s1 s2 = true /\
         reports.haversine_distance rt (models.lat s1) (models.lon s1)
           (models.lat s2) (models.lon s2) = Some d /\
         p = Spec.pair_of (reports.serial p) s1 s2 d).
Proof.
  intros rt l1 l2 matched_pairs. subst matched_pairs.
  rewrite match_stations_numbered, numbered_length, numbered_serials.
  split; [reflexivity|]. split; [apply first_matches_length|].
  split; [rewrite first_matches_length; apply filter_length_le|].
  intros p Hp. apply numbered_in in Hp as [k [s1 [s2 [d [Hin ->]]]]].
  apply first_matches_in in Hin as [H1 [H2 [Hm Hd]]].
  exists s1, s2, d. unfold Spec.pairable in Hm.
  apply andb_prop in Hm as [Hm _]. now repeat split.
Qed.

Lemma matched_pairs_are_sound_witness :
  exists (s1 s2 : models.LocationSample) (d : float),
    In s1 [Examples.A] /\ In s2 [Examples.B; Examples.C] /\
    reports.time_match s1 s2 = true /\
    reports.haversine_distance Examples.measured
      (models.lat s1) (models.lon s1) (models.lat s2) (models.lon s2)
    = Some d /\
    Spec.pair_of 1 Examples.A Examples.B 0x1.26629d93e64cap+13
    = Spec.pair_of
        (reports.serial
           (Spec.pair_of 1 Examples.A Examples.B 0x1.26629d93e64cap+13))
        s1 s2 d.
Proof.
  apply (proj2 (proj2 (proj2
           (matched_pairs_are_sound Examples.measured
              [Examples.A] [Examples.B; Examples.C])))).
  left. reflexivity.
Defined.

(** X13: in every report that is generated, the total is the number of rows
    and is not 0, the successful communications are the rows of value 2 or 3
    and are at most the total, and the rate is between 0 and 100 and equal to
    100 times the successful ones over the total.  A row counts as successful
    exactly when the communication state of its station-1 sample, in lower
    case, contains "loud and clear" or "readable noisy", and exactly then its
    cell is filled with one of the two greens.  The name of the file is made
    of the two station names, made safe, and of the two dates. *)
Theorem report_summary_figures :
  forall (rt : runtime.functions)
         (start_date end_date station1 station2 : string)
         (samples : list models.LocationSample) (r : reports.Report),
    reports.generate_station_report rt start_date end_date station1 station2
      samples = Return r ->
    reports.total_pairs r = List.length (reports.rows r) /\
    (0 < reports.total_pairs r)%nat /\
    reports.successful_communications r
    = List.length (filter reports.is_successful (reports.rows r)) /\
    (reports.successful_communications r <= reports.total_pairs r)%nat /\
    (0 <= reports.rate r)%Q /\ (reports.rate r <= 100)%Q /\
    (reports.rate r * inject_Z (Z.of_nat (reports.total_pairs r))
     == 100 * inject_Z (Z.of_nat (reports.successful_communications r)))%Q /\
    (forall p : reports.MatchedPair,
       In p (reports.rows r) ->
       (reports.is_successful p = true <->
        Spec.Substring "loud and clear" (PyStr.lower (reports.comm_state p)) \/
        Spec.Substring "readable noisy" (PyStr.lower (reports.comm_state p))) /\
       (reports.is_successful p = true <->
        openpyxl.fill_color
          (reports.get_comm_state_style (reports.comm_state_value p))
        = "006400"%string \/
        openpyxl.fill_color
          (reports.get_comm_state_style (reports.comm_state_value p))
        = "90EE90"%string)) /\
    reports.filename r
    = reports.report_filename station1 station2 start_date end_date.
Proof.
  intros rt start_date end_date station1 station2 samples r H.
  apply generate_returns in H.
  set (mp := reports.match_stations _ _ _) in *.
  destruct (assemble_report_inv _ _ _ _ _ _ _ H)
    as [Hrows [Htotal [Hsucc [Hrate Hname]]]].
  rewrite Hrows, Htotal, Hsucc in *.
  destruct (success_rate_bounds _ _ _
              (filter_length_le reports.is_successful mp) Hrate)
    as [Hpos [H0 [H100 Heq]]].
  split; [reflexivity|]. split; [exact Hpos|]. split; [reflexivity|].
  split; [apply filter_length_le|]. split; [exact H0|].
  split; [exact H100|]. split; [exact Heq|]. split; [|exact Hname].
  intros p Hp. subst mp. rewrite match_stations_numbered in Hp.
  apply numbered_in in Hp as [k [s1 [s2 [d [_ ->]]]]]. split.
  - unfold reports.is_successful.
    cbn [reports.comm_state_value reports.comm_state Spec.pair_of].
    apply successful_iff_phrases.
  - apply successful_iff_green.
Qed.

(** The report of A with B and C: one row, successful, at 9420.33 m. *)
Lemma report_summary_figures_witness :
  match reports.generate_station_report Examples.measured
          "2024-05-01" "2024-05-01" "alpha" "bravo"
          [Examples.A; Examples.B; Examples.C] with
  | Return r =>
      reports.rows r
      = [Spec.pair_of 1 Examples.A Examples.B 0x1.26629d93e64cap+13] /\
      (reports.rate r <= 100)%Q /\
      reports.filename r
      = "radio_report_alpha_bravo_2024-05-01_2024-05-01.xlsx"%string
  | Raise _ => False
  end.
Proof.
  destruct (reports.generate_station_report Examples.measured
              "2024-05-01" "2024-05-01" "alpha" "bravo"
              [Examples.A; Examples.B; Examples.C]) as [r|e] eqn:E.
  - split; [|split].
    + vm_compute in E. now injection E as <-.
    + apply (report_summary_figures _ _ _ _ _ _ r E).
    + vm_compute in E. now injection E as <-.
  - vm_compute in E. discriminate.
Defined.

Section IncrementalMatching.

Variable rt : runtime.functions.

Lemma numbered_app
    (l l' : list (models.LocationSample * models.LocationSample * float)) :
  forall n,
    Spec.numbered n (l ++ l')
    = Spec.numbered n l ++ Spec.numbered (n + List.length l) l'.
Proof.
  induction l as [|[[s1 s2] d] l IH]; intros n; simpl.
  - now rewrite Nat.add_0_r.
  - rewrite IH. now replace (S n + List.length l)%nat
                  with (n + S (List.length l))%nat by lia.
Qed.

Lemma find_app_found {A : Type} (f : A -> bool) (l extra : list A) :
  existsb f l = true -> find f (l ++ extra) = find f l.
Proof.
  induction l as [|x l IH]; simpl; [discriminate|].
  destruct (f x); [reflexivity|exact IH].
Qed.

Lemma first_matches_more (l1 l2 extra : list models.LocationSample) :
  (forall s1, In s1 l1 -> existsb (Spec.pairable rt s1) l2 = true) ->
  Spec.first_matches rt l1 (l2 ++ extra) = Spec.first_matches rt l1 l2.
Proof.
  unfold Spec.first_matches.
  induction l1 as [|s1 l1 IH]; intros H; simpl; [reflexivity|].
  rewrite find_app_found by (apply H; now left).
  rewrite IH; [reflexivity|]. intros x Hx. apply H. now right.
Qed.

End IncrementalMatching.

(** X14: matching is incremental.  With more station-1 samples at the end
    the pairs found before stay, with their numbers, and those of the new
    samples follow; with more station-2 samples at the end the pairs of the
    station-1 samples that could already be paired (a time match whose
    distance does not raise) are what they were. *)
Theorem matching_is_incremental :
  (forall (rt : runtime.functions) (l1 l1' l2 : list models.LocationSample),
     reports.match_stations rt (l1 ++ l1') l2
     = reports.match_stations rt l1 l2
       ++ Spec.numbered (List.length (reports.match_stations rt l1 l2) + 1)
            (Spec.first_matches rt l1' l2)) /\
  (forall (rt : runtime.functions) (l1 l2 extra : list models.LocationSample),
     (forall s1, In s1 l1 -> existsb (Spec.pairable rt s1) l2 = true) ->
     reports.match_stations rt l1 (l2 ++ extra)
     = reports.match_stations rt l1 l2) /\
  reports.match_stations Examples.measured
    [Examples.P] ([Examples.Q1] ++ [Examples.Q2])
  <> reports.match_stations Examples.measured [Examples.P] [Examples.Q1].
Proof.
  split; [|split].
  - intros rt l1 l1' l2. rewrite !match_stations_numbered, numbered_length.
    unfold Spec.first_matches at 1. rewrite flat_map_app.
    fold (Spec.first_matches rt l1 l2). fold (Spec.first_matches rt l1' l2).
    rewrite numbered_app. f_equal. f_equal. lia.
  - intros rt l1 l2 extra H.
    now rewrite !match_stations_numbered, first_matches_more.
  - discriminate.
Qed.

Lemma matching_is_incremental_witness :
  reports.match_stations Examples.measured
    [Examples.A] ([Examples.B] ++ [Examples.C])
  = reports.match_stations Examples.measured [Examples.A] [Examples.B].
Proof.
  apply (proj1 (proj2 matching_is_incremental)).
  intros s1 [<-|[]]. reflexivity.
Defined.

(** ** The mirror image of two points *)

Section Mirror.

Variable rt : runtime.functions.

Lemma SFsub_opp_opp (x y : spec_float) :
  SFsub prec emax (SFopp x) (SFopp y) = SFsub prec emax y x.
Proof.
  destruct x as [sx|sx| |sx mx ex], y as [sy|sy| |sy my ey];
    try (destruct sx, sy; reflexivity);
    try (destruct sx; reflexivity);
    try (destruct sy; reflexivity);
    try reflexivity.
  simpl. rewrite (Z.min_comm ey ex). f_equal.
  destruct sx, sy; simpl; lia.
Qed.

Lemma sub_opp_opp (x y : float) : (- x - - y)%float = (y - x)%float.
Proof.
  apply Prim2SF_inj. rewrite !sub_spec, !opp_spec. apply SFsub_opp_opp.
Qed.

Lemma math_1_even (func : float -> float) (x : float) :
  (forall y, func (- y)%float = func y) ->
  math.math_1 func (- x) = math.math_1 func x.
Proof.
  intros H. unfold math.math_1. cbv zeta.
  now rewrite H, is_nan_opp, is_finite_opp.
Qed.

Lemma radians_opp (x : float) :
  math.radians (- x) = (- math.radians x)%float.
Proof.
  unfold math.radians. apply mul_opp_l.
Qed.

Lemma haversine_distance_mirror (lat1 lon1 lat2 lon2 : float) :
  (forall z, runtime.sin rt (- z)%float = (- runtime.sin rt z)%float) ->
  (forall z, runtime.cos rt (- z)%float = runtime.cos rt z) ->
  reports.haversine_distance rt (- lat1) lon1 (- lat2) lon2
  = reports.haversine_distance rt lat1 lon1 lat2 lon2.
Proof.
  intros Hs Hc. unfold reports.haversine_distance. cbv zeta.
  rewrite sub_opp_opp, !radians_opp. unfold math.cos.
  rewrite !math_1_even by exact Hc. fold (math.cos rt).
  destruct (sin_half_swap rt lat1 lat2 Hs) as [E|E]; rewrite E;
    destruct (math.sin rt (math.radians (lat2 - lat1) / 2)) as [sin_lat|];
    destruct (math.cos rt (math.radians lat1)) as [cos_lat1|];
    destruct (math.cos rt (math.radians lat2)) as [cos_lat2|];
    destruct (math.sin rt (math.radians (lon2 - lon1) / 2)) as [sin_lon|];
    simpl; try reflexivity.
  now rewrite mul_opp_opp.
Qed.

End Mirror.

(** X15: [haversine_distance] has the same outcome, value or exception,
    when both points are mirrored in the equator, for every C library whose
    sine is odd and whose cosine is even. *)
Theorem haversine_equator_mirror :
  forall rt : runtime.functions,
    (forall z, runtime.sin rt (- z)%float = (- runtime.sin rt z)%float) ->
    (forall z, runtime.cos rt (- z)%float = runtime.cos rt z) ->
    forall lat1 lon1 lat2 lon2 : float,
      reports.haversine_distance rt (- lat1) lon1 (- lat2) lon2
      = reports.haversine_distance rt lat1 lon1 lat2 lon2.
Proof.
  intros rt Hs Hc lat1 lon1 lat2 lon2. now apply haversine_distance_mirror.
Qed.

Lemma haversine_equator_mirror_witness :
  reports.haversine_distance Examples.small_angles
    (PrimFloat.opp 23.75) 90.5 (PrimFloat.opp 23.8125) 90.5625
  = reports.haversine_distance Examples.small_angles
      23.75 90.5 23.8125 90.5625.
Proof.
  apply (haversine_equator_mirror Examples.small_angles); reflexivity.
Defined.
